(** * The entrypoint of the Omni bare metal infra provider

    A shallow embedding of [cmd/provider/main.go]: the package-level
    variables, the flag registrations of [init], the root command, [run],
    [runCmd] and [main], together with a model of the parts of the flag and
    command libraries that the entrypoint drives. *)

From Stdlib Require Import String Ascii List ZArith Bool Lia.
Import ListNotations.
Open Scope string_scope.
Open Scope list_scope.

(** ** Strings *)

(** The double quote character, for the usage texts that contain one. *)
Definition dquote : string := String (ascii_of_nat 34) EmptyString.

(** [strings.Contains]. *)
Fixpoint contains (sub s : string) : bool :=
  if prefix sub s then true
  else match s with
       | EmptyString => false
       | String _ s' => contains sub s'
       end.

(** [strings.SplitN(s, "=", 2)]: the text before the first [=] and, when
    there is one, the text after it. *)
Fixpoint splitEq (s : string) : string * option string :=
  match s with
  | EmptyString => (EmptyString, None)
  | String c s' =>
      if Ascii.eqb c "="%char then (EmptyString, Some s')
      else let (n, v) := splitEq s' in (String c n, v)
  end.

(** ** Errors

    Go error values: a leaf with a message, the wrapping done by
    [fmt.Errorf] with the [%w] verb, which keeps the wrapped value, and the
    sentinel [pflag.ErrHelp]. *)
Inductive error : Type :=
| errorString (msg : string)
| wrapError (msg : string) (err : error)
| ErrHelp.

(** [errors.Unwrap]. *)
Definition Unwrap (e : error) : option error :=
  match e with
  | errorString _ => None
  | wrapError _ inner => Some inner
  | ErrHelp => None
  end.

(** [errors.Is err pflag.ErrHelp]: the sentinel is looked for along the
    chain of wrapped values. *)
Fixpoint isErrHelp (e : error) : bool :=
  match e with
  | errorString _ => false
  | wrapError _ inner => isErrHelp inner
  | ErrHelp => true
  end.

(** [err.Error()] of a wrapped error: the message followed by the text of the
    wrapped value. *)
Fixpoint Error (e : error) : string :=
  match e with
  | errorString m => m
  | wrapError m inner => m ++ Error inner
  | ErrHelp => "pflag: help requested"
  end.

(** [time.Duration] is a count of nanoseconds. *)
Definition Duration : Type := Z.

(** ** provider.Options

    The fields are those [init] binds a flag to; their types are those of the
    registration function used for each. *)

Module TLSOptions.

Record t : Type := mk {
  Enabled : bool;
  APIPort : Z;
  AgentSkipVerify : bool;
  CATTL : Duration;
  CertTTL : Duration
}.

Definition set_Enabled (v : bool) (o : t) : t :=
  mk v (APIPort o) (AgentSkipVerify o) (CATTL o) (CertTTL o).

Definition set_APIPort (v : Z) (o : t) : t :=
  mk (Enabled o) v (AgentSkipVerify o) (CATTL o) (CertTTL o).

Definition set_AgentSkipVerify (v : bool) (o : t) : t :=
  mk (Enabled o) (APIPort o) v (CATTL o) (CertTTL o).

Definition set_CATTL (v : Duration) (o : t) : t :=
  mk (Enabled o) (APIPort o) (AgentSkipVerify o) v (CertTTL o).

Definition set_CertTTL (v : Duration) (o : t) : t :=
  mk (Enabled o) (APIPort o) (AgentSkipVerify o) (CATTL o) v.

End TLSOptions.

Module RedfishOptions.

Record t : Type := mk {
  UseAlways : bool;
  UseWhenAvailable : bool;
  UseHTTPS : bool;
  InsecureSkipTLSVerify : bool;
  Port : Z;
  SetBootSourceOverrideMode : bool
}.

Definition set_UseAlways (v : bool) (o : t) : t :=
  mk v (UseWhenAvailable o) (UseHTTPS o) (InsecureSkipTLSVerify o) (Port o) (SetBootSourceOverrideMode o).

Definition set_UseWhenAvailable (v : bool) (o : t) : t :=
  mk (UseAlways o) v (UseHTTPS o) (InsecureSkipTLSVerify o) (Port o) (SetBootSourceOverrideMode o).

Definition set_UseHTTPS (v : bool) (o : t) : t :=
  mk (UseAlways o) (UseWhenAvailable o) v (InsecureSkipTLSVerify o) (Port o) (SetBootSourceOverrideMode o).

Definition set_InsecureSkipTLSVerify (v : bool) (o : t) : t :=
  mk (UseAlways o) (UseWhenAvailable o) (UseHTTPS o) v (Port o) (SetBootSourceOverrideMode o).

Definition set_Port (v : Z) (o : t) : t :=
  mk (UseAlways o) (UseWhenAvailable o) (UseHTTPS o) (InsecureSkipTLSVerify o) v (SetBootSourceOverrideMode o).

Definition set_SetBootSourceOverrideMode (v : bool) (o : t) : t :=
  mk (UseAlways o) (UseWhenAvailable o) (UseHTTPS o) (InsecureSkipTLSVerify o) (Port o) v.

End RedfishOptions.

Module Options.

Record t : Type := mk {
  APIListenAddress : string;
  APIAdvertiseAddress : string;
  APIPort : Z;
  OmniAPIEndpoint : string;
  Name : string;
  Description : string;
  UseLocalBootAssets : bool;
  DHCPProxyIfaceOrIP : string;
  ImageFactoryBaseURL : string;
  ImageFactoryPXEBaseURL : string;
  AgentModeTalosVersion : string;
  AgentTestMode : bool;
  APIPowerMgmtStateDir : string;
  BootFromDiskMethod : string;
  IPMIPXEBootMode : string;
  MachineLabels : list string;
  InsecureSkipTLSVerify : bool;
  MinRebootInterval : Duration;
  ClearState : bool;
  EnableResourceCache : bool;
  WipeWithZeroes : bool;
  DisableDHCPProxy : bool;
  TLS : TLSOptions.t;
  Redfish : RedfishOptions.t
}.

Definition set_APIListenAddress (v : string) (o : t) : t :=
  mk v (APIAdvertiseAddress o) (APIPort o) (OmniAPIEndpoint o) (Name o) (Description o) (UseLocalBootAssets o) (DHCPProxyIfaceOrIP o) (ImageFactoryBaseURL o) (ImageFactoryPXEBaseURL o) (AgentModeTalosVersion o) (AgentTestMode o) (APIPowerMgmtStateDir o) (BootFromDiskMethod o) (IPMIPXEBootMode o) (MachineLabels o) (InsecureSkipTLSVerify o) (MinRebootInterval o) (ClearState o) (EnableResourceCache o) (WipeWithZeroes o) (DisableDHCPProxy o) (TLS o) (Redfish o).

Definition set_APIAdvertiseAddress (v : string) (o : t) : t :=
  mk (APIListenAddress o) v (APIPort o) (OmniAPIEndpoint o) (Name o) (Description o) (UseLocalBootAssets o) (DHCPProxyIfaceOrIP o) (ImageFactoryBaseURL o) (ImageFactoryPXEBaseURL o) (AgentModeTalosVersion o) (AgentTestMode o) (APIPowerMgmtStateDir o) (BootFromDiskMethod o) (IPMIPXEBootMode o) (MachineLabels o) (InsecureSkipTLSVerify o) (MinRebootInterval o) (ClearState o) (EnableResourceCache o) (WipeWithZeroes o) (DisableDHCPProxy o) (TLS o) (Redfish o).

Definition set_APIPort (v : Z) (o : t) : t :=
  mk (APIListenAddress o) (APIAdvertiseAddress o) v (OmniAPIEndpoint o) (Name o) (Description o) (UseLocalBootAssets o) (DHCPProxyIfaceOrIP o) (ImageFactoryBaseURL o) (ImageFactoryPXEBaseURL o) (AgentModeTalosVersion o) (AgentTestMode o) (APIPowerMgmtStateDir o) (BootFromDiskMethod o) (IPMIPXEBootMode o) (MachineLabels o) (InsecureSkipTLSVerify o) (MinRebootInterval o) (ClearState o) (EnableResourceCache o) (WipeWithZeroes o) (DisableDHCPProxy o) (TLS o) (Redfish o).

Definition set_OmniAPIEndpoint (v : string) (o : t) : t :=
  mk (APIListenAddress o) (APIAdvertiseAddress o) (APIPort o) v (Name o) (Description o) (UseLocalBootAssets o) (DHCPProxyIfaceOrIP o) (ImageFactoryBaseURL o) (ImageFactoryPXEBaseURL o) (AgentModeTalosVersion o) (AgentTestMode o) (APIPowerMgmtStateDir o) (BootFromDiskMethod o) (IPMIPXEBootMode o) (MachineLabels o) (InsecureSkipTLSVerify o) (MinRebootInterval o) (ClearState o) (EnableResourceCache o) (WipeWithZeroes o) (DisableDHCPProxy o) (TLS o) (Redfish o).

Definition set_Name (v : string) (o : t) : t :=
  mk (APIListenAddress o) (APIAdvertiseAddress o) (APIPort o) (OmniAPIEndpoint o) v (Description o) (UseLocalBootAssets o) (DHCPProxyIfaceOrIP o) (ImageFactoryBaseURL o) (ImageFactoryPXEBaseURL o) (AgentModeTalosVersion o) (AgentTestMode o) (APIPowerMgmtStateDir o) (BootFromDiskMethod o) (IPMIPXEBootMode o) (MachineLabels o) (InsecureSkipTLSVerify o) (MinRebootInterval o) (ClearState o) (EnableResourceCache o) (WipeWithZeroes o) (DisableDHCPProxy o) (TLS o) (Redfish o).

Definition set_Description (v : string) (o : t) : t :=
  mk (APIListenAddress o) (APIAdvertiseAddress o) (APIPort o) (OmniAPIEndpoint o) (Name o) v (UseLocalBootAssets o) (DHCPProxyIfaceOrIP o) (ImageFactoryBaseURL o) (ImageFactoryPXEBaseURL o) (AgentModeTalosVersion o) (AgentTestMode o) (APIPowerMgmtStateDir o) (BootFromDiskMethod o) (IPMIPXEBootMode o) (MachineLabels o) (InsecureSkipTLSVerify o) (MinRebootInterval o) (ClearState o) (EnableResourceCache o) (WipeWithZeroes o) (DisableDHCPProxy o) (TLS o) (Redfish o).

Definition set_UseLocalBootAssets (v : bool) (o : t) : t :=
  mk (APIListenAddress o) (APIAdvertiseAddress o) (APIPort o) (OmniAPIEndpoint o) (Name o) (Description o) v (DHCPProxyIfaceOrIP o) (ImageFactoryBaseURL o) (ImageFactoryPXEBaseURL o) (AgentModeTalosVersion o) (AgentTestMode o) (APIPowerMgmtStateDir o) (BootFromDiskMethod o) (IPMIPXEBootMode o) (MachineLabels o) (InsecureSkipTLSVerify o) (MinRebootInterval o) (ClearState o) (EnableResourceCache o) (WipeWithZeroes o) (DisableDHCPProxy o) (TLS o) (Redfish o).

Definition set_DHCPProxyIfaceOrIP (v : string) (o : t) : t :=
  mk (APIListenAddress o) (APIAdvertiseAddress o) (APIPort o) (OmniAPIEndpoint o) (Name o) (Description o) (UseLocalBootAssets o) v (ImageFactoryBaseURL o) (ImageFactoryPXEBaseURL o) (AgentModeTalosVersion o) (AgentTestMode o) (APIPowerMgmtStateDir o) (BootFromDiskMethod o) (IPMIPXEBootMode o) (MachineLabels o) (InsecureSkipTLSVerify o) (MinRebootInterval o) (ClearState o) (EnableResourceCache o) (WipeWithZeroes o) (DisableDHCPProxy o) (TLS o) (Redfish o).

Definition set_ImageFactoryBaseURL (v : string) (o : t) : t :=
  mk (APIListenAddress o) (APIAdvertiseAddress o) (APIPort o) (OmniAPIEndpoint o) (Name o) (Description o) (UseLocalBootAssets o) (DHCPProxyIfaceOrIP o) v (ImageFactoryPXEBaseURL o) (AgentModeTalosVersion o) (AgentTestMode o) (APIPowerMgmtStateDir o) (BootFromDiskMethod o) (IPMIPXEBootMode o) (MachineLabels o) (InsecureSkipTLSVerify o) (MinRebootInterval o) (ClearState o) (EnableResourceCache o) (WipeWithZeroes o) (DisableDHCPProxy o) (TLS o) (Redfish o).

Definition set_ImageFactoryPXEBaseURL (v : string) (o : t) : t :=
  mk (APIListenAddress o) (APIAdvertiseAddress o) (APIPort o) (OmniAPIEndpoint o) (Name o) (Description o) (UseLocalBootAssets o) (DHCPProxyIfaceOrIP o) (ImageFactoryBaseURL o) v (AgentModeTalosVersion o) (AgentTestMode o) (APIPowerMgmtStateDir o) (BootFromDiskMethod o) (IPMIPXEBootMode o) (MachineLabels o) (InsecureSkipTLSVerify o) (MinRebootInterval o) (ClearState o) (EnableResourceCache o) (WipeWithZeroes o) (DisableDHCPProxy o) (TLS o) (Redfish o).

Definition set_AgentModeTalosVersion (v : string) (o : t) : t :=
  mk (APIListenAddress o) (APIAdvertiseAddress o) (APIPort o) (OmniAPIEndpoint o) (Name o) (Description o) (UseLocalBootAssets o) (DHCPProxyIfaceOrIP o) (ImageFactoryBaseURL o) (ImageFactoryPXEBaseURL o) v (AgentTestMode o) (APIPowerMgmtStateDir o) (BootFromDiskMethod o) (IPMIPXEBootMode o) (MachineLabels o) (InsecureSkipTLSVerify o) (MinRebootInterval o) (ClearState o) (EnableResourceCache o) (WipeWithZeroes o) (DisableDHCPProxy o) (TLS o) (Redfish o).

Definition set_AgentTestMode (v : bool) (o : t) : t :=
  mk (APIListenAddress o) (APIAdvertiseAddress o) (APIPort o) (OmniAPIEndpoint o) (Name o) (Description o) (UseLocalBootAssets o) (DHCPProxyIfaceOrIP o) (ImageFactoryBaseURL o) (ImageFactoryPXEBaseURL o) (AgentModeTalosVersion o) v (APIPowerMgmtStateDir o) (BootFromDiskMethod o) (IPMIPXEBootMode o) (MachineLabels o) (InsecureSkipTLSVerify o) (MinRebootInterval o) (ClearState o) (EnableResourceCache o) (WipeWithZeroes o) (DisableDHCPProxy o) (TLS o) (Redfish o).

Definition set_APIPowerMgmtStateDir (v : string) (o : t) : t :=
  mk (APIListenAddress o) (APIAdvertiseAddress o) (APIPort o) (OmniAPIEndpoint o) (Name o) (Description o) (UseLocalBootAssets o) (DHCPProxyIfaceOrIP o) (ImageFactoryBaseURL o) (ImageFactoryPXEBaseURL o) (AgentModeTalosVersion o) (AgentTestMode o) v (BootFromDiskMethod o) (IPMIPXEBootMode o) (MachineLabels o) (InsecureSkipTLSVerify o) (MinRebootInterval o) (ClearState o) (EnableResourceCache o) (WipeWithZeroes o) (DisableDHCPProxy o) (TLS o) (Redfish o).

Definition set_BootFromDiskMethod (v : string) (o : t) : t :=
  mk (APIListenAddress o) (APIAdvertiseAddress o) (APIPort o) (OmniAPIEndpoint o) (Name o) (Description o) (UseLocalBootAssets o) (DHCPProxyIfaceOrIP o) (ImageFactoryBaseURL o) (ImageFactoryPXEBaseURL o) (AgentModeTalosVersion o) (AgentTestMode o) (APIPowerMgmtStateDir o) v (IPMIPXEBootMode o) (MachineLabels o) (InsecureSkipTLSVerify o) (MinRebootInterval o) (ClearState o) (EnableResourceCache o) (WipeWithZeroes o) (DisableDHCPProxy o) (TLS o) (Redfish o).

Definition set_IPMIPXEBootMode (v : string) (o : t) : t :=
  mk (APIListenAddress o) (APIAdvertiseAddress o) (APIPort o) (OmniAPIEndpoint o) (Name o) (Description o) (UseLocalBootAssets o) (DHCPProxyIfaceOrIP o) (ImageFactoryBaseURL o) (ImageFactoryPXEBaseURL o) (AgentModeTalosVersion o) (AgentTestMode o) (APIPowerMgmtStateDir o) (BootFromDiskMethod o) v (MachineLabels o) (InsecureSkipTLSVerify o) (MinRebootInterval o) (ClearState o) (EnableResourceCache o) (WipeWithZeroes o) (DisableDHCPProxy o) (TLS o) (Redfish o).

Definition set_MachineLabels (v : list string) (o : t) : t :=
  mk (APIListenAddress o) (APIAdvertiseAddress o) (APIPort o) (OmniAPIEndpoint o) (Name o) (Description o) (UseLocalBootAssets o) (DHCPProxyIfaceOrIP o) (ImageFactoryBaseURL o) (ImageFactoryPXEBaseURL o) (AgentModeTalosVersion o) (AgentTestMode o) (APIPowerMgmtStateDir o) (BootFromDiskMethod o) (IPMIPXEBootMode o) v (InsecureSkipTLSVerify o) (MinRebootInterval o) (ClearState o) (EnableResourceCache o) (WipeWithZeroes o) (DisableDHCPProxy o) (TLS o) (Redfish o).

Definition set_InsecureSkipTLSVerify (v : bool) (o : t) : t :=
  mk (APIListenAddress o) (APIAdvertiseAddress o) (APIPort o) (OmniAPIEndpoint o) (Name o) (Description o) (UseLocalBootAssets o) (DHCPProxyIfaceOrIP o) (ImageFactoryBaseURL o) (ImageFactoryPXEBaseURL o) (AgentModeTalosVersion o) (AgentTestMode o) (APIPowerMgmtStateDir o) (BootFromDiskMethod o) (IPMIPXEBootMode o) (MachineLabels o) v (MinRebootInterval o) (ClearState o) (EnableResourceCache o) (WipeWithZeroes o) (DisableDHCPProxy o) (TLS o) (Redfish o).

Definition set_MinRebootInterval (v : Duration) (o : t) : t :=
  mk (APIListenAddress o) (APIAdvertiseAddress o) (APIPort o) (OmniAPIEndpoint o) (Name o) (Description o) (UseLocalBootAssets o) (DHCPProxyIfaceOrIP o) (ImageFactoryBaseURL o) (ImageFactoryPXEBaseURL o) (AgentModeTalosVersion o) (AgentTestMode o) (APIPowerMgmtStateDir o) (BootFromDiskMethod o) (IPMIPXEBootMode o) (MachineLabels o) (InsecureSkipTLSVerify o) v (ClearState o) (EnableResourceCache o) (WipeWithZeroes o) (DisableDHCPProxy o) (TLS o) (Redfish o).

Definition set_ClearState (v : bool) (o : t) : t :=
  mk (APIListenAddress o) (APIAdvertiseAddress o) (APIPort o) (OmniAPIEndpoint o) (Name o) (Description o) (UseLocalBootAssets o) (DHCPProxyIfaceOrIP o) (ImageFactoryBaseURL o) (ImageFactoryPXEBaseURL o) (AgentModeTalosVersion o) (AgentTestMode o) (APIPowerMgmtStateDir o) (BootFromDiskMethod o) (IPMIPXEBootMode o) (MachineLabels o) (InsecureSkipTLSVerify o) (MinRebootInterval o) v (EnableResourceCache o) (WipeWithZeroes o) (DisableDHCPProxy o) (TLS o) (Redfish o).

Definition set_EnableResourceCache (v : bool) (o : t) : t :=
  mk (APIListenAddress o) (APIAdvertiseAddress o) (APIPort o) (OmniAPIEndpoint o) (Name o) (Description o) (UseLocalBootAssets o) (DHCPProxyIfaceOrIP o) (ImageFactoryBaseURL o) (ImageFactoryPXEBaseURL o) (AgentModeTalosVersion o) (AgentTestMode o) (APIPowerMgmtStateDir o) (BootFromDiskMethod o) (IPMIPXEBootMode o) (MachineLabels o) (InsecureSkipTLSVerify o) (MinRebootInterval o) (ClearState o) v (WipeWithZeroes o) (DisableDHCPProxy o) (TLS o) (Redfish o).

Definition set_WipeWithZeroes (v : bool) (o : t) : t :=
  mk (APIListenAddress o) (APIAdvertiseAddress o) (APIPort o) (OmniAPIEndpoint o) (Name o) (Description o) (UseLocalBootAssets o) (DHCPProxyIfaceOrIP o) (ImageFactoryBaseURL o) (ImageFactoryPXEBaseURL o) (AgentModeTalosVersion o) (AgentTestMode o) (APIPowerMgmtStateDir o) (BootFromDiskMethod o) (IPMIPXEBootMode o) (MachineLabels o) (InsecureSkipTLSVerify o) (MinRebootInterval o) (ClearState o) (EnableResourceCache o) v (DisableDHCPProxy o) (TLS o) (Redfish o).

Definition set_DisableDHCPProxy (v : bool) (o : t) : t :=
  mk (APIListenAddress o) (APIAdvertiseAddress o) (APIPort o) (OmniAPIEndpoint o) (Name o) (Description o) (UseLocalBootAssets o) (DHCPProxyIfaceOrIP o) (ImageFactoryBaseURL o) (ImageFactoryPXEBaseURL o) (AgentModeTalosVersion o) (AgentTestMode o) (APIPowerMgmtStateDir o) (BootFromDiskMethod o) (IPMIPXEBootMode o) (MachineLabels o) (InsecureSkipTLSVerify o) (MinRebootInterval o) (ClearState o) (EnableResourceCache o) (WipeWithZeroes o) v (TLS o) (Redfish o).

Definition set_TLS (v : TLSOptions.t) (o : t) : t :=
  mk (APIListenAddress o) (APIAdvertiseAddress o) (APIPort o) (OmniAPIEndpoint o) (Name o) (Description o) (UseLocalBootAssets o) (DHCPProxyIfaceOrIP o) (ImageFactoryBaseURL o) (ImageFactoryPXEBaseURL o) (AgentModeTalosVersion o) (AgentTestMode o) (APIPowerMgmtStateDir o) (BootFromDiskMethod o) (IPMIPXEBootMode o) (MachineLabels o) (InsecureSkipTLSVerify o) (MinRebootInterval o) (ClearState o) (EnableResourceCache o) (WipeWithZeroes o) (DisableDHCPProxy o) v (Redfish o).

Definition set_Redfish (v : RedfishOptions.t) (o : t) : t :=
  mk (APIListenAddress o) (APIAdvertiseAddress o) (APIPort o) (OmniAPIEndpoint o) (Name o) (Description o) (UseLocalBootAssets o) (DHCPProxyIfaceOrIP o) (ImageFactoryBaseURL o) (ImageFactoryPXEBaseURL o) (AgentModeTalosVersion o) (AgentTestMode o) (APIPowerMgmtStateDir o) (BootFromDiskMethod o) (IPMIPXEBootMode o) (MachineLabels o) (InsecureSkipTLSVerify o) (MinRebootInterval o) (ClearState o) (EnableResourceCache o) (WipeWithZeroes o) (DisableDHCPProxy o) (TLS o) v.

End Options.

(** The value of a Go variable before anything is assigned to it. *)
Definition zeroTLS : TLSOptions.t := TLSOptions.mk false 0%Z false 0%Z 0%Z.
Definition zeroRedfish : RedfishOptions.t :=
  RedfishOptions.mk false false false false 0%Z false.
Definition zeroOptions : Options.t :=
  Options.mk EmptyString EmptyString 0%Z EmptyString EmptyString EmptyString false
    EmptyString EmptyString EmptyString EmptyString false EmptyString
    EmptyString EmptyString [] false 0%Z false false false false zeroTLS
    zeroRedfish.

(** ** Addresses of the fields *)

(** The [bool] fields of the options, as the targets [&providerOptions.F] of [BoolVar]. *)
Inductive BoolField : Type :=
| f_UseLocalBootAssets
| f_AgentTestMode
| f_InsecureSkipTLSVerify
| f_ClearState
| f_EnableResourceCache
| f_WipeWithZeroes
| f_DisableDHCPProxy
| f_TLS_Enabled
| f_TLS_AgentSkipVerify
| f_Redfish_UseAlways
| f_Redfish_UseWhenAvailable
| f_Redfish_UseHTTPS
| f_Redfish_InsecureSkipTLSVerify
| f_Redfish_SetBootSourceOverrideMode.

Definition get_bool (f : BoolField) (o : Options.t) : bool :=
  match f with
  | f_UseLocalBootAssets => Options.UseLocalBootAssets o
  | f_AgentTestMode => Options.AgentTestMode o
  | f_InsecureSkipTLSVerify => Options.InsecureSkipTLSVerify o
  | f_ClearState => Options.ClearState o
  | f_EnableResourceCache => Options.EnableResourceCache o
  | f_WipeWithZeroes => Options.WipeWithZeroes o
  | f_DisableDHCPProxy => Options.DisableDHCPProxy o
  | f_TLS_Enabled => TLSOptions.Enabled (Options.TLS o)
  | f_TLS_AgentSkipVerify => TLSOptions.AgentSkipVerify (Options.TLS o)
  | f_Redfish_UseAlways => RedfishOptions.UseAlways (Options.Redfish o)
  | f_Redfish_UseWhenAvailable => RedfishOptions.UseWhenAvailable (Options.Redfish o)
  | f_Redfish_UseHTTPS => RedfishOptions.UseHTTPS (Options.Redfish o)
  | f_Redfish_InsecureSkipTLSVerify => RedfishOptions.InsecureSkipTLSVerify (Options.Redfish o)
  | f_Redfish_SetBootSourceOverrideMode => RedfishOptions.SetBootSourceOverrideMode (Options.Redfish o)
  end.

Definition set_bool (f : BoolField) (v : bool) (o : Options.t) : Options.t :=
  match f with
  | f_UseLocalBootAssets => Options.set_UseLocalBootAssets v o
  | f_AgentTestMode => Options.set_AgentTestMode v o
  | f_InsecureSkipTLSVerify => Options.set_InsecureSkipTLSVerify v o
  | f_ClearState => Options.set_ClearState v o
  | f_EnableResourceCache => Options.set_EnableResourceCache v o
  | f_WipeWithZeroes => Options.set_WipeWithZeroes v o
  | f_DisableDHCPProxy => Options.set_DisableDHCPProxy v o
  | f_TLS_Enabled => Options.set_TLS (TLSOptions.set_Enabled v (Options.TLS o)) o
  | f_TLS_AgentSkipVerify => Options.set_TLS (TLSOptions.set_AgentSkipVerify v (Options.TLS o)) o
  | f_Redfish_UseAlways => Options.set_Redfish (RedfishOptions.set_UseAlways v (Options.Redfish o)) o
  | f_Redfish_UseWhenAvailable => Options.set_Redfish (RedfishOptions.set_UseWhenAvailable v (Options.Redfish o)) o
  | f_Redfish_UseHTTPS => Options.set_Redfish (RedfishOptions.set_UseHTTPS v (Options.Redfish o)) o
  | f_Redfish_InsecureSkipTLSVerify => Options.set_Redfish (RedfishOptions.set_InsecureSkipTLSVerify v (Options.Redfish o)) o
  | f_Redfish_SetBootSourceOverrideMode => Options.set_Redfish (RedfishOptions.set_SetBootSourceOverrideMode v (Options.Redfish o)) o
  end.

(** The [string] fields, targets of [StringVar]. *)
Inductive StringField : Type :=
| f_APIListenAddress
| f_APIAdvertiseAddress
| f_OmniAPIEndpoint
| f_Name
| f_Description
| f_DHCPProxyIfaceOrIP
| f_ImageFactoryBaseURL
| f_ImageFactoryPXEBaseURL
| f_AgentModeTalosVersion
| f_APIPowerMgmtStateDir
| f_BootFromDiskMethod
| f_IPMIPXEBootMode.

Definition get_string (f : StringField) (o : Options.t) : string :=
  match f with
  | f_APIListenAddress => Options.APIListenAddress o
  | f_APIAdvertiseAddress => Options.APIAdvertiseAddress o
  | f_OmniAPIEndpoint => Options.OmniAPIEndpoint o
  | f_Name => Options.Name o
  | f_Description => Options.Description o
  | f_DHCPProxyIfaceOrIP => Options.DHCPProxyIfaceOrIP o
  | f_ImageFactoryBaseURL => Options.ImageFactoryBaseURL o
  | f_ImageFactoryPXEBaseURL => Options.ImageFactoryPXEBaseURL o
  | f_AgentModeTalosVersion => Options.AgentModeTalosVersion o
  | f_APIPowerMgmtStateDir => Options.APIPowerMgmtStateDir o
  | f_BootFromDiskMethod => Options.BootFromDiskMethod o
  | f_IPMIPXEBootMode => Options.IPMIPXEBootMode o
  end.

Definition set_string (f : StringField) (v : string) (o : Options.t) : Options.t :=
  match f with
  | f_APIListenAddress => Options.set_APIListenAddress v o
  | f_APIAdvertiseAddress => Options.set_APIAdvertiseAddress v o
  | f_OmniAPIEndpoint => Options.set_OmniAPIEndpoint v o
  | f_Name => Options.set_Name v o
  | f_Description => Options.set_Description v o
  | f_DHCPProxyIfaceOrIP => Options.set_DHCPProxyIfaceOrIP v o
  | f_ImageFactoryBaseURL => Options.set_ImageFactoryBaseURL v o
  | f_ImageFactoryPXEBaseURL => Options.set_ImageFactoryPXEBaseURL v o
  | f_AgentModeTalosVersion => Options.set_AgentModeTalosVersion v o
  | f_APIPowerMgmtStateDir => Options.set_APIPowerMgmtStateDir v o
  | f_BootFromDiskMethod => Options.set_BootFromDiskMethod v o
  | f_IPMIPXEBootMode => Options.set_IPMIPXEBootMode v o
  end.

(** The [int] fields, targets of [IntVar]. *)
Inductive IntField : Type :=
| f_APIPort
| f_TLS_APIPort
| f_Redfish_Port.

Definition get_int (f : IntField) (o : Options.t) : Z :=
  match f with
  | f_APIPort => Options.APIPort o
  | f_TLS_APIPort => TLSOptions.APIPort (Options.TLS o)
  | f_Redfish_Port => RedfishOptions.Port (Options.Redfish o)
  end.

Definition set_int (f : IntField) (v : Z) (o : Options.t) : Options.t :=
  match f with
  | f_APIPort => Options.set_APIPort v o
  | f_TLS_APIPort => Options.set_TLS (TLSOptions.set_APIPort v (Options.TLS o)) o
  | f_Redfish_Port => Options.set_Redfish (RedfishOptions.set_Port v (Options.Redfish o)) o
  end.

(** The [time.Duration] fields, targets of [DurationVar]. *)
Inductive DurationField : Type :=
| f_MinRebootInterval
| f_TLS_CATTL
| f_TLS_CertTTL.

Definition get_duration (f : DurationField) (o : Options.t) : Duration :=
  match f with
  | f_MinRebootInterval => Options.MinRebootInterval o
  | f_TLS_CATTL => TLSOptions.CATTL (Options.TLS o)
  | f_TLS_CertTTL => TLSOptions.CertTTL (Options.TLS o)
  end.

Definition set_duration (f : DurationField) (v : Duration) (o : Options.t) : Options.t :=
  match f with
  | f_MinRebootInterval => Options.set_MinRebootInterval v o
  | f_TLS_CATTL => Options.set_TLS (TLSOptions.set_CATTL v (Options.TLS o)) o
  | f_TLS_CertTTL => Options.set_TLS (TLSOptions.set_CertTTL v (Options.TLS o)) o
  end.

(** ** The values named in the usage texts *)

(** Modelled from the spec: the declaration of [ipxe.BootFromDiskMethod] is
    not part of the entrypoint; its three constants are the ones [init]
    names, which the spec calls exit-to-disk, not-found and SAN-disk. *)
Inductive BootFromDiskMethod : Type :=
| BootIPXEExit
| Boot404
| BootSANDisk.

(** Modelled from the spec: the declaration of [pxe.BootMode] is not part of
    the entrypoint; its two constants are the ones [init] names, BIOS and
    UEFI. *)
Inductive BootMode : Type :=
| BootModeBIOS
| BootModeUEFI.

(** An operand of [fmt.Sprintf] in a usage text. *)
Inductive FmtArg : Type :=
| argString (s : string)
| argBootFromDiskMethods (l : list BootFromDiskMethod)
| argBootModes (l : list BootMode).

(** A usage text: a literal, or [fmt.Sprintf format args], kept unrendered
    because the string forms of the constants live in other packages. *)
Inductive Usage : Type :=
| Text (s : string)
| Sprintf (format : string) (args : list FmtArg).

Definition usageArgs (u : Usage) : list FmtArg :=
  match u with
  | Text _ => []
  | Sprintf _ args => args
  end.

(** ** Signals and contexts *)

Inductive Signal : Type :=
| SIGHUP
| SIGINT
| SIGQUIT
| SIGKILL
| SIGUSR1
| SIGTERM.

(** [os.Interrupt]. *)
Definition os_Interrupt : Signal := SIGINT.

Definition Signal_eqb (a b : Signal) : bool :=
  match a, b with
  | SIGHUP, SIGHUP | SIGINT, SIGINT | SIGQUIT, SIGQUIT
  | SIGKILL, SIGKILL | SIGUSR1, SIGUSR1 | SIGTERM, SIGTERM => true
  | _, _ => false
  end.

(** A [context.Context]: the nil interface value, [context.Background()],
    or the child made by [signal.NotifyContext parent sigs]. *)
Inductive Context : Type :=
| nilContext
| Background
| NotifyContext (parent : Context) (sigs : list Signal).

(** What can happen to the process while it runs: a signal is delivered, or
    the stop function returned by [signal.NotifyContext] is called. *)
Inductive Occurrence : Type :=
| Delivered (s : Signal)
| Stopped.

(** Whether a context is done after a history of occurrences.  The
    background context never is; a notify context is done when its parent
    is, when one of its signals has arrived, or when its stop function has
    been called. *)
Fixpoint done (c : Context) (h : list Occurrence) : bool :=
  match c with
  | nilContext => false
  | Background => false
  | NotifyContext parent sigs =>
      done parent h
      || existsb (fun o => match o with
                           | Delivered s => existsb (Signal_eqb s) sigs
                           | Stopped => true
                           end) h
  end.

(** ** Logging *)

Inductive zapLevel : Type :=
| DebugLevel
| InfoLevel
| WarnLevel
| ErrorLevel
| FatalLevel.

Inductive LevelEncoder : Type :=
| LowercaseLevelEncoder
| CapitalLevelEncoder
| CapitalColorLevelEncoder.

Module zap.
Record Config : Type := mkConfig {
  Development : bool;
  EncodeLevel : LevelEncoder;
  Level : zapLevel
}.
Definition NewDevelopmentConfig : Config :=
  mkConfig true CapitalLevelEncoder DebugLevel.
Definition NewProductionConfig : Config :=
  mkConfig false LowercaseLevelEncoder InfoLevel.
Definition SetLevel (l : zapLevel) (c : Config) : Config :=
  mkConfig (Development c) (EncodeLevel c) l.
Definition SetEncodeLevel (e : LevelEncoder) (c : Config) : Config :=
  mkConfig (Development c) e (Level c).
(** A logger built from a configuration with [zap.AddStacktrace]. *)
Record Logger : Type := mkLogger {
  config : Config;
  stacktrace : zapLevel
}.
End zap.

(** ** Flags *)

(** Where a flag stores what it parses.  The [help] and [version] cells are
    the ones the command library allocates for its own two flags. *)
Inductive BoolPtr : Type :=
| p_debug
| p_help
| p_version
| p_bool (f : BoolField).

(** The [pflag.Value] of a flag: the kind of value and its destination. *)
Inductive Value : Type :=
| boolValue (p : BoolPtr)
| stringValue (f : StringField)
| intValue (f : IntField)
| durationValue (f : DurationField)
| stringSliceValue
| providerIDValue.

(** A [pflag.Flag].  The rendering of the default is not kept: the default
    itself is what registration stores at the destination. *)
Record Flag : Type := mkFlag {
  FlagName : string;
  Shorthand : option ascii;
  FlagUsage : Usage;
  FlagValue : Value;
  NoOptDefVal : string;
  Changed : bool
}.

(** ** What the process does that can be seen from outside *)

Inductive Event : Type :=
| EvNew (o : Options.t) (l : zap.Logger)
| EvRun (o : Options.t) (l : zap.Logger) (c : Context)
| EvSync (l : zap.Logger)
| EvStop (c : Context)
| EvHelp
| EvVersion
| EvCompletion
| EvPrintError (e : error)
| EvUsage
| EvFatal (msg : string).

(** ** The state of the process

    The package-level variables [providerOptions] and [debug],
    [meta.ProviderID], and the state of [rootCmd]: its flag set in order of
    registration, the positional arguments left by the last parse, the
    cells of its help and version flags, [SilenceUsage] and its context;
    and the events so far, latest first. *)
Record World : Type := mkWorld {
  providerOptions : Options.t;
  debug : bool;
  ProviderID : string;
  flags : list Flag;
  flagArgs : list string;
  helpVal : bool;
  versionVal : bool;
  SilenceUsage : bool;
  cmdCtx : Context;
  events : list Event
}.

Definition set_providerOptions (v : Options.t) (w : World) : World :=
  mkWorld v (debug w) (ProviderID w) (flags w) (flagArgs w) (helpVal w) (versionVal w) (SilenceUsage w) (cmdCtx w) (events w).

Definition set_debug (v : bool) (w : World) : World :=
  mkWorld (providerOptions w) v (ProviderID w) (flags w) (flagArgs w) (helpVal w) (versionVal w) (SilenceUsage w) (cmdCtx w) (events w).

Definition set_ProviderID (v : string) (w : World) : World :=
  mkWorld (providerOptions w) (debug w) v (flags w) (flagArgs w) (helpVal w) (versionVal w) (SilenceUsage w) (cmdCtx w) (events w).

Definition set_flags (v : list Flag) (w : World) : World :=
  mkWorld (providerOptions w) (debug w) (ProviderID w) v (flagArgs w) (helpVal w) (versionVal w) (SilenceUsage w) (cmdCtx w) (events w).

Definition set_flagArgs (v : list string) (w : World) : World :=
  mkWorld (providerOptions w) (debug w) (ProviderID w) (flags w) v (helpVal w) (versionVal w) (SilenceUsage w) (cmdCtx w) (events w).

Definition set_helpVal (v : bool) (w : World) : World :=
  mkWorld (providerOptions w) (debug w) (ProviderID w) (flags w) (flagArgs w) v (versionVal w) (SilenceUsage w) (cmdCtx w) (events w).

Definition set_versionVal (v : bool) (w : World) : World :=
  mkWorld (providerOptions w) (debug w) (ProviderID w) (flags w) (flagArgs w) (helpVal w) v (SilenceUsage w) (cmdCtx w) (events w).

Definition set_SilenceUsage (v : bool) (w : World) : World :=
  mkWorld (providerOptions w) (debug w) (ProviderID w) (flags w) (flagArgs w) (helpVal w) (versionVal w) v (cmdCtx w) (events w).

Definition set_cmdCtx (v : Context) (w : World) : World :=
  mkWorld (providerOptions w) (debug w) (ProviderID w) (flags w) (flagArgs w) (helpVal w) (versionVal w) (SilenceUsage w) v (events w).

Definition set_events (v : list Event) (w : World) : World :=
  mkWorld (providerOptions w) (debug w) (ProviderID w) (flags w) (flagArgs w) (helpVal w) (versionVal w) (SilenceUsage w) (cmdCtx w) v.

Definition emit (e : Event) (w : World) : World :=
  set_events (e :: events w) w.

Definition loadBool (p : BoolPtr) (w : World) : bool :=
  match p with
  | p_debug => debug w
  | p_help => helpVal w
  | p_version => versionVal w
  | p_bool f => get_bool f (providerOptions w)
  end.

Definition storeBool (p : BoolPtr) (v : bool) (w : World) : World :=
  match p with
  | p_debug => set_debug v w
  | p_help => set_helpVal v w
  | p_version => set_versionVal v w
  | p_bool f => set_providerOptions (set_bool f v (providerOptions w)) w
  end.

(** ** The flag library

    A model of the part of [github.com/spf13/pflag] that the entrypoint
    uses: registration stores the default at the destination and adds the
    flag to the set; parsing walks the arguments and sets the flags it
    meets.  Error texts are abridged. *)

Definition AddFlag (fl : Flag) (w : World) : World :=
  set_flags (flags w ++ [fl]) w.

Definition BoolVarP (p : BoolPtr) (name : string) (short : option ascii)
    (value : bool) (usage : Usage) (w : World) : World :=
  AddFlag (mkFlag name short usage (boolValue p) "true" false)
          (storeBool p value w).

Definition BoolVar (p : BoolPtr) (name : string) (value : bool)
    (usage : Usage) (w : World) : World :=
  BoolVarP p name None value usage w.

Definition StringVar (f : StringField) (name : string) (value : string)
    (usage : Usage) (w : World) : World :=
  AddFlag (mkFlag name None usage (stringValue f) EmptyString false)
          (set_providerOptions (set_string f value (providerOptions w)) w).

Definition IntVar (f : IntField) (name : string) (value : Z)
    (usage : Usage) (w : World) : World :=
  AddFlag (mkFlag name None usage (intValue f) EmptyString false)
          (set_providerOptions (set_int f value (providerOptions w)) w).

Definition DurationVar (f : DurationField) (name : string) (value : Duration)
    (usage : Usage) (w : World) : World :=
  AddFlag (mkFlag name None usage (durationValue f) EmptyString false)
          (set_providerOptions (set_duration f value (providerOptions w)) w).

(** [StringSliceVar(&providerOptions.MachineLabels, ...)]: the only slice. *)
Definition StringSliceVar_MachineLabels (name : string) (value : list string)
    (usage : Usage) (w : World) : World :=
  AddFlag (mkFlag name None usage stringSliceValue EmptyString false)
          (set_providerOptions
             (Options.set_MachineLabels value (providerOptions w)) w).

(** [Var(&meta.ProviderID, ...)]: a value of the program's own; nothing is
    stored at registration. *)
Definition Var_ProviderID (name : string) (usage : Usage) (w : World)
    : World :=
  AddFlag (mkFlag name None usage providerIDValue EmptyString false) w.

Definition Lookup (name : string) (fs : list Flag) : option Flag :=
  find (fun fl => String.eqb (FlagName fl) name) fs.

Definition ShorthandLookup (c : ascii) (fs : list Flag) : option Flag :=
  find (fun fl => match Shorthand fl with
                  | Some c' => Ascii.eqb c' c
                  | None => false
                  end) fs.

(** [flag.Changed = true], on the flag of that name. *)
Definition markChanged (name : string) (fs : list Flag) : list Flag :=
  map (fun fl =>
         if String.eqb (FlagName fl) name
         then mkFlag (FlagName fl) (Shorthand fl) (FlagUsage fl)
                     (FlagValue fl) (NoOptDefVal fl) true
         else fl) fs.

(** [strconv.ParseBool]. *)
Definition ParseBool (s : string) : bool * option error :=
  if existsb (String.eqb s) ["1"; "t"; "T"; "TRUE"; "true"; "True"]
  then (true, None)
  else if existsb (String.eqb s) ["0"; "f"; "F"; "FALSE"; "false"; "False"]
  then (false, None)
  else (false, Some (errorString "invalid syntax")).

Section FlagLibrary.

(** Conversions of the standard library and the [Set] method of
    [meta.ProviderID], whose code is elsewhere: each gives the value it
    leaves and the error it reports. *)
Variable ParseInt : string -> Z * option error.
Variable ParseDuration : string -> Duration * option error.
Variable readAsCSV : string -> error + list string.
Variable ProviderID_Set : string -> string -> string * option error.

(** [flag.Value.Set(value)].  The scalar kinds store what the conversion
    returned before they report its error; a slice replaces the default on
    its first occurrence and appends on the later ones. *)
Definition ValueSet (fl : Flag) (value : string) (w : World)
    : option error * World :=
  match FlagValue fl with
  | boolValue p =>
      let (v, err) := ParseBool value in (err, storeBool p v w)
  | stringValue f =>
      (None, set_providerOptions (set_string f value (providerOptions w)) w)
  | intValue f =>
      let (v, err) := ParseInt value in
      (err, set_providerOptions (set_int f v (providerOptions w)) w)
  | durationValue f =>
      let (v, err) := ParseDuration value in
      (err, set_providerOptions (set_duration f v (providerOptions w)) w)
  | stringSliceValue =>
      match readAsCSV value with
      | inl err => (Some err, w)
      | inr v =>
          let o := providerOptions w in
          let l := if Changed fl then Options.MachineLabels o ++ v else v in
          (None, set_providerOptions (Options.set_MachineLabels l o) w)
      end
  | providerIDValue =>
      let (v, err) := ProviderID_Set (ProviderID w) value in
      (err, set_ProviderID v w)
  end.

(** [FlagSet.Set(name, value)], called on a flag found in the set. *)
Definition FlagSet_Set (fl : Flag) (value : string) (w : World)
    : option error * World :=
  match ValueSet fl value w with
  | (Some err, w') =>
      (Some (errorString ("invalid argument " ++ value ++ " for --"
                          ++ FlagName fl ++ " flag: " ++ Error err)), w')
  | (None, w') => (None, set_flags (markChanged (FlagName fl) (flags w')) w')
  end.

(** [parseLongArg]: [name] is the argument without its two dashes and [a]
    the arguments after it; the boolean tells whether the first of [a] was
    taken as the value. *)
Definition parseLongArg (name : string) (a : list string) (w : World)
    : option error * bool * World :=
  match name with
  | EmptyString => (Some (errorString "bad flag syntax: --"), false, w)
  | String c _ =>
      if Ascii.eqb c "-" || Ascii.eqb c "="
      then (Some (errorString ("bad flag syntax: --" ++ name)), false, w)
      else
        let (n, split) := splitEq name in
        match Lookup n (flags w) with
        | None =>
            if String.eqb n "help" then (Some ErrHelp, false, w)
            else (Some (errorString ("unknown flag: --" ++ n)), false, w)
        | Some fl =>
            match split with
            | Some value =>
                let (err, w') := FlagSet_Set fl value w in (err, false, w')
            | None =>
                if negb (String.eqb (NoOptDefVal fl) EmptyString)
                then let (err, w') := FlagSet_Set fl (NoOptDefVal fl) w in
                     (err, false, w')
                else match a with
                     | value :: _ =>
                         let (err, w') := FlagSet_Set fl value w in
                         (err, true, w')
                     | [] =>
                         (Some (errorString
                                  ("flag needs an argument: --" ++ name)),
                          false, w)
                     end
            end
        end
  end.

(** [parseShortArg]: the loop over the letters after a single dash, one
    [parseSingleShortArg] per turn. *)
Fixpoint parseShortArg (shorthands : string) (a : list string) (w : World)
    : option error * bool * World :=
  match shorthands with
  | EmptyString => (None, false, w)
  | String c outShorts =>
      if prefix "test." shorthands then (None, false, w)
      else
        match ShorthandLookup c (flags w) with
        | None =>
            if Ascii.eqb c "h" then (Some ErrHelp, false, w)
            else (Some (errorString
                          ("unknown shorthand flag: " ++ String c EmptyString
                           ++ " in -" ++ shorthands)), false, w)
        | Some fl =>
            match outShorts with
            | String "=" (String c2 rest) =>
                let (err, w') := FlagSet_Set fl (String c2 rest) w in
                (err, false, w')
            | _ =>
                if negb (String.eqb (NoOptDefVal fl) EmptyString)
                then match FlagSet_Set fl (NoOptDefVal fl) w with
                     | (Some err, w') => (Some err, false, w')
                     | (None, w') => parseShortArg outShorts a w'
                     end
                else match outShorts with
                     | String _ _ =>
                         let (err, w') := FlagSet_Set fl outShorts w in
                         (err, false, w')
                     | EmptyString =>
                         match a with
                         | value :: _ =>
                             let (err, w') := FlagSet_Set fl value w in
                             (err, true, w')
                         | [] =>
                             (Some (errorString
                                      ("flag needs an argument: "
                                       ++ String c EmptyString ++ " in -"
                                       ++ shorthands)), false, w)
                         end
                     end
            end
        end
  end.

(** [parseArgs] with interspersed positional arguments: an argument that is
    empty, a lone dash or does not start with a dash is positional; [--]
    ends the flags; the rest goes to the long or the short parser. *)
Fixpoint parseArgs (args : list string) (w : World) : option error * World :=
  match args with
  | [] => (None, w)
  | s :: rest =>
      let continue (r : option error * bool * World) :=
        match r with
        | (Some err, _, w') => (Some err, w')
        | (None, false, w') => parseArgs rest w'
        | (None, true, w') =>
            match rest with
            | _ :: rest' => parseArgs rest' w'
            | [] => (None, w')
            end
        end in
      match s with
      | String "-" (String "-" EmptyString) =>
          (None, set_flagArgs (flagArgs w ++ rest) w)
      | String "-" (String "-" name) => continue (parseLongArg name rest w)
      | String "-" (String c cs) => continue (parseShortArg (String c cs) rest w)
      | _ => parseArgs rest (set_flagArgs (flagArgs w ++ [s]) w)
      end
  end.

(** [FlagSet.Parse]: the positional arguments start empty. *)
Definition Parse (arguments : list string) (w : World)
    : option error * World :=
  parseArgs arguments (set_flagArgs [] w).

End FlagLibrary.

(** ** The command library

    A model of how [github.com/spf13/cobra] executes a command that has no
    subcommands of its own: the request for shell completion that the
    library answers itself, then flag parsing, help, version, validation of
    the positional arguments, the pre-run hook and the run function. *)

(** A [cobra.Command], with the fields the entrypoint fills in. *)
Record Command : Type := mkCommand {
  Use : string;
  Short : string;
  Version : string;
  Args : string -> list string -> option error;
  PersistentPreRun : list string -> World -> World;
  RunE : list string -> World -> option error * World
}.

(** [cobra.NoArgs]: the error is
    [fmt.Errorf("unknown command %q for %q", args[0], cmd.CommandPath())];
    [Quote] is what [%q] makes of a string. *)
Definition NoArgs (Quote : string -> string) (commandPath : string)
    (args : list string) : option error :=
  match args with
  | [] => None
  | a :: _ =>
      Some (errorString ("unknown command " ++ Quote a ++ " for "
                         ++ Quote commandPath))
  end.

(** [InitDefaultHelpFlag] and [InitDefaultVersionFlag]. *)
Definition InitDefaultHelpFlag (c : Command) (w : World) : World :=
  match Lookup "help" (flags w) with
  | Some _ => w
  | None =>
      BoolVarP p_help "help" (Some "h"%char) false
               (Text ("help for " ++ Use c)) w
  end.

Definition InitDefaultVersionFlag (c : Command) (w : World) : World :=
  if String.eqb (Version c) EmptyString then w
  else match Lookup "version" (flags w) with
       | Some _ => w
       | None =>
           let short := match ShorthandLookup "v" (flags w) with
                        | None => Some "v"%char
                        | Some _ => None
                        end in
           BoolVarP p_version "version" short false
                    (Text ("version for " ++ Use c)) w
       end.

(** [stripFlags]: the arguments that are neither flags nor the values of
    flags, as the search for a subcommand sees them. *)
Definition hasNoOptDefVal (name : string) (fs : list Flag) : bool :=
  match Lookup name fs with
  | None => false
  | Some fl => negb (String.eqb (NoOptDefVal fl) EmptyString)
  end.

Definition shortHasNoOptDefVal (c : ascii) (fs : list Flag) : bool :=
  match ShorthandLookup c fs with
  | None => false
  | Some fl => negb (String.eqb (NoOptDefVal fl) EmptyString)
  end.

Fixpoint stripFlags (args : list string) (fs : list Flag) : list string :=
  match args with
  | [] => []
  | s :: rest =>
      let skipValue :=
        match rest with
        | _ :: ((_ :: _) as rest') => stripFlags rest' fs
        | _ => []
        end in
      if String.eqb s "--" then []
      else if prefix "--" s && negb (contains "=" s)
              && negb (hasNoOptDefVal (substring 2 (String.length s - 2) s) fs)
      then skipValue
      else if prefix "-" s && negb (contains "=" s)
              && Nat.eqb (String.length s) 2
              && negb (match s with
                       | String _ (String c _) => shortHasNoOptDefVal c fs
                       | _ => false
                       end)
      then skipValue
      else if negb (String.eqb s EmptyString) && negb (prefix "-" s)
      then s :: stripFlags rest fs
      else stripFlags rest fs
  end.

(** Whether the invocation calls one of the library's own commands: the
    first argument that is not a flag names the hidden completion request,
    [__complete] or its alias [__completeNoDesc], or the default
    [completion] command, which the library gives a root command without
    subcommands only while it is the one called. *)
Definition isCompleteRequest (args : list string) (fs : list Flag) : bool :=
  match stripFlags args fs with
  | a :: _ =>
      String.eqb a "__complete" || String.eqb a "__completeNoDesc"
      || String.eqb a "completion"
  | [] => false
  end.

Section CommandLibrary.

Variable ParseInt : string -> Z * option error.
Variable ParseDuration : string -> Duration * option error.
Variable readAsCSV : string -> error + list string.
Variable ProviderID_Set : string -> string -> string * option error.

(** What the library's own commands return and how they leave the
    variables: answering a completion request parses the words to complete
    as flags of the command, into the same variables.  They call neither
    the command's run function nor anything of the entrypoint, so of the
    state they return only the variables, the flags and [SilenceUsage] are
    taken. *)
Variable complete : list string -> World -> option error * World.

(** [Command.execute]. *)
Definition execute (c : Command) (a : list string) (w : World)
    : option error * World :=
  let w := InitDefaultHelpFlag c w in
  let w := InitDefaultVersionFlag c w in
  match Parse ParseInt ParseDuration readAsCSV ProviderID_Set a w with
  | (Some err, w) => (Some err, w)
  | (None, w) =>
      if helpVal w then (Some ErrHelp, w)
      else if negb (String.eqb (Version c) EmptyString) && versionVal w
      then (None, emit EvVersion w)
      else
        let argWoFlags := flagArgs w in
        match Args c (Use c) argWoFlags with
        | Some err => (Some err, w)
        | None => RunE c argWoFlags (PersistentPreRun c argWoFlags w)
        end
  end.

(** [Command.ExecuteC]: help is shown when asked for; any other error is
    printed, with the usage unless [SilenceUsage] is set. *)
Definition ExecuteC (c : Command) (args : list string) (w : World)
    : option error * World :=
  let w := match cmdCtx w with
           | nilContext => set_cmdCtx Background w
           | _ => w
           end in
  let (r, w) :=
    if isCompleteRequest args (flags w)
    then let (r, w') := complete args w in
         (r, set_events (EvCompletion :: events w)
               (set_cmdCtx (cmdCtx w) w'))
    else execute c args w in
  match r with
  | None => (None, w)
  | Some err =>
      if isErrHelp err then (None, emit EvHelp w)
      else
        let w := emit (EvPrintError err) w in
        let w := if SilenceUsage w then w else emit EvUsage w in
        (Some err, w)
  end.

(** [Command.ExecuteContext]. *)
Definition ExecuteContext (c : Command) (ctx : Context) (args : list string)
    (w : World) : option error * World :=
  ExecuteC c args (set_cmdCtx ctx w).

End CommandLibrary.

(** ** The program *)

Section Program.

(** What the entrypoint takes from the rest of the repository and from its
    surroundings: [provider.DefaultOptions], [constants.IsDebugBuild],
    [version.Name] and [version.Tag], [config.TestModeKernelArg], the
    environment of the process, and the initial value of
    [meta.ProviderID]. *)
Variable DefaultOptions : Options.t.
Variable IsDebugBuild : bool.
Variable version_Name : string.
Variable version_Tag : string.
Variable TestModeKernelArg : string.
Variable environ : list (string * string).
Variable ProviderID_init : string.

Variable ParseInt : string -> Z * option error.
Variable ParseDuration : string -> Duration * option error.
Variable readAsCSV : string -> error + list string.
Variable ProviderID_Set : string -> string -> string * option error.
Variable complete : list string -> World -> option error * World.

(** The failure, if any, of [zap.Config.Build], and what the provider's
    [Run] returns for the options, logger and context it was given. *)
Variable zap_Build : zap.Config -> option error.
Variable provider_Run : Options.t -> zap.Logger -> Context -> option error.

(** [strconv.Quote], which the verb [%q] of [fmt] applies to a string. *)
Variable Quote : string -> string.

(** [os.Getenv]: the value of the variable, empty when it is not set. *)
Fixpoint lookupEnv (key : string) (env : list (string * string))
    : option string :=
  match env with
  | [] => None
  | (k, v) :: env' => if String.eqb k key then Some v else lookupEnv key env'
  end.

Definition Getenv (key : string) : string :=
  match lookupEnv key environ with
  | Some v => v
  | None => EmptyString
  end.

(** [initLogger]. *)
Definition initLogger (w : World) : error + zap.Logger :=
  let loggerConfig :=
    if debug w
    then zap.SetLevel DebugLevel
           (zap.SetEncodeLevel CapitalColorLevelEncoder
              zap.NewDevelopmentConfig)
    else zap.SetLevel InfoLevel zap.NewProductionConfig in
  match zap_Build loggerConfig with
  | Some err => inl err
  | None => inr (zap.mkLogger loggerConfig FatalLevel)
  end.

(** [run]: the provider is made from [providerOptions] and the logger, then
    run with the context. *)
Definition run (ctx : Context) (logger : zap.Logger) (w : World)
    : option error * World :=
  let w := emit (EvNew (providerOptions w) logger) w in
  let opts := providerOptions w in
  let w := emit (EvRun opts logger ctx) w in
  match provider_Run opts logger ctx with
  | Some err => (Some (wrapError "failed to run provider: " err), w)
  | None => (None, w)
  end.

(** [rootCmd]. *)
Definition rootCmd : Command :=
  mkCommand
    version_Name
    "Run the Omni bare metal infra provider"
    version_Tag
    (NoArgs Quote)
    (fun _ w => set_SilenceUsage true w)
    (fun _ w =>
       match initLogger w with
       | inl err => (Some (wrapError "failed to create logger: " err), w)
       | inr logger =>
           let (r, w) := run (cmdCtx w) logger w in
           (r, emit (EvSync logger) w)
       end).

(** [runCmd]: the context is the child of the background context that is
    done on [SIGTERM] or an interrupt; its stop function is deferred. *)
Definition runCmd (osArgs : list string) (w : World)
    : option error * World :=
  let ctx := NotifyContext Background [SIGTERM; os_Interrupt] in
  let (r, w) :=
    ExecuteContext ParseInt ParseDuration readAsCSV ProviderID_Set complete
                   rootCmd ctx osArgs w in
  (r, emit (EvStop ctx) w).

(** What [main] ends with. *)
Inductive Exit : Type :=
| Returned
| Fatal (msg : string).

(** [main]. *)
Definition main (osArgs : list string) (w : World) : Exit * World :=
  match runCmd osArgs w with
  | (Some err, w) =>
      let msg := ("failed to run: " ++ Error err)%string in
      (Fatal msg, emit (EvFatal msg) w)
  | (None, w) => (Returned, w)
  end.

(** [init]: the registrations, in the order of the source.  [clear-state]
    is registered in debug builds only. *)
Definition apiPowerMgmtStateDirFlag : string := "api-power-mgmt-state-dir".

Definition init : list (World -> World) :=
  [ Var_ProviderID "id"
      (Text "The id of the infra provider, it is used to match the resources with the infra provider label.");
    BoolVar p_debug "debug" false (Text "Enable debug mode & logs.");
    StringVar f_APIListenAddress "api-listen-address"
      (Options.APIListenAddress DefaultOptions)
      (Text "The IP address to listen on. If not specified, the server will listen on all interfaces.");
    StringVar f_APIAdvertiseAddress "api-advertise-address"
      (Options.APIAdvertiseAddress DefaultOptions)
      (Text "The IP address to advertise. Required if the server has more than a single routable IP address. If not specified, the single routable IP address will be used.");
    IntVar f_APIPort "api-port" (Options.APIPort DefaultOptions)
      (Text "The port to run the api server on.");
    StringVar f_OmniAPIEndpoint "omni-api-endpoint" (Getenv "OMNI_ENDPOINT")
      (Text "The endpoint of the Omni API, if not set, defaults to OMNI_ENDPOINT env var.");
    StringVar f_Name "provider-name" (Options.Name DefaultOptions)
      (Text "Provider name as it appears in Omni");
    StringVar f_Description "provider-description"
      (Options.Description DefaultOptions)
      (Text "Provider description as it appears in Omni");
    BoolVar (p_bool f_UseLocalBootAssets) "use-local-boot-assets"
      (Options.UseLocalBootAssets DefaultOptions)
      (Text ("Use local boot assets for iPXE booting. If set, the iPXE server will use the kernel and initramfs from the local assets "
             ++ "instead of forwarding the request to the image factory to boot into agent mode."));
    StringVar f_DHCPProxyIfaceOrIP "dhcp-proxy-iface-or-ip"
      (Options.DHCPProxyIfaceOrIP DefaultOptions)
      (Text ("The interface name or the IP address on the interface to run the DHCP proxy server on. "
             ++ "If it is an IP address, the DHCP proxy server will run on the interface that has the IP address. "
             ++ "If not specified, defaults to the API advertise address."));
    StringVar f_ImageFactoryBaseURL "image-factory-base-url"
      (Options.ImageFactoryBaseURL DefaultOptions)
      (Text "The base URL of the image factory.");
    StringVar f_ImageFactoryPXEBaseURL "image-factory-pxe-base-url"
      (Options.ImageFactoryPXEBaseURL DefaultOptions)
      (Text "The base URL of the image factory PXE server.");
    StringVar f_AgentModeTalosVersion "agent-mode-talos-version"
      (Options.AgentModeTalosVersion DefaultOptions)
      (Text "The default Talos version to when forwarding iPXE requests to the image factory to boot into Talos agent.");
    BoolVar (p_bool f_AgentTestMode) "agent-test-mode"
      (Options.AgentTestMode DefaultOptions)
      (Sprintf
         ("Enable agent test mode. In this mode, the Talos agent will be booted into the test mode via the kernel arg %q. "
          ++ "In this mode, you probably want to set the " ++ dquote ++ "--%s"
          ++ dquote
          ++ " flag, as the test mode agents are probably QEMU machines whose power is managed over the HTTP API.")
         [argString TestModeKernelArg; argString apiPowerMgmtStateDirFlag]);
    StringVar f_APIPowerMgmtStateDir apiPowerMgmtStateDirFlag
      (Options.APIPowerMgmtStateDir DefaultOptions)
      (Text ("The directory to read the power management API endpoints and ports, to be used to manage the power state of the machines which are managed via API "
             ++ "(e.g., QEMU VMs created by 'qemu-up' or 'talosctl cluster create') Mainly used for testing purposes."));
    StringVar f_BootFromDiskMethod "boot-from-disk-method"
      (Options.BootFromDiskMethod DefaultOptions)
      (Sprintf
         "Default method to use to boot server from disk if it hits iPXE endpoint after install. Valid values are: %v"
         [argBootFromDiskMethods [BootIPXEExit; Boot404; BootSANDisk]]);
    StringVar f_IPMIPXEBootMode "ipmi-pxe-boot-mode"
      (Options.IPMIPXEBootMode DefaultOptions)
      (Sprintf
         "Default boot mode to use when PXE booting a machine via IPMI. Valid values are: %v"
         [argBootModes [BootModeBIOS; BootModeUEFI]]);
    StringSliceVar_MachineLabels "machine-labels"
      (Options.MachineLabels DefaultOptions)
      (Text "Comma separated list of key=value pairs to be set to the machine. Example: key1=value1,key2,key3=value3");
    BoolVar (p_bool f_InsecureSkipTLSVerify) "insecure-skip-tls-verify"
      (Options.InsecureSkipTLSVerify DefaultOptions)
      (Text "Skip TLS verification when connecting to the Omni API.");
    DurationVar f_MinRebootInterval "min-reboot-interval"
      (Options.MinRebootInterval DefaultOptions)
      (Text "the minimum interval between reboots of the machine issued by the provider. This is to prevent the provider from issuing reboots too frequently.") ]
  ++ (if IsDebugBuild
      then [ BoolVar (p_bool f_ClearState) "clear-state"
               (Options.ClearState DefaultOptions)
               (Text "Clear the state of the provider on startup.") ]
      else [])
  ++
  [ BoolVar (p_bool f_EnableResourceCache) "enable-resource-cache"
      (Options.EnableResourceCache DefaultOptions)
      (Text "Enable controller runtime resource cache.");
    BoolVar (p_bool f_WipeWithZeroes) "wipe-with-zeroes"
      (Options.WipeWithZeroes DefaultOptions)
      (Text "When wiping a machine, write zeroes to the whole disk instead doing a fast wipe.");
    BoolVar (p_bool f_DisableDHCPProxy) "disable-dhcp-proxy"
      (Options.DisableDHCPProxy DefaultOptions)
      (Text "Disable the DHCP proxy server.");
    (* TLS options *)
    BoolVar (p_bool f_TLS_Enabled) "tls-enabled"
      (TLSOptions.Enabled (Options.TLS DefaultOptions))
      (Text "Enable TLS for the API server.");
    IntVar f_TLS_APIPort "tls-api-port"
      (TLSOptions.APIPort (Options.TLS DefaultOptions))
      (Text "The port to run the API server on when using TLS.");
    BoolVar (p_bool f_TLS_AgentSkipVerify) "tls-agent-skip-verify"
      (TLSOptions.AgentSkipVerify (Options.TLS DefaultOptions))
      (Text "Make the Talos agent GRPC client skip TLS verification when connecting to the provider.");
    DurationVar f_TLS_CATTL "tls-ca-ttl"
      (TLSOptions.CATTL (Options.TLS DefaultOptions))
      (Text "CA certificate TTL.");
    DurationVar f_TLS_CertTTL "tls-cert-ttl"
      (TLSOptions.CertTTL (Options.TLS DefaultOptions))
      (Text "TTL for the generated ephemeral certificates using the CA certificate.");
    (* RedFish options *)
    BoolVar (p_bool f_Redfish_UseAlways) "redfish-use-always"
      (RedfishOptions.UseAlways (Options.Redfish DefaultOptions))
      (Text "Always use Redfish for power management.");
    BoolVar (p_bool f_Redfish_UseWhenAvailable) "redfish-use-when-available"
      (RedfishOptions.UseWhenAvailable (Options.Redfish DefaultOptions))
      (Text "Use Redfish for power management when available.");
    BoolVar (p_bool f_Redfish_UseHTTPS) "redfish-use-https"
      (RedfishOptions.UseHTTPS (Options.Redfish DefaultOptions))
      (Text "Use HTTPS for Redfish connections.");
    BoolVar (p_bool f_Redfish_InsecureSkipTLSVerify)
      "redfish-insecure-skip-tls-verify"
      (RedfishOptions.InsecureSkipTLSVerify (Options.Redfish DefaultOptions))
      (Text "Skip TLS verification when connecting to Redfish.");
    IntVar f_Redfish_Port "redfish-port"
      (RedfishOptions.Port (Options.Redfish DefaultOptions))
      (Text "The port to connect to Redfish.");
    BoolVar (p_bool f_Redfish_SetBootSourceOverrideMode)
      "redfish-set-boot-source-override-mode"
      (RedfishOptions.SetBootSourceOverrideMode
         (Options.Redfish DefaultOptions))
      (Text "Set the boot source override mode field when using Redfish for power management. Some Redfish implementations require this field to be unset.") ].

(** The process before [init]: every variable holds its zero value, the
    command has no flags and no context, nothing has happened. *)
Definition world0 : World :=
  mkWorld zeroOptions false ProviderID_init [] [] false false false
          nilContext [].

(** The state in which [main] starts: [init] has run. *)
Definition initial : World := fold_left (fun w f => f w) init world0.

(** A whole run of the process on the arguments after the program name. *)
Definition start (osArgs : list string) : Exit * World :=
  main osArgs initial.

(** *** Reading a run *)

(** The context [runCmd] makes. *)
Definition rootCtx : Context :=
  NotifyContext Background [SIGTERM; os_Interrupt].

(** The state in which the command parses its flags, from the state [w] in
    which [main] starts: the context is in place and the help and version
    flags have joined the registered ones. *)
Definition prepared (w : World) : World :=
  InitDefaultVersionFlag rootCmd
    (InitDefaultHelpFlag rootCmd (set_cmdCtx rootCtx w)).

(** The outcome of parsing the flags of an invocation. *)
Definition parsed (osArgs : list string) (w : World) : option error * World :=
  Parse ParseInt ParseDuration readAsCSV ProviderID_Set osArgs (prepared w).

(** Whether an invocation gets as far as [run], and if so the state after
    parsing and the logger: it is not a completion request, its flags
    parse, neither help nor version is asked for, no positional argument is
    left and the logger is built. *)
Definition reached (osArgs : list string) (w : World)
    : option (World * zap.Logger) :=
  if isCompleteRequest osArgs (flags w) then None
  else match parsed osArgs w with
       | (Some _, _) => None
       | (None, wp) =>
           if helpVal wp then None
           else if negb (String.eqb version_Tag EmptyString) && versionVal wp
           then None
           else match flagArgs wp with
                | _ :: _ => None
                | [] =>
                    match initLogger wp with
                    | inl _ => None
                    | inr logger => Some (wp, logger)
                    end
                end
       end.

(** The state after one of the library's own commands has answered, from
    the state [w] in which [main] starts and the state [w'] that command
    returns: the events and the context are those of the entrypoint. *)
Definition answered (w w' : World) : World :=
  set_events (EvCompletion :: events w) (set_cmdCtx rootCtx w').

(** What [ExecuteC], [runCmd] and [main] make of the result of executing
    the command: help is shown when asked for, another error is printed
    (with the usage unless silenced), the stop function is called, and
    [main] ends fatally on an error. *)
Definition verdict (r : option error) (w : World) : Exit * World :=
  match r with
  | None => (Returned, emit (EvStop rootCtx) w)
  | Some err =>
      if isErrHelp err
      then (Returned, emit (EvStop rootCtx) (emit EvHelp w))
      else
        let w := emit (EvPrintError err) w in
        let w := if SilenceUsage w then w else emit EvUsage w in
        let msg := ("failed to run: " ++ Error err)%string in
        (Fatal msg, emit (EvFatal msg) (emit (EvStop rootCtx) w))
  end.

(** What the end of a run adds, by the result of executing the command and
    by whether the usage is silenced: the exit of [main] and the events,
    latest first. *)
Definition closing (silenced : bool) (r : option error)
    : Exit * list Event :=
  match r with
  | None => (Returned, [EvStop rootCtx])
  | Some err =>
      if isErrHelp err then (Returned, [EvStop rootCtx; EvHelp])
      else
        let msg := ("failed to run: " ++ Error err)%string in
        (Fatal msg,
         [EvFatal msg; EvStop rootCtx]
         ++ (if silenced then [] else [EvUsage]) ++ [EvPrintError err])
  end.

(** The course of an invocation from the state [w]: the result of
    executing the command, whether the usage is silenced by then, and the
    events before the end of the run, latest first. *)
Definition course (osArgs : list string) (w : World)
    : option error * bool * list Event :=
  if isCompleteRequest osArgs (flags w)
  then let r := complete osArgs (set_cmdCtx rootCtx w) in
       (fst r, SilenceUsage (snd r), [EvCompletion])
  else match parsed osArgs w with
       | (Some err, _) => (Some err, false, [])
       | (None, wp) =>
           if helpVal wp then (Some ErrHelp, false, [])
           else if negb (String.eqb version_Tag EmptyString) && versionVal wp
           then (None, false, [EvVersion])
           else match flagArgs wp with
                | a :: rest =>
                    (NoArgs Quote version_Name (a :: rest), false, [])
                | [] =>
                    match initLogger wp with
                    | inl err =>
                        (Some (wrapError "failed to create logger: " err),
                         true, [])
                    | inr l =>
                        let o := providerOptions wp in
                        (match provider_Run o l rootCtx with
                         | Some err =>
                             Some (wrapError "failed to run provider: " err)
                         | None => None
                         end,
                         true,
                         [EvSync l; EvRun o l rootCtx; EvNew o l])
                    end
                end
       end.

(** An invocation that gets past its arguments, leaving the state [wp]: it
    calls none of the library's own commands, its flags parse, neither
    help nor version is asked for and no positional argument is left. *)
Definition pastArguments (osArgs : list string) (w wp : World) : Prop :=
  isCompleteRequest osArgs (flags w) = false
  /\ parsed osArgs w = (None, wp)
  /\ helpVal wp = false
  /\ negb (String.eqb version_Tag EmptyString) && versionVal wp = false
  /\ flagArgs wp = [].

End Program.

(** *** Sample surroundings

    One concrete choice of what the entrypoint takes from outside, on which
    the statements below are also run. *)
Module Sample.

Definition DefaultOptions : Options.t :=
  Options.mk EmptyString EmptyString 50042%Z EmptyString "bare-metal"
    "Bare metal infra provider" false EmptyString "https://factory.example"
    "https://pxe.factory.example" "v1.9.0" false EmptyString "ipxe-exit"
    "uefi" [] false 900000000000%Z true false false false
    (TLSOptions.mk false 50043%Z false 946080000000000000%Z 86400000000000%Z)
    (RedfishOptions.mk false true true true 443%Z true).

Definition environ : list (string * string) :=
  [("HOME", "/root"); ("OMNI_ENDPOINT", "https://omni.example")].

Definition ParseInt (s : string) : Z * option error :=
  if String.eqb s "8080" then (8080%Z, None)
  else (0%Z, Some (errorString "invalid syntax")).

Definition ParseDuration (s : string) : Duration * option error :=
  if String.eqb s "1s" then (1000000000%Z, None)
  else (0%Z, Some (errorString "invalid duration")).

Definition readAsCSV (s : string) : error + list string := inr [s].

Definition ProviderID_Set (current s : string) : string * option error :=
  (s, None).

Definition complete (args : list string) (w : World)
    : option error * World :=
  (None, w).

Definition zap_Build (c : zap.Config) : option error := None.

Definition provider_Run (o : Options.t) (l : zap.Logger) (c : Context)
    : option error :=
  if Options.AgentTestMode o then Some (errorString "provider stopped")
  else None.

(** [strconv.Quote] on the arguments tried here, which have no character
    that it escapes. *)
Definition Quote (s : string) : string := (dquote ++ s ++ dquote)%string.

(** The state after [init], the outcome of parsing and a whole run, for a
    build of the given kind on the given arguments. *)
Definition initial (isDebugBuild : bool) : World :=
  initial DefaultOptions isDebugBuild "talos.test" environ "bare-metal".

Definition parsed (isDebugBuild : bool) (osArgs : list string)
    : option error * World :=
  parsed "provider" "v0.1.0" ParseInt ParseDuration readAsCSV ProviderID_Set
         zap_Build provider_Run Quote osArgs (initial isDebugBuild).

Definition start (isDebugBuild : bool) (osArgs : list string)
    : Exit * World :=
  start DefaultOptions isDebugBuild "provider" "v0.1.0" "talos.test" environ
        "bare-metal" ParseInt ParseDuration readAsCSV ProviderID_Set complete
        zap_Build provider_Run Quote osArgs.

(** The options as [init] leaves them in a build that is not a debug
    build: the defaults, the endpoint from the environment, and
    [ClearState] at its zero value. *)
Definition defaults : Options.t :=
  Options.set_ClearState false
    (Options.set_OmniAPIEndpoint "https://omni.example" DefaultOptions).

(** The logger of a run without [--debug]. *)
Definition logger : zap.Logger :=
  zap.mkLogger (zap.SetLevel InfoLevel zap.NewProductionConfig) FatalLevel.

End Sample.

(** An event other than the making or the running of the provider. *)
Definition notRun (e : Event) : Prop :=
  match e with
  | EvNew _ _ | EvRun _ _ _ => False
  | _ => True
  end.

(** Whether a flag stores into [providerOptions]. *)
Definition inOptions (v : Value) : bool :=
  match v with
  | boolValue (p_bool _) => true
  | boolValue _ => false
  | stringValue _ | intValue _ | durationValue _ | stringSliceValue => true
  | providerIDValue => false
  end.

(** *** Reading the state *)

(** What a flag is, apart from whether it has been set. *)
Definition shape (fl : Flag) : string * option ascii * Value * string :=
  (FlagName fl, Shorthand fl, FlagValue fl, NoOptDefVal fl).

(** [FlagSet.Changed(name)]. *)
Definition changedIn (name : string) (fs : list Flag) : bool :=
  match Lookup name fs with
  | Some fl => Changed fl
  | None => false
  end.

Definition changed (name : string) (w : World) : bool :=
  changedIn name (flags w).

(** What is stored where a flag points. *)
Inductive Stored : Type :=
| isBool (b : bool)
| isString (s : string)
| isInt (z : Z)
| isStrings (l : list string).

Definition load (v : Value) (w : World) : Stored :=
  match v with
  | boolValue p => isBool (loadBool p w)
  | stringValue f => isString (get_string f (providerOptions w))
  | intValue f => isInt (get_int f (providerOptions w))
  | durationValue f => isInt (get_duration f (providerOptions w))
  | stringSliceValue => isStrings (Options.MachineLabels (providerOptions w))
  | providerIDValue => isString (ProviderID w)
  end.

(** What holds after a parse: [P] of the state when it succeeded, [Q] when
    it failed. *)
Definition post (P Q : World -> Prop) (r : option error * World) : Prop :=
  match r with
  | (None, w') => P w'
  | (Some _, w') => Q w'
  end.

Definition post3 (P Q : World -> Prop) (r : option error * bool * World)
    : Prop :=
  match r with
  | (None, _, w') => P w'
  | (Some _, _, w') => Q w'
  end.

(** Two states with the same events, context and [SilenceUsage], and whose
    flags have the same shape. *)
Definition sameFrame (w w' : World) : Prop :=
  events w' = events w /\ cmdCtx w' = cmdCtx w
  /\ SilenceUsage w' = SilenceUsage w
  /\ map shape (flags w') = map shape (flags w).

(** Whether two flags store at the same place can be decided. *)
Definition Value_eq_dec (a b : Value) : {a = b} + {a <> b}.
Proof. repeat decide equality. Defined.

(** No flag of another name stores where the flag named [n] does. *)
Definition onlyNamed (t : Value) (n : string) (w : World) : Prop :=
  forall fl, In fl (flags w) -> FlagValue fl = t -> FlagName fl = n.

(** Whether every flag of a list that stores at [t] is named [n]. *)
Definition onlyNamedb (t : Value) (n : string) (fs : list Flag) : bool :=
  forallb (fun fl => if Value_eq_dec (FlagValue fl) t
                     then String.eqb (FlagName fl) n
                     else true) fs.

(** The flags of a given name in a list, and in the flag set of a state. *)
Definition registrations' (name : string) (fs : list Flag) : list Flag :=
  filter (fun fl => String.eqb (FlagName fl) name) fs.

Definition registrations (name : string) (w : World) : list Flag :=
  registrations' name (flags w).

(** An event other than the call of the stop function. *)
Definition notStop (e : Event) : Prop :=
  match e with
  | EvStop _ => False
  | _ => True
  end.

(** Whether a flag stores into [providerOptions.TLS]. *)
Definition inTLS (fl : Flag) : bool :=
  match FlagValue fl with
  | boolValue (p_bool f_TLS_Enabled)
  | boolValue (p_bool f_TLS_AgentSkipVerify)
  | intValue f_TLS_APIPort
  | durationValue f_TLS_CATTL
  | durationValue f_TLS_CertTTL => true
  | _ => false
  end.

(** A run in which the provider is neither made nor run, and a run that
    ends on the failure of [cobra.NoArgs] on the positional arguments: the
    error is printed and [main] ends fatally with it. *)
Definition neverStarted (r : Exit * World) : Prop :=
  Forall notRun (events (snd r)).

Definition validationFails (Quote : string -> string) (name : string)
    (r : Exit * World) : Prop :=
  exists err,
    NoArgs Quote name (flagArgs (snd r)) = Some err
    /\ fst r = Fatal ("failed to run: " ++ Error err)
    /\ In (EvPrintError err) (events (snd r)).

(** The options handed to [provider.New] in a list of events. *)
Fixpoint news (es : list Event) : list Options.t :=
  match es with
  | [] => []
  | EvNew o _ :: es' => o :: news es'
  | _ :: es' => news es'
  end.

(** *** Reading the flags and the loggers *)

(** Whether the members of a list are pairwise different. *)
Fixpoint distinct {A : Type} (eq_dec : forall a b : A, {a = b} + {a <> b})
    (l : list A) : bool :=
  match l with
  | [] => true
  | a :: l' =>
      negb (existsb (fun b => if eq_dec a b then true else false) l')
      && distinct eq_dec l'
  end.

(** A flag name that the long form [--name] can carry: not empty, no dash
    or equals sign in front, no equals sign inside. *)
Definition plainName (n : string) : bool :=
  match n with
  | EmptyString => false
  | String c _ =>
      negb (Ascii.eqb c "-" || Ascii.eqb c "=") && negb (contains "=" n)
  end.

(** The two loggers [initLogger] can build. *)
Definition developmentLogger : zap.Logger :=
  zap.mkLogger (zap.mkConfig true CapitalColorLevelEncoder DebugLevel)
               FatalLevel.

Definition productionLogger : zap.Logger :=
  zap.mkLogger (zap.mkConfig false LowercaseLevelEncoder InfoLevel)
               FatalLevel.

(** The options as [init] leaves them: the defaults of
    [provider.DefaultOptions], but the endpoint taken from the environment
    and [ClearState] kept at its zero value outside debug builds. *)
Definition registeredDefaults (defaultOptions : Options.t)
    (isDebugBuild : bool) (omniEndpoint : string) : Options.t :=
  Options.set_ClearState
    (if isDebugBuild then Options.ClearState defaultOptions else false)
    (Options.set_OmniAPIEndpoint omniEndpoint defaultOptions).

(** *** Options as they are written on a command line *)

(** One option of a command line, in one of the three long forms:
    [--name=value], [--name value], and [--name] alone. *)
Inductive Given : Type :=
| givenEq (fl : Flag) (v : string)
| givenNext (fl : Flag) (v : string)
| givenAlone (fl : Flag).

Definition givenFlag (s : Given) : Flag :=
  match s with
  | givenEq fl _ | givenNext fl _ | givenAlone fl => fl
  end.

(** The arguments that write it. *)
Definition words (s : Given) : list string :=
  match s with
  | givenEq fl v => [("--" ++ FlagName fl ++ "=" ++ v)%string]
  | givenNext fl v => [("--" ++ FlagName fl)%string; v]
  | givenAlone fl => [("--" ++ FlagName fl)%string]
  end.

(** The value it gives its flag: the one written or, for a flag written
    alone, the value the flag stands for then. *)
Definition givenValue (s : Given) : string :=
  match s with
  | givenEq _ v | givenNext _ v => v
  | givenAlone fl => NoOptDefVal fl
  end.

(** Whether the form fits the flag: the value follows in the next argument
    only for a flag that stands for nothing when written alone, and a flag
    is written alone only when it stands for something. *)
Definition fits (s : Given) : bool :=
  match s with
  | givenEq _ _ => true
  | givenNext fl _ => String.eqb (NoOptDefVal fl) EmptyString
  | givenAlone fl => negb (String.eqb (NoOptDefVal fl) EmptyString)
  end.

(** What has been collected from a command line: the options, the debug
    switch, the provider identifier, and whether machine labels have been
    given already. *)
Record Gathered : Type := mkGathered {
  gOptions : Options.t;
  gDebug : bool;
  gID : string;
  gLabels : bool
}.

Section Gathering.

Variable ParseInt : string -> Z * option error.
Variable ParseDuration : string -> Duration * option error.
Variable readAsCSV : string -> error + list string.
Variable ProviderID_Set : string -> string -> string * option error.

(** The reading of [collected into the single providerOptions value]: what
    one option of the command line adds to what has been collected, by the
    kind and destination of its flag; nothing when the value is refused.
    The machine labels replace the list the first time and are appended to
    it afterwards.  The help and version switches of the library are not
    options. *)
Definition gather1 (t : Value) (v : string) (g : Gathered)
    : option Gathered :=
  match t with
  | boolValue p =>
      match ParseBool v with
      | (b, None) =>
          match p with
          | p_bool f =>
              Some (mkGathered (set_bool f b (gOptions g)) (gDebug g)
                               (gID g) (gLabels g))
          | p_debug =>
              Some (mkGathered (gOptions g) b (gID g) (gLabels g))
          | p_help | p_version => None
          end
      | (_, Some _) => None
      end
  | stringValue f =>
      Some (mkGathered (set_string f v (gOptions g)) (gDebug g) (gID g)
                       (gLabels g))
  | intValue f =>
      match ParseInt v with
      | (z, None) =>
          Some (mkGathered (set_int f z (gOptions g)) (gDebug g) (gID g)
                           (gLabels g))
      | (_, Some _) => None
      end
  | durationValue f =>
      match ParseDuration v with
      | (d, None) =>
          Some (mkGathered (set_duration f d (gOptions g)) (gDebug g)
                           (gID g) (gLabels g))
      | (_, Some _) => None
      end
  | stringSliceValue =>
      match readAsCSV v with
      | inr l =>
          let labels := if gLabels g
                        then Options.MachineLabels (gOptions g) ++ l
                        else l in
          Some (mkGathered (Options.set_MachineLabels labels (gOptions g))
                           (gDebug g) (gID g) true)
      | inl _ => None
      end
  | providerIDValue =>
      match ProviderID_Set (gID g) v with
      | (s, None) => Some (mkGathered (gOptions g) (gDebug g) s (gLabels g))
      | (_, Some _) => None
      end
  end.

(** The options of a command line, collected from left to right. *)
Fixpoint gather (l : list Given) (g : Gathered) : option Gathered :=
  match l with
  | [] => Some g
  | s :: l' =>
      match gather1 (FlagValue (givenFlag s)) (givenValue s) g with
      | Some g' => gather l' g'
      | None => None
      end
  end.

End Gathering.

(** A state of parsing that holds what has been collected: the variables
    hold it, neither help nor version is asked for, no positional argument
    is left, the flags are those of [fs] apart from having been set, and
    the flag of the machine labels has been set when labels have been
    given. *)
Definition holds (fs : list Flag) (g : Gathered) (w : World) : Prop :=
  providerOptions w = gOptions g
  /\ debug w = gDebug g
  /\ ProviderID w = gID g
  /\ helpVal w = false
  /\ versionVal w = false
  /\ flagArgs w = []
  /\ map shape (flags w) = map shape fs
  /\ changedIn "machine-labels" (flags w) = gLabels g.

(** *** Who verifies whom *)

(** Modelled from the spec: how the TLS code of the provider, which is not
    under src/, uses the options that relax verification.  The spec says
    that the Credential Authority [exposes a verification capability for
    the server side of mutual authentication] and [supports an explicit
    skip verification mode for the client role only (one-directional trust
    relaxation), never for the server role].  The parties are the provider
    as the server of its API and the three clients whose options [init]
    describes: the Talos agent connecting to the provider, the provider
    connecting to the Omni API, and the provider connecting to Redfish. *)
Inductive Role : Type :=
| serverRole
| agentClient
| omniClient
| redfishClient.

Definition isClient (r : Role) : bool :=
  match r with
  | serverRole => false
  | agentClient | omniClient | redfishClient => true
  end.

(** Modelled from the spec: whether a party skips the verification of its
    peer under the given options.  The server never does; each client does
    when the option described for it is on. *)
Definition skipsVerification (r : Role) (o : Options.t) : bool :=
  match r with
  | serverRole => false
  | agentClient => TLSOptions.AgentSkipVerify (Options.TLS o)
  | omniClient => Options.InsecureSkipTLSVerify o
  | redfishClient => RedfishOptions.InsecureSkipTLSVerify (Options.Redfish o)
  end.

(** The flag [init] registers for the skip mode of a party, if any. *)
Definition skipFlag (r : Role) : option string :=
  match r with
  | serverRole => None
  | agentClient => Some "tls-agent-skip-verify"%string
  | omniClient => Some "insecure-skip-tls-verify"%string
  | redfishClient => Some "redfish-insecure-skip-tls-verify"%string
  end.

(** *** Further readings of a run *)

(** An event that can come after the run of the provider: the printing of
    an error, of the usage or of the help, the stop call and the fatal log. *)
Definition afterRun (e : Event) : Prop :=
  match e with
  | EvStop _ | EvFatal _ | EvPrintError _ | EvUsage | EvHelp => True
  | _ => False
  end.

(** An event in which neither the provider nor a logger takes part. *)
Definition idle (e : Event) : Prop :=
  match e with
  | EvNew _ _ | EvRun _ _ _ | EvSync _ => False
  | _ => True
  end.

(** An event that reports no error. *)
Definition silent (e : Event) : Prop :=
  match e with
  | EvPrintError _ | EvFatal _ | EvUsage => False
  | _ => True
  end.

(** What options hold where a flag stores, when it stores into them. *)
Definition stored (t : Value) (o : Options.t) : option Stored :=
  match t with
  | boolValue (p_bool f) => Some (isBool (get_bool f o))
  | boolValue _ => None
  | stringValue f => Some (isString (get_string f o))
  | intValue f => Some (isInt (get_int f o))
  | durationValue f => Some (isInt (get_duration f o))
  | stringSliceValue => Some (isStrings (Options.MachineLabels o))
  | providerIDValue => None
  end.

(** Surroundings in which no logger can be built. *)
Module Faulty.

Definition zap_Build (c : zap.Config) : option error :=
  Some (errorString "cannot open the log sink").

Definition start (osArgs : list string) : Exit * World :=
  start Sample.DefaultOptions false "provider" "v0.1.0" "talos.test"
        Sample.environ "bare-metal" Sample.ParseInt Sample.ParseDuration
        Sample.readAsCSV Sample.ProviderID_Set Sample.complete zap_Build
        Sample.provider_Run Sample.Quote osArgs.

End Faulty.

(** *** Flags of the sample surroundings *)

(** The flag that [init] registers under a name, at the sample
    surroundings. *)
Definition sampleFlag (name : string) : Flag :=
  match Lookup name (flags (Sample.initial false)) with
  | Some fl => fl
  | None => mkFlag name None (Text EmptyString) providerIDValue EmptyString
                   false
  end.

(** * Properties *)

(** ** Flags keep their shape; parsing touches only what a flag points to *)

Lemma Lookup_In (name : string) (fs : list Flag) (fl : Flag) :
  Lookup name fs = Some fl -> In fl fs /\ FlagName fl = name.
Proof.
  unfold Lookup. intros H. apply find_some in H. destruct H as [Hin Heq].
  split; [exact Hin | now apply String.eqb_eq].
Qed.

Lemma ShorthandLookup_In (c : ascii) (fs : list Flag) (fl : Flag) :
  ShorthandLookup c fs = Some fl -> In fl fs.
Proof.
  unfold ShorthandLookup. intros H. apply find_some in H. tauto.
Qed.

Lemma markChanged_shape (name : string) (fs : list Flag) :
  map shape (markChanged name fs) = map shape fs.
Proof.
  induction fs as [|fl fs IH]; simpl; [reflexivity|].
  rewrite IH. destruct (String.eqb (FlagName fl) name); reflexivity.
Qed.

Lemma markChanged_In (name : string) (fs : list Flag) (fl : Flag) :
  In fl (markChanged name fs) ->
  exists fl0, In fl0 fs /\ shape fl = shape fl0
              /\ Changed fl = (String.eqb (FlagName fl0) name || Changed fl0).
Proof.
  unfold markChanged. rewrite in_map_iff. intros [fl0 [Heq Hin]].
  exists fl0. split; [exact Hin|].
  destruct (String.eqb (FlagName fl0) name); subst fl; simpl; auto.
Qed.

Lemma In_markChanged (name : string) (fs : list Flag) (fl0 : Flag) :
  In fl0 fs ->
  exists fl, In fl (markChanged name fs) /\ shape fl = shape fl0
             /\ Changed fl = (String.eqb (FlagName fl0) name || Changed fl0).
Proof.
  intros Hin. unfold markChanged.
  exists (if String.eqb (FlagName fl0) name
          then mkFlag (FlagName fl0) (Shorthand fl0) (FlagUsage fl0)
                      (FlagValue fl0) (NoOptDefVal fl0) true
          else fl0).
  split.
  - apply in_map_iff. exists fl0. auto.
  - destruct (String.eqb (FlagName fl0) name); simpl; auto.
Qed.

Lemma changedIn_markChanged (n n' : string) (fs : list Flag) :
  changedIn n fs = true -> changedIn n (markChanged n' fs) = true.
Proof.
  unfold changedIn, Lookup.
  induction fs as [|fl fs IH]; simpl; [discriminate|].
  destruct (String.eqb (FlagName fl) n') eqn:Hn'; simpl;
    destruct (String.eqb (FlagName fl) n) eqn:Hn; auto.
Qed.

Lemma changedIn_marked (n : string) (fs : list Flag) (fl : Flag) :
  In fl fs -> FlagName fl = n -> changedIn n (markChanged n fs) = true.
Proof.
  unfold changedIn, Lookup.
  induction fs as [|fl0 fs IH]; simpl; [tauto|].
  intros [->|Hin] Hname.
  - subst n. rewrite String.eqb_refl. simpl. rewrite String.eqb_refl.
    reflexivity.
  - destruct (String.eqb (FlagName fl0) n) eqn:Hn; simpl; rewrite Hn; auto.
Qed.

Lemma load_set_flags (t : Value) (fs : list Flag) (w : World) :
  load t (set_flags fs w) = load t w.
Proof. destruct t as [p| | | | |]; try reflexivity; destruct p; reflexivity. Qed.

Lemma load_set_flagArgs (t : Value) (l : list string) (w : World) :
  load t (set_flagArgs l w) = load t w.
Proof. destruct t as [p| | | | |]; try reflexivity; destruct p; reflexivity. Qed.

Lemma Lookup_shape (n : string) (fs fs' : list Flag) :
  map shape fs = map shape fs' ->
  option_map shape (Lookup n fs) = option_map shape (Lookup n fs').
Proof.
  unfold Lookup. revert fs'.
  induction fs as [|fl fs IH]; intros [|fl' fs'] H; try discriminate;
    [reflexivity|].
  cbn [map] in H.
  assert (Hsh : shape fl = shape fl') by (exact (f_equal (hd (shape fl)) H)).
  assert (Hrest : map shape fs = map shape fs')
    by (exact (f_equal (@tl _) H)).
  cbn [find].
  assert (Hn : FlagName fl = FlagName fl')
    by (unfold shape in Hsh; congruence).
  rewrite Hn. destruct (String.eqb (FlagName fl') n).
  - cbn. f_equal. exact Hsh.
  - apply IH. exact Hrest.
Qed.

Lemma onlyNamedb_sound (t : Value) (n : string) (w : World) :
  onlyNamedb t n (flags w) = true -> onlyNamed t n w.
Proof.
  unfold onlyNamedb, onlyNamed. rewrite forallb_forall. intros H fl Hin Hv.
  specialize (H fl Hin).
  destruct (Value_eq_dec (FlagValue fl) t); [|contradiction].
  now apply String.eqb_eq.
Qed.

Lemma load_inOptions (t : Value) (w w' : World) :
  inOptions t = true -> providerOptions w = providerOptions w' ->
  load t w = load t w'.
Proof.
  intros Ht H. destruct t as [p| | | | |]; cbn in *; try congruence.
  destruct p; try discriminate. cbn. congruence.
Qed.

Section ParsingFacts.

Variable ParseInt : string -> Z * option error.
Variable ParseDuration : string -> Duration * option error.
Variable readAsCSV : string -> error + list string.
Variable ProviderID_Set : string -> string -> string * option error.

Local Abbreviation ValueSet' := (ValueSet ParseInt ParseDuration readAsCSV ProviderID_Set).
Local Abbreviation FlagSet_Set' := (FlagSet_Set ParseInt ParseDuration readAsCSV ProviderID_Set).
Local Abbreviation parseLongArg' := (parseLongArg ParseInt ParseDuration readAsCSV ProviderID_Set).
Local Abbreviation parseShortArg' := (parseShortArg ParseInt ParseDuration readAsCSV ProviderID_Set).
Local Abbreviation parseArgs' := (parseArgs ParseInt ParseDuration readAsCSV ProviderID_Set).

(** A property [P] of the state that every successful setting of a flag of
    the set keeps, and that does not depend on the positional arguments,
    holds after a successful parse; after a failed one the weaker [Q] holds,
    which is what a failed setting leaves. *)
Section Invariant.

Variables P Q : World -> Prop.
Hypothesis P_Q : forall w, P w -> Q w.
Hypothesis P_args : forall l w, P w -> P (set_flagArgs l w).
Hypothesis P_set :
  forall fl v w, In fl (flags w) -> P w ->
    match FlagSet_Set' fl v w with
    | (None, w') => P w'
    | (Some _, w') => Q w'
    end.

Lemma post3_set (fl : Flag) (v : string) (w : World) (b : bool) :
  In fl (flags w) -> P w ->
  post3 P Q (let (err, w') := FlagSet_Set' fl v w in (err, b, w')).
Proof.
  intros Hin HP. specialize (P_set fl v w Hin HP).
  destruct (FlagSet_Set' fl v w) as [[err|] w']; exact P_set.
Qed.

Lemma parseLongArg_inv (name : string) (a : list string) (w : World) :
  P w -> post3 P Q (parseLongArg' name a w).
Proof.
  intros HP. unfold parseLongArg.
  destruct name as [|c name']; [apply P_Q, HP|].
  destruct (Ascii.eqb c "-" || Ascii.eqb c "="); [apply P_Q, HP|].
  destruct (splitEq (String c name')) as [n split].
  destruct (Lookup n (flags w)) as [fl|] eqn:HL.
  - apply Lookup_In in HL. destruct HL as [Hin _].
    destruct split as [value|]; [now apply post3_set|].
    destruct (negb (String.eqb (NoOptDefVal fl) EmptyString));
      [now apply post3_set|].
    destruct a as [|value a']; [apply P_Q, HP | now apply post3_set].
  - destruct (String.eqb n "help"); apply P_Q, HP.
Qed.

Lemma parseShortArg_inv (shorthands : string) (a : list string) :
  forall w, P w -> post3 P Q (parseShortArg' shorthands a w).
Proof.
  induction shorthands as [|c outShorts IH]; intros w HP; [exact HP|].
  cbn [parseShortArg].
  destruct (prefix "test." (String c outShorts)); [exact HP|].
  destruct (ShorthandLookup c (flags w)) as [fl|] eqn:HL.
  2:{ destruct (Ascii.eqb c "h"); apply P_Q, HP. }
  apply ShorthandLookup_In in HL.
  assert (Hgen :
    post3 P Q (if negb (String.eqb (NoOptDefVal fl) EmptyString)
           then match FlagSet_Set' fl (NoOptDefVal fl) w with
                | (Some err, w') => (Some err, false, w')
                | (None, w') => parseShortArg' outShorts a w'
                end
           else match outShorts with
                | String _ _ =>
                    let (err, w') := FlagSet_Set' fl outShorts w in
                    (err, false, w')
                | EmptyString =>
                    match a with
                    | value :: _ =>
                        let (err, w') := FlagSet_Set' fl value w in
                        (err, true, w')
                    | [] =>
                        (Some (errorString
                                 ("flag needs an argument: "
                                  ++ String c EmptyString ++ " in -"
                                  ++ String c outShorts)), false, w)
                    end
                end)).
  { destruct (negb (String.eqb (NoOptDefVal fl) EmptyString)).
    - pose proof (P_set fl (NoOptDefVal fl) w HL HP) as Hset.
      destruct (FlagSet_Set' fl (NoOptDefVal fl) w) as [[err|] w'];
        [exact Hset | apply IH; exact Hset].
    - destruct outShorts as [|c1 s1]; [|now apply post3_set].
      destruct a as [|value a']; [apply P_Q, HP | now apply post3_set]. }
  destruct outShorts as [|c1 s1]; [exact Hgen|].
  destruct (Ascii.eqb c1 "=") eqn:Hc1.
  - apply Ascii.eqb_eq in Hc1. subst c1.
    destruct s1 as [|c2 rest]; [exact Hgen | now apply post3_set].
  - assert (Hne : c1 <> "="%char) by (intros ->; discriminate).
    destruct c1 as [[] [] [] [] [] [] [] []]; try exact Hgen.
    exfalso. apply Hne. reflexivity.
Qed.

Lemma parseArgs_inv_tl (args : list string) :
  (forall w, P w -> post P Q (parseArgs' args w))
  /\ (forall w, P w -> post P Q (parseArgs' (tl args) w)).
Proof.
  induction args as [|s rest [IH IHtl]]; [split; intros w HP; exact HP|].
  split; [|exact IH].
  intros w HP. cbn [parseArgs].
  assert (Hpos : post P Q (parseArgs' rest
                         (set_flagArgs (flagArgs w ++ [s]) w)))
    by (apply IH, P_args, HP).
  assert (Hcont : forall r : option error * bool * World,
    post3 P Q r ->
    post P Q (match r with
          | (Some err, _, w') => (Some err, w')
          | (None, false, w') => parseArgs' rest w'
          | (None, true, w') =>
              match rest with
              | _ :: rest' => parseArgs' rest' w'
              | [] => (None, w')
              end
          end)).
  { intros [[[err|] b] w'] Hr; simpl in Hr; [exact Hr|].
    destruct b; [|apply IH; exact Hr].
    destruct rest as [|v rest']; [exact Hr|].
    apply IHtl; exact Hr. }
  destruct s as [|c0 s0]; [exact Hpos|].
  destruct (Ascii.eqb c0 "-") eqn:Hc0.
  2:{ assert (Hne : c0 <> "-"%char) by (intros ->; discriminate).
      destruct c0 as [[] [] [] [] [] [] [] []]; try exact Hpos.
      exfalso. apply Hne. reflexivity. }
  apply Ascii.eqb_eq in Hc0. subst c0.
  destruct s0 as [|c1 s1]; [exact Hpos|].
  destruct (Ascii.eqb c1 "-") eqn:Hc1.
  - apply Ascii.eqb_eq in Hc1. subst c1.
    destruct s1 as [|c2 s2].
    + apply P_args, HP.
    + apply Hcont, parseLongArg_inv, HP.
  - assert (Hne : c1 <> "-"%char) by (intros ->; discriminate).
    destruct c1 as [[] [] [] [] [] [] [] []];
      try (apply Hcont, parseShortArg_inv, HP).
    exfalso. apply Hne. reflexivity.
Qed.

Lemma parseArgs_inv (args : list string) (w : World) :
  P w -> post P Q (parseArgs' args w).
Proof. apply (parseArgs_inv_tl args). Qed.

End Invariant.

Lemma ValueSet_frame (fl : Flag) (v : string) (w : World) :
  let w' := snd (ValueSet' fl v w) in
  sameFrame w w' /\ flags w' = flags w /\ flagArgs w' = flagArgs w.
Proof.
  unfold ValueSet, sameFrame.
  destruct (FlagValue fl) as [p|f|f|f| |].
  - destruct (ParseBool v) as [b err]. destruct p; cbn; auto.
  - cbn; auto.
  - destruct (ParseInt v) as [z err]. cbn; auto.
  - destruct (ParseDuration v) as [z err]. cbn; auto.
  - destruct (readAsCSV v) as [err|l]; cbn; auto.
  - destruct (ProviderID_Set (ProviderID w) v) as [z err]. cbn; auto.
Qed.

Lemma FlagSet_Set_frame (fl : Flag) (v : string) (w : World) :
  let w' := snd (FlagSet_Set' fl v w) in
  sameFrame w w' /\ flagArgs w' = flagArgs w.
Proof.
  unfold FlagSet_Set.
  pose proof (ValueSet_frame fl v w) as H. cbv zeta in H.
  destruct (ValueSet' fl v w) as [[err|] w1]; cbn [snd] in *.
  - tauto.
  - unfold sameFrame in *. cbn. rewrite markChanged_shape.
    destruct H as [[He [Hc [Hs Hf]]] [Hfl Ha]]. auto.
Qed.

Lemma parseArgs_frame (args : list string) (w : World) :
  sameFrame w (snd (parseArgs' args w)).
Proof.
  pose proof (parseArgs_inv (sameFrame w) (sameFrame w)) as H.
  assert (Hpost : post (sameFrame w) (sameFrame w) (parseArgs' args w)).
  { apply H.
    - auto.
    - intros l w1 H1. exact H1.
    - intros fl v w1 _ H1.
      pose proof (FlagSet_Set_frame fl v w1) as [H2 _]. cbv zeta in H2.
      destruct (FlagSet_Set' fl v w1) as [[err|] w2]; cbn [snd] in H2;
        unfold sameFrame in *; intuition congruence.
    - unfold sameFrame. auto. }
  unfold post in Hpost.
  destruct (parseArgs' args w) as [[err|] w']; exact Hpost.
Qed.

Lemma Parse_frame (args : list string) (w : World) :
  sameFrame w (snd (Parse ParseInt ParseDuration readAsCSV ProviderID_Set
                          args w)).
Proof.
  unfold Parse.
  pose proof (parseArgs_frame args (set_flagArgs [] w)) as H.
  exact H.
Qed.

(** Setting a flag changes nothing where another flag points. *)
Lemma ValueSet_other (fl : Flag) (v : string) (w : World) (t : Value) :
  FlagValue fl <> t ->
  load t (snd (ValueSet' fl v w)) = load t w.
Proof.
  unfold ValueSet. intros Hne.
  destruct (FlagValue fl) as [p|f|f|f| |].
  - destruct (ParseBool v) as [b err]. cbn [snd].
    destruct t as [q|g|g|g| |];
      try (destruct p as [| | |f]; [| | |destruct f]; reflexivity).
    destruct p as [| | |f]; destruct q as [| | |g];
      try reflexivity; try congruence;
      destruct f; destruct g; try reflexivity; congruence.
  - cbn [snd].
    destruct t as [q|g|g|g| |]; try (destruct f; reflexivity).
    destruct f; destruct g; try reflexivity; congruence.
  - destruct (ParseInt v) as [z err]. cbn [snd].
    destruct t as [q|g|g|g| |]; try (destruct f; reflexivity).
    destruct f; destruct g; try reflexivity; congruence.
  - destruct (ParseDuration v) as [z err]. cbn [snd].
    destruct t as [q|g|g|g| |]; try (destruct f; reflexivity).
    destruct f; destruct g; try reflexivity; congruence.
  - destruct (readAsCSV v) as [err|l]; cbn [snd]; [reflexivity|].
    destruct t as [q|g|g|g| |]; try reflexivity; congruence.
  - destruct (ProviderID_Set (ProviderID w) v) as [z err]. cbn [snd].
    destruct t as [q|g|g|g| |]; try reflexivity; congruence.
Qed.

(** A flag that a successful parse has not set still holds what it held
    before, provided no flag of another name points to the same place. *)
Section Unset.

Variable t : Value.
Variable n : string.

Lemma FlagSet_Set_keeps (w0 : World) (fl : Flag) (v : string) (w w' : World) :
  In fl (flags w) ->
  onlyNamed t n w /\ (changed n w = true \/ load t w = load t w0) ->
  FlagSet_Set' fl v w = (None, w') ->
  onlyNamed t n w' /\ (changed n w' = true \/ load t w' = load t w0).
Proof.
  intros Hin [Huniq Hkeep]. unfold FlagSet_Set.
  pose proof (ValueSet_frame fl v w) as [_ [Hfl _]].
  pose proof (ValueSet_other fl v w t) as Hother.
  cbv zeta in Hfl.
  destruct (ValueSet' fl v w) as [[err|] w1]; [discriminate|].
  cbn [snd] in *. intros Heq. injection Heq as <-.
  split.
  - intros fl1 Hin1 Hv. cbn in Hin1. rewrite Hfl in Hin1.
    apply markChanged_In in Hin1. destruct Hin1 as [fl0 [Hin0 [Hsh _]]].
    unfold shape in Hsh. injection Hsh as Hn _ Hval _.
    rewrite Hn. apply Huniq; congruence.
  - unfold changed. cbn [flags set_flags]. rewrite Hfl, load_set_flags.
    destruct (String.eqb (FlagName fl) n) eqn:Hname.
    + apply String.eqb_eq in Hname. left. rewrite Hname.
      eapply changedIn_marked; eauto.
    + destruct Hkeep as [Hc|Hl].
      * left. apply changedIn_markChanged. exact Hc.
      * right. rewrite Hother; [exact Hl|].
        intros Hv. apply Huniq in Hv; [|exact Hin].
        rewrite Hv, String.eqb_refl in Hname. discriminate.
Qed.

Lemma Parse_keeps_unset (args : list string) (w w' : World) :
  onlyNamed t n w ->
  Parse ParseInt ParseDuration readAsCSV ProviderID_Set args w = (None, w') ->
  changed n w' = false ->
  load t w' = load t w.
Proof.
  intros Huniq HP Hch. unfold Parse in HP.
  pose proof (parseArgs_inv
    (fun w1 => onlyNamed t n w1 /\ (changed n w1 = true \/ load t w1 = load t w))
    (fun _ => True)) as H.
  specialize (H (fun _ _ => I)).
  assert (Hpost : post
    (fun w1 => onlyNamed t n w1 /\ (changed n w1 = true \/ load t w1 = load t w))
    (fun _ => True) (parseArgs' args (set_flagArgs [] w))).
  { apply H.
    - intros l w1 [H1 H2]. split; [exact H1|].
      rewrite load_set_flagArgs. exact H2.
    - intros fl v w1 Hin H1.
      destruct (FlagSet_Set' fl v w1) as [[err|] w2] eqn:Hset; [exact I|].
      eapply FlagSet_Set_keeps; eauto.
    - split; [exact Huniq|]. right. apply load_set_flagArgs. }
  rewrite HP in Hpost. cbn in Hpost. destruct Hpost as [_ [Hc|Hl]].
  - congruence.
  - exact Hl.
Qed.

End Unset.

End ParsingFacts.

(** ** The course of a run *)

Section ProgramFacts.

Variable DefaultOptions : Options.t.
Variable IsDebugBuild : bool.
Variable version_Name : string.
Variable version_Tag : string.
Variable TestModeKernelArg : string.
Variable environ : list (string * string).
Variable ProviderID_init : string.
Variable ParseInt : string -> Z * option error.
Variable ParseDuration : string -> Duration * option error.
Variable readAsCSV : string -> error + list string.
Variable ProviderID_Set : string -> string -> string * option error.
Variable complete : list string -> World -> option error * World.
Variable zap_Build : zap.Config -> option error.
Variable provider_Run : Options.t -> zap.Logger -> Context -> option error.
Variable Quote : string -> string.

Local Abbreviation rootCmd' :=
  (rootCmd version_Name version_Tag zap_Build provider_Run Quote).
Local Abbreviation main' :=
  (main version_Name version_Tag ParseInt ParseDuration readAsCSV
        ProviderID_Set complete zap_Build provider_Run Quote).
Local Abbreviation prepared' :=
  (prepared version_Name version_Tag zap_Build provider_Run Quote).
Local Abbreviation parsed' :=
  (parsed version_Name version_Tag ParseInt ParseDuration readAsCSV
          ProviderID_Set zap_Build provider_Run Quote).
Local Abbreviation reached' :=
  (reached version_Name version_Tag ParseInt ParseDuration readAsCSV
           ProviderID_Set zap_Build provider_Run Quote).
Local Abbreviation initial' :=
  (initial DefaultOptions IsDebugBuild TestModeKernelArg environ
           ProviderID_init).
Local Abbreviation start' :=
  (start DefaultOptions IsDebugBuild version_Name version_Tag
         TestModeKernelArg environ ProviderID_init ParseInt ParseDuration
         readAsCSV ProviderID_Set complete zap_Build provider_Run Quote).

Lemma prepared_frame (w : World) :
  events (prepared' w) = events w /\ cmdCtx (prepared' w) = rootCtx
  /\ SilenceUsage (prepared' w) = SilenceUsage w
  /\ providerOptions (prepared' w) = providerOptions w
  /\ debug (prepared' w) = debug w.
Proof.
  unfold prepared, InitDefaultVersionFlag, InitDefaultHelpFlag.
  cbn [Version rootCmd].
  destruct (Lookup "help" (flags (set_cmdCtx rootCtx w)));
    destruct (String.eqb version_Tag EmptyString);
    try match goal with
        | |- context [Lookup "version" ?fs] => destruct (Lookup "version" fs)
        end;
    cbn; auto.
Qed.


Lemma parsed_frame (args : list string) (w : World) :
  events (snd (parsed' args w)) = events w
  /\ cmdCtx (snd (parsed' args w)) = rootCtx
  /\ SilenceUsage (snd (parsed' args w)) = SilenceUsage w.
Proof.
  unfold parsed.
  pose proof (Parse_frame ParseInt ParseDuration readAsCSV ProviderID_Set
                          args (prepared' w)) as [He [Hc [Hs _]]].
  pose proof (prepared_frame w) as [He' [Hc' [Hs' _]]].
  repeat split; congruence.
Qed.

(** [main] is the verdict on the completion request or on the execution of
    the root command. *)
Lemma main_verdict (args : list string) (w : World) :
  main' args w
  = let (r, w1) :=
      if isCompleteRequest args (flags w)
      then (fst (complete args (set_cmdCtx rootCtx w)),
            answered w (snd (complete args (set_cmdCtx rootCtx w))))
      else execute ParseInt ParseDuration readAsCSV ProviderID_Set
                   rootCmd' args (set_cmdCtx rootCtx w) in
    verdict r w1.
Proof.
  unfold main, runCmd, ExecuteContext, ExecuteC, verdict, answered.
  cbn [cmdCtx set_cmdCtx flags events]. fold rootCtx.
  destruct (isCompleteRequest args (flags w)).
  - destruct (complete args (set_cmdCtx rootCtx w)) as [[err|] w'];
      cbn [fst snd]; [|reflexivity].
    destruct (isErrHelp err); reflexivity.
  - destruct (execute ParseInt ParseDuration readAsCSV ProviderID_Set
                      rootCmd' args (set_cmdCtx rootCtx w)) as [[err|] w1];
      [|reflexivity].
    destruct (isErrHelp err); reflexivity.
Qed.

(** The execution of the root command, by what parsing gave. *)
Lemma execute_parsed (args : list string) (w : World) :
  execute ParseInt ParseDuration readAsCSV ProviderID_Set rootCmd' args
          (set_cmdCtx rootCtx w)
  = match parsed' args w with
    | (Some err, wp) => (Some err, wp)
    | (None, wp) =>
        if helpVal wp then (Some ErrHelp, wp)
        else if negb (String.eqb version_Tag EmptyString) && versionVal wp
        then (None, emit EvVersion wp)
        else match flagArgs wp with
             | a :: rest => (NoArgs Quote version_Name (a :: rest), wp)
             | [] =>
                 match initLogger zap_Build wp with
                 | inl err =>
                     (Some (wrapError "failed to create logger: " err),
                      set_SilenceUsage true wp)
                 | inr l =>
                     let o := providerOptions wp in
                     let w2 := emit (EvSync l)
                                 (emit (EvRun o l rootCtx)
                                    (emit (EvNew o l)
                                       (set_SilenceUsage true wp))) in
                     match provider_Run o l rootCtx with
                     | Some err =>
                         (Some (wrapError "failed to run provider: " err), w2)
                     | None => (None, w2)
                     end
                 end
             end
    end.
Proof.
  pose proof (parsed_frame args w) as [_ [Hctx _]].
  unfold execute. fold (prepared' w). fold (parsed' args w).
  destruct (parsed' args w) as [[err|] wp]; [reflexivity|].
  cbn [snd] in Hctx.
  destruct (helpVal wp); [reflexivity|].
  cbn [Version rootCmd].
  destruct (negb (String.eqb version_Tag EmptyString) && versionVal wp);
    [reflexivity|].
  cbn [Args Use rootCmd PersistentPreRun RunE].
  destruct (flagArgs wp) as [|a rest] eqn:Ha; [|reflexivity].
  cbn [NoArgs].
  unfold initLogger. cbn [debug set_SilenceUsage].
  destruct (zap_Build _) as [err|]; [reflexivity|].
  unfold run. cbn [cmdCtx set_SilenceUsage emit set_events providerOptions].
  rewrite Hctx.
  destruct (provider_Run _ _ _); reflexivity.
Qed.


Lemma verdict_frame (r : option error) (w : World) :
  exists pre,
    events (snd (verdict r w)) = pre ++ events w
    /\ Forall notRun pre /\ In (EvStop rootCtx) pre
    /\ providerOptions (snd (verdict r w)) = providerOptions w
    /\ flags (snd (verdict r w)) = flags w
    /\ flagArgs (snd (verdict r w)) = flagArgs w.
Proof.
  unfold verdict. destruct r as [err|].
  - destruct (isErrHelp err).
    + exists [EvStop rootCtx; EvHelp]. cbn.
      repeat split; auto; repeat constructor.
    + cbn [emit set_events SilenceUsage events].
      destruct (SilenceUsage w).
      * eexists [EvFatal _; EvStop rootCtx; EvPrintError err]. cbn.
        repeat split; auto; repeat constructor.
      * eexists [EvFatal _; EvStop rootCtx; EvUsage; EvPrintError err]. cbn.
        repeat split; auto; repeat constructor.
  - exists [EvStop rootCtx]. cbn. repeat split; auto; repeat constructor.
Qed.

Lemma reached_parsed (args : list string) (w wp : World) (l : zap.Logger) :
  reached' args w = Some (wp, l) ->
  isCompleteRequest args (flags w) = false
  /\ parsed' args w = (None, wp) /\ helpVal wp = false
  /\ flagArgs wp = [] /\ initLogger zap_Build wp = inr l.
Proof.
  unfold reached. intros H.
  destruct (isCompleteRequest args (flags w)); [discriminate|].
  destruct (parsed' args w) as [[err|] wp0]; [discriminate|].
  destruct (helpVal wp0) eqn:Hh; [discriminate|].
  destruct (negb (String.eqb version_Tag EmptyString) && versionVal wp0);
    [discriminate|].
  destruct (flagArgs wp0) eqn:Ha; [|discriminate].
  destruct (initLogger zap_Build wp0) as [e|l0] eqn:Hl; [discriminate|].
  injection H as <- <-. repeat split; assumption.
Qed.

(** When [run] is reached: the provider is made once, from the options as
    parsing left them, and run with the root context; nothing after that
    touches the options. *)
Lemma main_reached (args : list string) (w wp : World) (l : zap.Logger) :
  reached' args w = Some (wp, l) ->
  exists pre,
    events (snd (main' args w))
    = pre ++ [EvSync l; EvRun (providerOptions wp) l rootCtx;
              EvNew (providerOptions wp) l] ++ events w
    /\ Forall notRun pre /\ In (EvStop rootCtx) pre
    /\ providerOptions (snd (main' args w)) = providerOptions wp
    /\ flags (snd (main' args w)) = flags wp
    /\ flagArgs (snd (main' args w)) = [].
Proof.
  intros H. pose proof H as Hr. unfold reached in Hr.
  apply reached_parsed in H. destruct H as [Hc [Hp [Hh [Ha Hl]]]].
  pose proof (parsed_frame args w) as [He _]. rewrite Hp in He.
  cbn [snd] in He.
  rewrite Hc, Hp, Hh, Ha, Hl in Hr.
  rewrite main_verdict, Hc, execute_parsed, Hp, Hh.
  destruct (negb (String.eqb version_Tag EmptyString) && versionVal wp);
    [discriminate|].
  rewrite Ha, Hl. cbv zeta.
  destruct (provider_Run (providerOptions wp) l rootCtx);
    cbv beta iota;
    match goal with
    | |- context [verdict ?r ?w1] =>
        destruct (verdict_frame r w1)
          as [pre [Hev [Hnr [Hst [Ho [Hf Hfa]]]]]]
    end;
    exists pre; cbn [emit set_events events providerOptions flags flagArgs
                     set_SilenceUsage] in *;
    rewrite Hev, Ho, Hf, Hfa, He; repeat split; auto.
Qed.

(** Otherwise the provider is neither made nor run. *)
Lemma main_not_reached (args : list string) (w : World) :
  reached' args w = None ->
  exists pre,
    events (snd (main' args w)) = pre ++ events w /\ Forall notRun pre.
Proof.
  intros Hr. unfold reached in Hr.
  pose proof (parsed_frame args w) as [He _].
  rewrite main_verdict.
  destruct (isCompleteRequest args (flags w)).
  { destruct (verdict_frame (fst (complete args (set_cmdCtx rootCtx w)))
                (answered w (snd (complete args (set_cmdCtx rootCtx w)))))
      as [pre [Hev [Hnr _]]].
    exists (pre ++ [EvCompletion]). rewrite Hev. cbn.
    rewrite <- app_assoc. split; [reflexivity|].
    apply Forall_app. split; [exact Hnr | repeat constructor]. }
  rewrite execute_parsed.
  destruct (parsed' args w) as [[err|] wp]; cbn [snd] in He.
  { destruct (verdict_frame (Some err) wp) as [pre [Hev [Hnr _]]].
    exists pre. rewrite Hev, He. auto. }
  destruct (helpVal wp).
  { destruct (verdict_frame (Some ErrHelp) wp) as [pre [Hev [Hnr _]]].
    exists pre. rewrite Hev, He. auto. }
  destruct (negb (String.eqb version_Tag EmptyString) && versionVal wp).
  { destruct (verdict_frame None (emit EvVersion wp)) as [pre [Hev [Hnr _]]].
    exists (pre ++ [EvVersion]). rewrite Hev. cbn. rewrite He.
    rewrite <- app_assoc. split; [reflexivity|].
    apply Forall_app. split; [exact Hnr | repeat constructor]. }
  destruct (flagArgs wp) as [|a rest].
  2:{ destruct (verdict_frame (NoArgs Quote version_Name (a :: rest)) wp)
        as [pre [Hev [Hnr _]]].
      exists pre. rewrite Hev, He. auto. }
  destruct (initLogger zap_Build wp) as [err|l]; [|discriminate].
  destruct (verdict_frame (Some (wrapError "failed to create logger: " err))
              (set_SilenceUsage true wp)) as [pre [Hev [Hnr _]]].
  exists pre. rewrite Hev. cbn. rewrite He. auto.
Qed.


(** *** From the state [init] leaves *)

Lemma initial_events : events initial' = [].
Proof. destruct IsDebugBuild; reflexivity. Qed.

Lemma start_new_inv (args : list string) (o : Options.t) (l : zap.Logger) :
  In (EvNew o l) (events (snd (start' args))) ->
  exists wp, reached' args initial' = Some (wp, l) /\ o = providerOptions wp.
Proof.
  unfold start. intros Hin.
  destruct (reached' args initial') as [[wp l0]|] eqn:Hr.
  - destruct (main_reached args initial' wp l0 Hr) as [pre [Hev [Hnr _]]].
    rewrite Hev, initial_events in Hin.
    apply in_app_or in Hin. destruct Hin as [Hin|Hin].
    + rewrite Forall_forall in Hnr. apply Hnr in Hin. contradiction.
    + cbn in Hin.
      destruct Hin as [Hin|[Hin|[Hin|[]]]]; try discriminate.
      injection Hin as <- <-. exists wp. auto.
  - destruct (main_not_reached args initial' Hr) as [pre [Hev Hnr]].
    rewrite Hev, initial_events, app_nil_r in Hin.
    rewrite Forall_forall in Hnr. apply Hnr in Hin. contradiction.
Qed.

Lemma start_run_inv (args : list string) (o : Options.t) (l : zap.Logger)
    (c : Context) :
  In (EvRun o l c) (events (snd (start' args))) ->
  exists wp, reached' args initial' = Some (wp, l)
             /\ o = providerOptions wp /\ c = rootCtx.
Proof.
  unfold start. intros Hin.
  destruct (reached' args initial') as [[wp l0]|] eqn:Hr.
  - destruct (main_reached args initial' wp l0 Hr) as [pre [Hev [Hnr _]]].
    rewrite Hev, initial_events in Hin.
    apply in_app_or in Hin. destruct Hin as [Hin|Hin].
    + rewrite Forall_forall in Hnr. apply Hnr in Hin. contradiction.
    + cbn in Hin.
      destruct Hin as [Hin|[Hin|[Hin|[]]]]; try discriminate.
      injection Hin as <- <- <-. exists wp. auto.
  - destruct (main_not_reached args initial' Hr) as [pre [Hev Hnr]].
    rewrite Hev, initial_events, app_nil_r in Hin.
    rewrite Forall_forall in Hnr. apply Hnr in Hin. contradiction.
Qed.

(** A flag that the invocation has not set holds, in the options handed to
    the provider, what [init] stored for it. *)
Lemma unset_keeps_default (t : Value) (n : string) (args : list string)
    (wp : World) (l : zap.Logger) :
  inOptions t = true ->
  onlyNamed t n (prepared' initial') ->
  reached' args initial' = Some (wp, l) ->
  changed n wp = false ->
  load t wp = load t initial'.
Proof.
  intros Ht Honly Hr Hch.
  apply reached_parsed in Hr. destruct Hr as [_ [Hp _]].
  unfold parsed in Hp.
  rewrite (Parse_keeps_unset ParseInt ParseDuration readAsCSV ProviderID_Set
             t n args (prepared' initial') wp Honly Hp Hch).
  apply load_inOptions; [exact Ht|].
  apply (prepared_frame initial').
Qed.


Lemma parsed_shapes (args : list string) (w : World) :
  map shape (flags (snd (parsed' args w))) = map shape (flags (prepared' w)).
Proof.
  unfold parsed.
  apply (Parse_frame ParseInt ParseDuration readAsCSV ProviderID_Set
                     args (prepared' w)).
Qed.

Lemma changed_unregistered (n : string) (args : list string) (w wp : World)
    (r : option error) :
  parsed' args w = (r, wp) ->
  Lookup n (flags (prepared' w)) = None ->
  changed n wp = false.
Proof.
  intros Hp Hnone. unfold changed, changedIn.
  pose proof (parsed_shapes args w) as Hsh. rewrite Hp in Hsh. cbn [snd] in Hsh.
  pose proof (Lookup_shape n _ _ Hsh) as HL. rewrite Hnone in HL.
  destruct (Lookup n (flags wp)); [discriminate|reflexivity].
Qed.

Lemma start_new_final (args : list string) (o : Options.t) (l : zap.Logger) :
  In (EvNew o l) (events (snd (start' args))) ->
  exists wp,
    reached' args initial' = Some (wp, l) /\ o = providerOptions wp
    /\ providerOptions (snd (start' args)) = o
    /\ flags (snd (start' args)) = flags wp
    /\ flagArgs (snd (start' args)) = [].
Proof.
  intros Hin. apply start_new_inv in Hin. destruct Hin as [wp [Hr ->]].
  exists wp. unfold start.
  destruct (main_reached args initial' wp l Hr)
    as [pre [_ [_ [_ [Ho [Hf Ha]]]]]].
  auto.
Qed.

(** What an invocation that does not set the flag [n] hands over where the
    flag points: what [init] stored there. *)
Lemma start_unset (t : Value) (n : string) (args : list string)
    (o : Options.t) (l : zap.Logger) :
  inOptions t = true ->
  onlyNamed t n (prepared' initial') ->
  In (EvNew o l) (events (snd (start' args))) ->
  changed n (snd (start' args)) = false ->
  exists wp, o = providerOptions wp /\ load t wp = load t initial'.
Proof.
  intros Ht Honly Hin Hch.
  apply start_new_final in Hin.
  destruct Hin as [wp [Hr [-> [_ [Hf _]]]]].
  exists wp. split; [reflexivity|].
  apply (unset_keeps_default t n args wp l Ht Honly Hr).
  unfold changed in *. rewrite <- Hf. exact Hch.
Qed.

(** What an invocation hands over, read off the outcome of parsing. *)
Lemma start_new_parsed (args : list string) (o : Options.t) (l : zap.Logger) :
  In (EvNew o l) (events (snd (start' args))) ->
  o = providerOptions (snd (parsed' args initial')).
Proof.
  intros Hin. apply start_new_inv in Hin. destruct Hin as [wp [Hr ->]].
  apply reached_parsed in Hr. destruct Hr as [_ [Hp _]].
  rewrite Hp. reflexivity.
Qed.

(** No flag of another name points where the flag named [n] points. *)
Ltac only_named :=
  apply onlyNamedb_sound;
  destruct IsDebugBuild; destruct version_Tag; vm_compute; reflexivity.

(** The flags of [init], by name, in the order of registration. *)
Lemma registered_names :
  map FlagName (flags initial')
  = ["id"; "debug"; "api-listen-address"; "api-advertise-address";
     "api-port"; "omni-api-endpoint"; "provider-name";
     "provider-description"; "use-local-boot-assets";
     "dhcp-proxy-iface-or-ip"; "image-factory-base-url";
     "image-factory-pxe-base-url"; "agent-mode-talos-version";
     "agent-test-mode"; "api-power-mgmt-state-dir"; "boot-from-disk-method";
     "ipmi-pxe-boot-mode"; "machine-labels"; "insecure-skip-tls-verify";
     "min-reboot-interval"]
    ++ (if IsDebugBuild then ["clear-state"] else [])
    ++ ["enable-resource-cache"; "wipe-with-zeroes"; "disable-dhcp-proxy";
        "tls-enabled"; "tls-api-port"; "tls-agent-skip-verify"; "tls-ca-ttl";
        "tls-cert-ttl"; "redfish-use-always"; "redfish-use-when-available";
        "redfish-use-https"; "redfish-insecure-skip-tls-verify";
        "redfish-port"; "redfish-set-boot-source-override-mode"].
Proof. destruct IsDebugBuild; vm_compute; reflexivity. Qed.

(** Registration leaves at every destination the default it was given. *)
Lemma initial_options :
  providerOptions initial'
  = Options.set_ClearState
      (if IsDebugBuild then Options.ClearState DefaultOptions else false)
      (Options.set_OmniAPIEndpoint (Getenv environ "OMNI_ENDPOINT")
         DefaultOptions).
Proof.
  destruct IsDebugBuild; destruct DefaultOptions as [? ? ? ? ? ? ? ? ? ? ? ?
    ? ? ? ? ? ? ? ? ? ? [? ? ? ? ?] [? ? ? ? ? ?]]; reflexivity.
Qed.

(** ** The claims *)

(** C4.  The [clear-state] flag is among the flags [init] registers if and
    only if the build is a debug build; and in a build that is not, whatever
    the arguments of the invocation, the options handed to [provider.New]
    have [ClearState] off. *)
Theorem clear_state_only_in_debug_builds :
  (In "clear-state" (map FlagName (flags initial')) <-> IsDebugBuild = true)
  /\ (IsDebugBuild = false ->
      forall (args : list string) (o : Options.t) (l : zap.Logger),
        In (EvNew o l) (events (snd (start' args))) ->
        Options.ClearState o = false).
Proof.
  split.
  - destruct IsDebugBuild; split; intros H; try reflexivity; try discriminate.
    + vm_compute. tauto.
    + exfalso. vm_compute in H.
      repeat (destruct H as [H|H]; [discriminate H|]). exact H.
  - intros Hdbg args o l Hin.
    apply start_new_inv in Hin. destruct Hin as [wp [Hr ->]].
    pose proof Hr as Hp. apply reached_parsed in Hp.
    destruct Hp as [_ [Hp _]].
    assert (Hload : load (boolValue (p_bool f_ClearState)) wp
                    = load (boolValue (p_bool f_ClearState)) initial').
    { apply (unset_keeps_default _ "clear-state" args wp l);
        [reflexivity | | exact Hr |].
      - only_named.
      - apply (changed_unregistered _ args initial' wp None Hp).
        rewrite Hdbg. destruct version_Tag; reflexivity. }
    rewrite Hdbg in Hload. cbn in Hload. congruence.
Qed.

(** C2.  The usage text of [ipmi-pxe-boot-mode] names two boot modes, BIOS
    and UEFI, which are different and which are all the boot modes there
    are.  The flag is registered once, as a string stored in
    [IPMIPXEBootMode]; an invocation that does not set it hands the
    provider the default of [provider.DefaultOptions], and one that sets it
    hands over the value given. *)
Theorem ipmi_pxe_boot_mode_option :
  map (fun fl => (FlagValue fl, usageArgs (FlagUsage fl)))
      (registrations "ipmi-pxe-boot-mode" initial')
  = [(stringValue f_IPMIPXEBootMode,
      [argBootModes [BootModeBIOS; BootModeUEFI]])]
  /\ BootModeBIOS <> BootModeUEFI
  /\ (forall m : BootMode, m = BootModeBIOS \/ m = BootModeUEFI)
  /\ (forall (args : list string) (o : Options.t) (l : zap.Logger),
        In (EvNew o l) (events (snd (start' args))) ->
        changed "ipmi-pxe-boot-mode" (snd (start' args)) = false ->
        Options.IPMIPXEBootMode o = Options.IPMIPXEBootMode DefaultOptions)
  /\ (forall (v : string) (o : Options.t) (l : zap.Logger),
        In (EvNew o l)
           (events (snd (start' ["--ipmi-pxe-boot-mode"; v]))) ->
        Options.IPMIPXEBootMode o = v).
Proof.
  split; [destruct IsDebugBuild; vm_compute; reflexivity|].
  split; [discriminate|].
  split; [intros []; auto|].
  split.
  - intros args o l Hin Hch.
    destruct (start_unset (stringValue f_IPMIPXEBootMode)
                "ipmi-pxe-boot-mode" args o l) as [wp [-> Hload]];
      [reflexivity | only_named | exact Hin | exact Hch |].
    cbn in Hload. injection Hload as ->.
    destruct IsDebugBuild; vm_compute; reflexivity.
  - intros v o l Hin. apply start_new_parsed in Hin. subst o.
    destruct IsDebugBuild; destruct version_Tag; vm_compute; reflexivity.
Qed.

(** C1.  The usage text of [boot-from-disk-method] names three methods,
    iPXE exit, HTTP 404 and SAN disk, which are pairwise different and which
    are all the methods there are.  The flag is registered once, as a single
    string stored in [BootFromDiskMethod]; what an invocation gives for it is
    handed to the provider as it was written. *)
Theorem boot_from_disk_method_option :
  map (fun fl => (FlagValue fl, usageArgs (FlagUsage fl)))
      (registrations "boot-from-disk-method" initial')
  = [(stringValue f_BootFromDiskMethod,
      [argBootFromDiskMethods [BootIPXEExit; Boot404; BootSANDisk]])]
  /\ NoDup [BootIPXEExit; Boot404; BootSANDisk]
  /\ (forall m : BootFromDiskMethod,
        In m [BootIPXEExit; Boot404; BootSANDisk])
  /\ (forall (v : string) (o : Options.t) (l : zap.Logger),
        In (EvNew o l)
           (events (snd (start' ["--boot-from-disk-method"; v]))) ->
        Options.BootFromDiskMethod o = v)
  /\ (forall (args : list string) (o : Options.t) (l : zap.Logger),
        In (EvNew o l) (events (snd (start' args))) ->
        changed "boot-from-disk-method" (snd (start' args)) = false ->
        Options.BootFromDiskMethod o
        = Options.BootFromDiskMethod DefaultOptions).
Proof.
  split; [destruct IsDebugBuild; vm_compute; reflexivity|].
  split.
  { repeat constructor; cbn; intuition discriminate. }
  split; [intros []; cbn; auto|].
  split.
  - intros v o l Hin. apply start_new_parsed in Hin. subst o.
    destruct IsDebugBuild; destruct version_Tag; vm_compute; reflexivity.
  - intros args o l Hin Hch.
    destruct (start_unset (stringValue f_BootFromDiskMethod)
                "boot-from-disk-method" args o l) as [wp [-> Hload]];
      [reflexivity | only_named | exact Hin | exact Hch |].
    cbn in Hload. injection Hload as ->.
    destruct IsDebugBuild; vm_compute; reflexivity.
Qed.

(** C5.  [redfish-set-boot-source-override-mode] is registered once, as a
    boolean stored in [Redfish.SetBootSourceOverrideMode]; an invocation
    that does not set it hands the provider the value of
    [provider.DefaultOptions], and one that sets it hands over the value
    given, so the field can be switched off. *)
Theorem redfish_set_boot_source_override_mode_option :
  map FlagValue
      (registrations "redfish-set-boot-source-override-mode" initial')
  = [boolValue (p_bool f_Redfish_SetBootSourceOverrideMode)]
  /\ (forall (args : list string) (o : Options.t) (l : zap.Logger),
        In (EvNew o l) (events (snd (start' args))) ->
        changed "redfish-set-boot-source-override-mode" (snd (start' args))
        = false ->
        RedfishOptions.SetBootSourceOverrideMode (Options.Redfish o)
        = RedfishOptions.SetBootSourceOverrideMode
            (Options.Redfish DefaultOptions))
  /\ (forall (b : bool) (o : Options.t) (l : zap.Logger),
        In (EvNew o l)
           (events (snd (start'
              [if b then "--redfish-set-boot-source-override-mode=true"
               else "--redfish-set-boot-source-override-mode=false"]))) ->
        RedfishOptions.SetBootSourceOverrideMode (Options.Redfish o) = b).
Proof.
  split; [destruct IsDebugBuild; vm_compute; reflexivity|].
  split.
  - intros args o l Hin Hch.
    destruct (start_unset
                (boolValue (p_bool f_Redfish_SetBootSourceOverrideMode))
                "redfish-set-boot-source-override-mode" args o l)
      as [wp [-> Hload]];
      [reflexivity | only_named | exact Hin | exact Hch |].
    cbn in Hload. injection Hload as ->.
    destruct IsDebugBuild; vm_compute; reflexivity.
  - intros b o l Hin. apply start_new_parsed in Hin. subst o.
    destruct b; destruct IsDebugBuild; destruct version_Tag;
      vm_compute; reflexivity.
Qed.

(** C9.  An invocation that does not set [omni-api-endpoint] hands the
    provider, as the endpoint of the Omni API, the value that
    [OMNI_ENDPOINT] had in the environment when [init] ran, which is the
    empty string when the variable is not set; an invocation that sets the
    flag hands over the value given, whatever the environment. *)
Theorem omni_api_endpoint_default :
  (forall (args : list string) (o : Options.t) (l : zap.Logger),
     In (EvNew o l) (events (snd (start' args))) ->
     changed "omni-api-endpoint" (snd (start' args)) = false ->
     Options.OmniAPIEndpoint o = Getenv environ "OMNI_ENDPOINT")
  /\ (lookupEnv "OMNI_ENDPOINT" environ = None ->
      Getenv environ "OMNI_ENDPOINT" = EmptyString)
  /\ (forall (v : string) (o : Options.t) (l : zap.Logger),
        In (EvNew o l)
           (events (snd (start' ["--omni-api-endpoint"; v]))) ->
        Options.OmniAPIEndpoint o = v
        /\ changed "omni-api-endpoint"
                   (snd (start' ["--omni-api-endpoint"; v])) = true)
  /\ (forall (v : string) (o : Options.t) (l : zap.Logger),
        In (EvNew o l)
           (events (snd (start' [("--omni-api-endpoint=" ++ v)%string]))) ->
        Options.OmniAPIEndpoint o = v).
Proof.
  split.
  - intros args o l Hin Hch.
    destruct (start_unset (stringValue f_OmniAPIEndpoint)
                "omni-api-endpoint" args o l) as [wp [-> Hload]];
      [reflexivity | only_named | exact Hin | exact Hch |].
    cbn in Hload. injection Hload as ->.
    destruct IsDebugBuild; vm_compute; reflexivity.
  - split; [unfold Getenv; intros ->; reflexivity|].
    split.
    + intros v o l Hin. apply start_new_final in Hin.
      destruct Hin as [wp [Hr [-> [_ [Hf _]]]]].
      apply reached_parsed in Hr. destruct Hr as [_ [Hp _]].
      unfold changed. rewrite Hf.
      replace wp with (snd (parsed' ["--omni-api-endpoint"; v] initial'))
        by (rewrite Hp; reflexivity).
      split; destruct IsDebugBuild; destruct version_Tag;
        vm_compute; reflexivity.
    + intros v o l Hin. apply start_new_parsed in Hin. subst o.
      destruct IsDebugBuild; destruct version_Tag; vm_compute; reflexivity.
Qed.

(** C7.  [run] returns an error exactly when the provider's [Run] does: the
    error is the provider's, wrapped under the text [failed to run
    provider], from which [errors.Unwrap] gives the provider's value back;
    when the provider returns nil so does [run].  [main] ends fatally, with
    the error logged, exactly when [runCmd] returns an error. *)
Theorem run_wraps_provider_error :
  (forall (ctx : Context) (logger : zap.Logger) (w : World),
     (fst (run provider_Run ctx logger w) = None
      <-> provider_Run (providerOptions w) logger ctx = None)
     /\ (forall err,
           provider_Run (providerOptions w) logger ctx = Some err ->
           exists e,
             fst (run provider_Run ctx logger w) = Some e
             /\ Unwrap e = Some err
             /\ Error e = ("failed to run provider: " ++ Error err)%string))
  /\ (forall (args : list string) (w : World),
        ((exists msg, fst (main' args w) = Fatal msg)
         <-> fst (runCmd version_Name version_Tag ParseInt ParseDuration
                         readAsCSV ProviderID_Set complete zap_Build
                         provider_Run Quote args w) <> None)
        /\ (forall msg, fst (main' args w) = Fatal msg ->
                        In (EvFatal msg) (events (snd (main' args w))))).
Proof.
  split.
  - intros ctx logger w. unfold run.
    cbn [emit set_events providerOptions].
    destruct (provider_Run (providerOptions w) logger ctx) as [err|].
    + split; [split; discriminate|].
      intros err' Heq. injection Heq as <-.
      eexists. split; [reflexivity|]. split; reflexivity.
    + split; [split; reflexivity|]. discriminate.
  - intros args w. unfold main.
    destruct (runCmd _ _ _ _ _ _ _ _ _ _ args w) as [[err|] w1];
      cbn [fst snd].
    + split.
      * split; [discriminate | eexists; reflexivity].
      * intros msg Heq. injection Heq as <-. cbn. auto.
    + split.
      * split; [intros [msg H]; discriminate | intros H; contradiction].
      * discriminate.
Qed.

Lemma news_notRun (es : list Event) : Forall notRun es -> news es = [].
Proof.
  induction 1 as [|e es He _ IH]; [reflexivity|].
  destruct e; cbn in *; try exact IH. contradiction.
Qed.

Lemma news_app (es es' : list Event) : news (es ++ es') = news es ++ news es'.
Proof.
  induction es as [|e es IH]; [reflexivity|].
  destruct e; cbn; rewrite IH; reflexivity.
Qed.

(** ** The long forms of a flag *)

Lemma prefix_empty (s : string) : prefix EmptyString s = true.
Proof. destruct s; reflexivity. Qed.

Lemma contains_cons (c : ascii) (s : string) :
  contains "=" (String c s) = false ->
  c <> "="%char /\ contains "=" s = false.
Proof.
  cbn [contains]. cbn [prefix].
  destruct (ascii_dec "=" c) as [<-|Hne].
  - rewrite prefix_empty. discriminate.
  - intros H. split; [congruence | exact H].
Qed.

Lemma contains_skip (c : ascii) (s : string) :
  c <> "="%char -> contains "=" (String c s) = contains "=" s.
Proof.
  intros Hne. cbn [contains]. cbn [prefix].
  destruct (ascii_dec "=" c) as [E|_]; [congruence | reflexivity].
Qed.

Lemma splitEq_plain (n : string) :
  contains "=" n = false -> splitEq n = (n, None).
Proof.
  induction n as [|c n IH]; intros H; [reflexivity|].
  apply contains_cons in H. destruct H as [Hc Hn].
  cbn [splitEq]. rewrite (IH Hn).
  destruct (Ascii.eqb c "=") eqn:E; [|reflexivity].
  apply Ascii.eqb_eq in E. contradiction.
Qed.

Lemma splitEq_value (n v : string) :
  contains "=" n = false ->
  splitEq (n ++ String "=" v) = (n, Some v).
Proof.
  induction n as [|c n IH]; intros H; [reflexivity|].
  apply contains_cons in H. destruct H as [Hc Hn].
  cbn [append splitEq]. rewrite (IH Hn).
  destruct (Ascii.eqb c "=") eqn:E; [|reflexivity].
  apply Ascii.eqb_eq in E. contradiction.
Qed.

Lemma contains_append (n v : string) :
  contains "=" (n ++ String "=" v) = true.
Proof.
  induction n as [|c n IH].
  - cbn. destruct (ascii_dec "=" "="); [|contradiction].
    rewrite prefix_empty. reflexivity.
  - cbn [append contains]. rewrite IH.
    destruct (prefix "=" (String c (n ++ String "=" v))); reflexivity.
Qed.

Lemma substring_all (s : string) : substring 0 (String.length s) s = s.
Proof. induction s as [|c s IH]; cbn; [reflexivity | now rewrite IH]. Qed.

(** What a plain name is made of. *)
Lemma plainName_inv (n : string) :
  plainName n = true ->
  exists c n', n = String c n'
               /\ (Ascii.eqb c "-" || Ascii.eqb c "=") = false
               /\ contains "=" n = false
               /\ c <> "-"%char /\ c <> "="%char.
Proof.
  unfold plainName. destruct n as [|c n']; [discriminate|].
  intros H. apply andb_true_iff in H. destruct H as [Hc Hcont].
  apply negb_true_iff in Hc, Hcont.
  exists c, n'. repeat split; try assumption.
  - intros ->. discriminate.
  - intros ->. apply orb_false_iff in Hc. destruct Hc. discriminate.
Qed.

Local Abbreviation FlagSet_Set' :=
  (FlagSet_Set ParseInt ParseDuration readAsCSV ProviderID_Set).
Local Abbreviation parseArgs' :=
  (parseArgs ParseInt ParseDuration readAsCSV ProviderID_Set).
Local Abbreviation gather1' :=
  (gather1 ParseInt ParseDuration readAsCSV ProviderID_Set).
Local Abbreviation gather' :=
  (gather ParseInt ParseDuration readAsCSV ProviderID_Set).

(** Parsing goes on after a flag has been set, and stops when the setting
    fails. *)
Local Abbreviation next fl v w rest :=
  (match FlagSet_Set' fl v w with
   | (Some err, w') => (Some err, w')
   | (None, w') => parseArgs' rest w'
   end).

(** [--name=value] sets the flag to the value. *)
Lemma parse_long_eq (w : World) (fl : Flag) (v : string)
    (rest : list string) :
  plainName (FlagName fl) = true ->
  Lookup (FlagName fl) (flags w) = Some fl ->
  parseArgs' (("--" ++ FlagName fl ++ "=" ++ v)%string :: rest) w
  = next fl v w rest.
Proof.
  intros Hplain Hlook.
  destruct (plainName_inv _ Hplain) as [c [n [Hname [Hc [Hcont _]]]]].
  rewrite Hname in *.
  cbn [append parseArgs]. unfold parseLongArg. rewrite Hc.
  change (String c (n ++ String "=" v))
    with (String c n ++ String "=" v)%string.
  rewrite (splitEq_value _ v Hcont), Hlook.
  destruct (FlagSet_Set' fl v w) as [[err|] w']; reflexivity.
Qed.

(** [--name value] sets a flag that stands for nothing when written
    alone to the next argument. *)
Lemma parse_long_next (w : World) (fl : Flag) (v : string)
    (rest : list string) :
  plainName (FlagName fl) = true ->
  Lookup (FlagName fl) (flags w) = Some fl ->
  NoOptDefVal fl = EmptyString ->
  parseArgs' (("--" ++ FlagName fl)%string :: v :: rest) w
  = next fl v w rest.
Proof.
  intros Hplain Hlook Hno.
  destruct (plainName_inv _ Hplain) as [c [n [Hname [Hc [Hcont _]]]]].
  rewrite Hname in *.
  cbn [append parseArgs]. unfold parseLongArg. rewrite Hc.
  rewrite (splitEq_plain _ Hcont), Hlook, Hno. cbn [String.eqb negb].
  destruct (FlagSet_Set' fl v w) as [[err|] w']; reflexivity.
Qed.

(** [--name] alone sets a flag that stands for something then, as the
    boolean flags do, to that value; the next argument is not taken. *)
Lemma parse_long_alone (w : World) (fl : Flag) (rest : list string) :
  plainName (FlagName fl) = true ->
  Lookup (FlagName fl) (flags w) = Some fl ->
  NoOptDefVal fl <> EmptyString ->
  parseArgs' (("--" ++ FlagName fl)%string :: rest) w
  = next fl (NoOptDefVal fl) w rest.
Proof.
  intros Hplain Hlook Hno.
  destruct (plainName_inv _ Hplain) as [c [n [Hname [Hc [Hcont _]]]]].
  rewrite Hname in *.
  assert (Hown : String.eqb (NoOptDefVal fl) EmptyString = false).
  { destruct (String.eqb (NoOptDefVal fl) EmptyString) eqn:E;
      [|reflexivity].
    apply String.eqb_eq in E. contradiction. }
  cbn [append parseArgs]. unfold parseLongArg. rewrite Hc.
  rewrite (splitEq_plain _ Hcont), Hlook, Hown. cbn [negb].
  destruct (FlagSet_Set' fl (NoOptDefVal fl) w) as [[err|] w'];
    reflexivity.
Qed.

(** The search for a command among the arguments skips the three forms. *)
Lemma stripFlags_eq (fs : list Flag) (n v : string) (rest : list string) :
  plainName n = true ->
  stripFlags (("--" ++ n ++ "=" ++ v)%string :: rest) fs
  = stripFlags rest fs.
Proof.
  intros Hplain.
  destruct (plainName_inv _ Hplain) as [c [n' [-> [_ [Hcont [Hd He]]]]]].
  cbn [append stripFlags].
  replace (String.eqb
             (String "-" (String "-" (String c (n' ++ String "=" v)))) "--")
    with false by reflexivity.
  assert (Hcon : contains "="
                   (String "-" (String "-" (String c (n' ++ String "=" v))))
                 = true).
  { rewrite !contains_skip by discriminate.
    change (String c (n' ++ String "=" v))
      with (String c n' ++ String "=" v)%string.
    apply contains_append. }
  rewrite Hcon. rewrite !andb_false_r. cbn [negb andb].
  reflexivity.
Qed.

Lemma stripFlags_next (fs : list Flag) (fl : Flag) (v : string)
    (rest : list string) :
  plainName (FlagName fl) = true ->
  Lookup (FlagName fl) fs = Some fl ->
  NoOptDefVal fl = EmptyString ->
  stripFlags (("--" ++ FlagName fl)%string :: v :: rest) fs
  = match rest with
    | [] => []
    | _ :: _ => stripFlags rest fs
    end.
Proof.
  intros Hplain Hlook Hno.
  destruct (plainName_inv _ Hplain) as [c [n [Hname [_ [Hcont [Hd He]]]]]].
  rewrite Hname in *.
  cbn [append stripFlags].
  replace (String.eqb (String "-" (String "-" (String c n))) "--")
    with false by reflexivity.
  assert (Hpre : prefix "--" (String "-" (String "-" (String c n))) = true)
    by reflexivity.
  assert (Hcon : contains "=" (String "-" (String "-" (String c n)))
                 = false).
  { rewrite !contains_skip by discriminate. exact Hcont. }
  rewrite Hpre, Hcon. unfold hasNoOptDefVal.
  cbn [String.length Nat.sub substring].
  rewrite substring_all, Hlook, Hno. cbn [String.eqb negb andb].
  destruct rest; reflexivity.
Qed.

Lemma stripFlags_alone (fs : list Flag) (fl : Flag) (rest : list string) :
  plainName (FlagName fl) = true ->
  Lookup (FlagName fl) fs = Some fl ->
  NoOptDefVal fl <> EmptyString ->
  stripFlags (("--" ++ FlagName fl)%string :: rest) fs = stripFlags rest fs.
Proof.
  intros Hplain Hlook Hno.
  destruct (plainName_inv _ Hplain) as [c [n [Hname [_ [Hcont [Hd He]]]]]].
  rewrite Hname in *.
  assert (Hown : String.eqb (NoOptDefVal fl) EmptyString = false).
  { destruct (String.eqb (NoOptDefVal fl) EmptyString) eqn:E;
      [|reflexivity].
    apply String.eqb_eq in E. contradiction. }
  cbn [append stripFlags].
  replace (String.eqb (String "-" (String "-" (String c n))) "--")
    with false by reflexivity.
  replace (prefix "--" (String "-" (String "-" (String c n))))
    with true by reflexivity.
  replace (prefix "-" (String "-" (String "-" (String c n))))
    with true by reflexivity.
  assert (Hcon : contains "=" (String "-" (String "-" (String c n)))
                 = false).
  { rewrite !contains_skip by discriminate. exact Hcont. }
  rewrite Hcon. unfold hasNoOptDefVal.
  cbn [String.length Nat.sub substring Nat.eqb].
  rewrite substring_all, Hlook, Hown. reflexivity.
Qed.

(** An option of the command line is parsed as the setting of its flag,
    as the flag is found in the set. *)
Lemma parse_given (w : World) (fl' : Flag) (s : Given)
    (rest : list string) :
  plainName (FlagName fl') = true ->
  Lookup (FlagName fl') (flags w) = Some fl' ->
  shape fl' = shape (givenFlag s) ->
  fits s = true ->
  parseArgs' (words s ++ rest) w = next fl' (givenValue s) w rest.
Proof.
  intros Hplain Hlook Hshape Hfits.
  assert (Hn : FlagName (givenFlag s) = FlagName fl')
    by (unfold shape in Hshape; congruence).
  assert (Hd : NoOptDefVal (givenFlag s) = NoOptDefVal fl')
    by (unfold shape in Hshape; congruence).
  destruct s as [fl v|fl v|fl];
    cbn [words givenFlag givenValue fits app] in *; rewrite Hn.
  - apply parse_long_eq; assumption.
  - apply parse_long_next; try assumption.
    rewrite <- Hd. apply String.eqb_eq. exact Hfits.
  - rewrite Hd. apply parse_long_alone; try assumption.
    rewrite <- Hd. intros E. rewrite E in Hfits. discriminate.
Qed.

Lemma Lookup_NoDup (fs : list Flag) (fl : Flag) :
  NoDup (map FlagName fs) -> In fl fs -> Lookup (FlagName fl) fs = Some fl.
Proof.
  unfold Lookup. induction fs as [|fl0 fs IH]; cbn; intros Hnd Hin;
    [contradiction|].
  inversion Hnd as [|x l Hnot Hnd']; subst.
  destruct Hin as [->|Hin]; [now rewrite String.eqb_refl|].
  destruct (String.eqb (FlagName fl0) (FlagName fl)) eqn:E; [|auto].
  apply String.eqb_eq in E. exfalso. apply Hnot. rewrite E.
  apply in_map. exact Hin.
Qed.

Lemma distinct_NoDup {A : Type} (eq_dec : forall a b : A, {a = b} + {a <> b})
    (l : list A) :
  distinct eq_dec l = true -> NoDup l.
Proof.
  induction l as [|a l IH]; cbn [distinct]; intros H; [constructor|].
  apply andb_true_iff in H. destruct H as [Hnot Hrest].
  constructor; [|apply IH; exact Hrest].
  intros Hin. apply negb_true_iff in Hnot.
  assert (Hex : existsb (fun b => if eq_dec a b then true else false) l
                = true).
  { apply existsb_exists. exists a. split; [exact Hin|].
    destruct (eq_dec a a); [reflexivity | contradiction]. }
  congruence.
Qed.

(** A flag found in a set is found, with the same shape, in a set of the
    same shape. *)
Lemma Lookup_same_shape (fs fs' : list Flag) (fl : Flag) :
  map shape fs' = map shape fs ->
  Lookup (FlagName fl) fs = Some fl ->
  exists fl', Lookup (FlagName fl) fs' = Some fl' /\ shape fl' = shape fl.
Proof.
  intros Hs HL. pose proof (Lookup_shape (FlagName fl) _ _ Hs) as H.
  rewrite HL in H.
  destruct (Lookup (FlagName fl) fs') as [fl'|]; [|discriminate].
  exists fl'. split; [reflexivity|]. cbn in H. congruence.
Qed.

Lemma changedIn_markChanged_other (n n' : string) (fs : list Flag) :
  n <> n' -> changedIn n (markChanged n' fs) = changedIn n fs.
Proof.
  intros Hne. unfold changedIn, Lookup.
  induction fs as [|fl fs IH]; [reflexivity|].
  cbn [markChanged map find].
  destruct (String.eqb (FlagName fl) n') eqn:Hn'; cbn [FlagName];
    destruct (String.eqb (FlagName fl) n) eqn:Hn; try reflexivity;
    try exact IH.
  apply String.eqb_eq in Hn', Hn. congruence.
Qed.

(** ** Collecting the options of a command line *)

(** Setting the flag of one option moves the state of parsing from what
    had been collected to what is collected with it; a refused value ends
    parsing with an error. *)
Lemma holds_step (fs : list Flag) (s : Given) (rest : list string)
    (g : Gathered) (w : World) :
  holds fs g w ->
  plainName (FlagName (givenFlag s)) = true ->
  Lookup (FlagName (givenFlag s)) fs = Some (givenFlag s) ->
  (FlagValue (givenFlag s) = stringSliceValue
   <-> FlagName (givenFlag s) = "machine-labels"%string) ->
  FlagValue (givenFlag s) <> boolValue p_help ->
  FlagValue (givenFlag s) <> boolValue p_version ->
  fits s = true ->
  match gather1' (FlagValue (givenFlag s)) (givenValue s) g with
  | Some g' =>
      exists w', parseArgs' (words s ++ rest) w = parseArgs' rest w'
                 /\ holds fs g' w'
  | None =>
      exists m w', parseArgs' (words s ++ rest) w = (Some (errorString m), w')
  end.
Proof.
  intros [Ho [Hd [Hi [Hh [Hv [Ha [Hs Hl]]]]]]] Hplain Hlook Hlabels
         Hnh Hnv Hfits.
  destruct (Lookup_same_shape fs (flags w) (givenFlag s) Hs Hlook)
    as [fl' [Hlook' Hshape]].
  assert (Hn : FlagName fl' = FlagName (givenFlag s))
    by (unfold shape in Hshape; congruence).
  assert (Ht : FlagValue fl' = FlagValue (givenFlag s))
    by (unfold shape in Hshape; congruence).
  rewrite <- Hn in Hlook', Hplain.
  rewrite (parse_given w fl' s rest Hplain Hlook' Hshape Hfits).
  assert (Hin' : In fl' (flags w)) by (apply (Lookup_In _ _ _ Hlook')).
  assert (Hmark : forall w1 : World,
            flags w1 = flags w ->
            map shape (flags (set_flags (markChanged (FlagName fl')
                                           (flags w1)) w1))
            = map shape fs).
  { intros w1 Hf. cbn [flags set_flags].
    rewrite markChanged_shape, Hf. exact Hs. }
  assert (Hkeep : FlagValue (givenFlag s) <> stringSliceValue ->
            changedIn "machine-labels" (markChanged (FlagName fl') (flags w))
            = gLabels g).
  { intros Hne. rewrite changedIn_markChanged_other; [exact Hl|].
    intros E. apply Hne. apply Hlabels. rewrite <- Hn. symmetry. exact E. }
  unfold FlagSet_Set, ValueSet, gather1. rewrite Ht.
  destruct (FlagValue (givenFlag s)) as [p|f|f|f| |] eqn:Hval.
  - destruct (ParseBool (givenValue s)) as [b [e|]].
    + eexists. eexists. reflexivity.
    + destruct p as [| | |f]; try congruence.
      * eexists. split; [reflexivity|].
        unfold holds.
        cbn [storeBool set_debug set_flags providerOptions debug ProviderID
             helpVal versionVal flagArgs flags gOptions gDebug gID gLabels].
        rewrite markChanged_shape.
        repeat split; try assumption; try reflexivity.
        apply Hkeep. discriminate.
      * eexists. split; [reflexivity|].
        unfold holds.
        cbn [storeBool set_providerOptions set_flags providerOptions debug
             ProviderID helpVal versionVal flagArgs flags gOptions gDebug
             gID gLabels].
        rewrite markChanged_shape, Ho.
        repeat split; try assumption; try reflexivity.
        apply Hkeep. discriminate.
  - eexists. split; [reflexivity|].
    unfold holds.
    cbn [set_providerOptions set_flags providerOptions debug ProviderID
         helpVal versionVal flagArgs flags gOptions gDebug gID gLabels].
    rewrite markChanged_shape, Ho.
    repeat split; try assumption; try reflexivity.
    apply Hkeep. discriminate.
  - destruct (ParseInt (givenValue s)) as [z [e|]].
    + eexists. eexists. reflexivity.
    + eexists. split; [reflexivity|].
      unfold holds.
      cbn [set_providerOptions set_flags providerOptions debug ProviderID
           helpVal versionVal flagArgs flags gOptions gDebug gID gLabels].
      rewrite markChanged_shape, Ho.
      repeat split; try assumption; try reflexivity.
      apply Hkeep. discriminate.
  - destruct (ParseDuration (givenValue s)) as [z [e|]].
    + eexists. eexists. reflexivity.
    + eexists. split; [reflexivity|].
      unfold holds.
      cbn [set_providerOptions set_flags providerOptions debug ProviderID
           helpVal versionVal flagArgs flags gOptions gDebug gID gLabels].
      rewrite markChanged_shape, Ho.
      repeat split; try assumption; try reflexivity.
      apply Hkeep. discriminate.
  - assert (Hname : FlagName fl' = "machine-labels"%string)
      by (rewrite Hn; apply Hlabels; reflexivity).
    assert (Hchanged : Changed fl' = gLabels g).
    { rewrite <- Hl. unfold changedIn. rewrite <- Hname, Hlook'.
      reflexivity. }
    destruct (readAsCSV (givenValue s)) as [e|l].
    + eexists. eexists. reflexivity.
    + eexists. split; [reflexivity|].
      unfold holds.
      cbn [set_providerOptions set_flags providerOptions debug ProviderID
           helpVal versionVal flagArgs flags gOptions gDebug gID gLabels].
      rewrite markChanged_shape, Ho, Hchanged.
      repeat split; try assumption; try reflexivity.
      rewrite Hname. apply (changedIn_marked _ _ fl'); assumption.
  - rewrite Hi.
    destruct (ProviderID_Set (gID g) (givenValue s)) as [z [e|]].
    + eexists. eexists. reflexivity.
    + eexists. split; [reflexivity|].
      unfold holds.
      cbn [set_ProviderID set_flags providerOptions debug ProviderID
           helpVal versionVal flagArgs flags gOptions gDebug gID gLabels].
      rewrite markChanged_shape.
      repeat split; try assumption; try reflexivity.
      apply Hkeep. discriminate.
Qed.

(** What can be said of an option whose flag is one of a set [fs]. *)
Local Abbreviation written fs :=
  (fun s : Given =>
     plainName (FlagName (givenFlag s)) = true
     /\ Lookup (FlagName (givenFlag s)) fs = Some (givenFlag s)
     /\ (FlagValue (givenFlag s) = stringSliceValue
         <-> FlagName (givenFlag s) = "machine-labels"%string)
     /\ FlagValue (givenFlag s) <> boolValue p_help
     /\ FlagValue (givenFlag s) <> boolValue p_version
     /\ fits s = true).

(** Parsing a command line made of options collects them: it succeeds
    with what [gather] gives, and fails when [gather] does. *)
Lemma gather_parsed (fs : list Flag) (gs : list Given) :
  Forall (written fs) gs ->
  forall (g : Gathered) (w : World),
    holds fs g w ->
    match gather' gs g with
    | Some g' =>
        exists w', parseArgs' (flat_map words gs) w = (None, w')
                   /\ holds fs g' w'
    | None =>
        exists m w',
          parseArgs' (flat_map words gs) w = (Some (errorString m), w')
    end.
Proof.
  induction 1 as [|s gs [Hplain [Hlook [Hlabels [Hnh [Hnv Hfits]]]]] _ IH];
    intros g w Hw.
  - exists w. split; [reflexivity | exact Hw].
  - cbn [flat_map gather].
    pose proof (holds_step fs s (flat_map words gs) g w Hw Hplain Hlook
                  Hlabels Hnh Hnv Hfits) as Hstep.
    destruct (gather1' (FlagValue (givenFlag s)) (givenValue s) g)
      as [g1|].
    + destruct Hstep as [w1 [Hparse Hw1]]. rewrite Hparse.
      apply IH. exact Hw1.
    + exact Hstep.
Qed.

(** A command line made of options names no command. *)
Lemma gather_stripFlags (fs : list Flag) (gs : list Given) :
  Forall (fun s => plainName (FlagName (givenFlag s)) = true
                   /\ Lookup (FlagName (givenFlag s)) fs
                      = Some (givenFlag s)
                   /\ fits s = true) gs ->
  stripFlags (flat_map words gs) fs = [].
Proof.
  induction 1 as [|s gs [Hplain [Hlook Hfits]] _ IH]; [reflexivity|].
  cbn [flat_map].
  destruct s as [fl v|fl v|fl]; cbn [words givenFlag fits app] in *.
  - rewrite stripFlags_eq; assumption.
  - rewrite stripFlags_next; try assumption.
    + rewrite IH. destruct (flat_map words gs); reflexivity.
    + apply String.eqb_eq. exact Hfits.
  - rewrite stripFlags_alone; try assumption.
    intros E. rewrite E in Hfits. discriminate.
Qed.

Lemma prepared_flags_incl (w : World) (fl : Flag) :
  In fl (flags w) -> In fl (flags (prepared' w)).
Proof.
  intros Hin. unfold prepared, InitDefaultVersionFlag, InitDefaultHelpFlag.
  cbn [Version rootCmd].
  assert (Hhelp : In fl (flags
            match Lookup "help" (flags (set_cmdCtx rootCtx w)) with
            | Some _ => set_cmdCtx rootCtx w
            | None =>
                BoolVarP p_help "help" (Some "h"%char) false
                  (Text ("help for " ++ Use rootCmd'))
                  (set_cmdCtx rootCtx w)
            end)).
  { destruct (Lookup "help" (flags (set_cmdCtx rootCtx w)));
      cbn; [exact Hin | apply in_or_app; left; exact Hin]. }
  destruct (String.eqb version_Tag EmptyString); [exact Hhelp|].
  match goal with
  | |- context [Lookup "version" ?fs] => destruct (Lookup "version" fs)
  end; [exact Hhelp|].
  cbn. apply in_or_app. left. exact Hhelp.
Qed.

(** What [init] gives every flag: a name the long forms can carry, found
    under its name among the flags of [init] and among those the command
    parses; the flag of the machine labels is the one that takes a list;
    and none is the help or the version switch of the library. *)
Lemma registered_flag_facts (fl : Flag) :
  In fl (flags initial') ->
  plainName (FlagName fl) = true
  /\ Lookup (FlagName fl) (flags initial') = Some fl
  /\ Lookup (FlagName fl) (flags (prepared' initial')) = Some fl
  /\ (FlagValue fl = stringSliceValue
      <-> FlagName fl = "machine-labels"%string)
  /\ FlagValue fl <> boolValue p_help
  /\ FlagValue fl <> boolValue p_version.
Proof.
  intros Hin.
  assert (H : forallb (fun fl =>
                plainName (FlagName fl)
                && (Bool.eqb (if Value_eq_dec (FlagValue fl) stringSliceValue
                              then true else false)
                             (String.eqb (FlagName fl) "machine-labels"))
                && (match FlagValue fl with
                    | boolValue p_help | boolValue p_version => false
                    | _ => true
                    end)) (flags initial') = true)
    by (destruct IsDebugBuild; vm_compute; reflexivity).
  rewrite forallb_forall in H. specialize (H fl Hin).
  apply andb_true_iff in H. destruct H as [H Hlib].
  apply andb_true_iff in H. destruct H as [Hplain Hml].
  apply Bool.eqb_prop in Hml.
  split; [exact Hplain|]. split; [|split; [|split; [|split]]].
  - apply Lookup_NoDup; [|exact Hin].
    apply (distinct_NoDup string_dec).
    destruct IsDebugBuild; vm_compute; reflexivity.
  - apply Lookup_NoDup; [|apply prepared_flags_incl; exact Hin].
    apply (distinct_NoDup string_dec).
    destruct IsDebugBuild; destruct version_Tag; vm_compute; reflexivity.
  - destruct (Value_eq_dec (FlagValue fl) stringSliceValue) as [E|E].
    + split; [intros _ | intros _; exact E].
      apply String.eqb_eq. symmetry. exact Hml.
    + split; [intros E'; contradiction|].
      intros E'. rewrite E', String.eqb_refl in Hml. discriminate.
  - intros E. rewrite E in Hlib. discriminate.
  - intros E. rewrite E in Hlib. discriminate.
Qed.

(** The state in which the command parses its flags holds the registered
    defaults and nothing else. *)
Lemma before_parsing :
  holds (flags (prepared' initial'))
        (mkGathered
           (registeredDefaults DefaultOptions IsDebugBuild
              (Getenv environ "OMNI_ENDPOINT"))
           false ProviderID_init false)
        (set_flagArgs [] (prepared' initial')).
Proof.
  unfold holds.
  cbn [set_flagArgs helpVal versionVal flagArgs debug providerOptions
       ProviderID flags gOptions gDebug gID gLabels].
  destruct (prepared_frame initial') as [_ [_ [_ [Ho _]]]].
  rewrite Ho, initial_options.
  repeat split;
    destruct IsDebugBuild; destruct version_Tag; vm_compute; reflexivity.
Qed.

(** A command line made of options of [init]: it calls none of the
    library's own commands, and parsing it collects the options. *)
Lemma options_parsed (gs : list Given) :
  Forall (fun s => In (givenFlag s) (flags initial') /\ fits s = true) gs ->
  isCompleteRequest (flat_map words gs) (flags initial') = false
  /\ match gather' gs
             (mkGathered
                (registeredDefaults DefaultOptions IsDebugBuild
                   (Getenv environ "OMNI_ENDPOINT"))
                false ProviderID_init false) with
     | Some g =>
         exists wp, parsed' (flat_map words gs) initial' = (None, wp)
                    /\ providerOptions wp = gOptions g
                    /\ debug wp = gDebug g
                    /\ ProviderID wp = gID g
                    /\ helpVal wp = false /\ versionVal wp = false
                    /\ flagArgs wp = []
     | None =>
         exists m wp,
           parsed' (flat_map words gs) initial' = (Some (errorString m), wp)
     end.
Proof.
  intros Hgs. split.
  - unfold isCompleteRequest. rewrite gather_stripFlags; [reflexivity|].
    eapply Forall_impl; [|exact Hgs]. cbv beta. intros s [Hin Hfits].
    destruct (registered_flag_facts _ Hin) as [Hplain [Hl _]]. auto.
  - assert (Hw : Forall (written (flags (prepared' initial'))) gs).
    { eapply Forall_impl; [|exact Hgs]. cbv beta. intros s [Hin Hfits].
      destruct (registered_flag_facts _ Hin)
        as [Hplain [_ [Hl [Hml [Hnh Hnv]]]]].
      auto 10. }
    pose proof (gather_parsed _ gs Hw _ _ before_parsing) as H.
    unfold parsed, Parse.
    destruct (gather' gs _) as [g|].
    + destruct H as [wp [Hp [Ho [Hd [Hi [Hh [Hv [Ha _]]]]]]]].
      exists wp. auto 10.
    + exact H.
Qed.

(** C8.  Every flag [init] registers, except [id] and [debug], stores into
    [providerOptions], and so do the options the claim lists.  In every
    run the provider is made at most once; when it is made, it is made
    exactly once, from [providerOptions] as flag parsing left it, it is run
    with the same options, and when [main] ends [providerOptions] still
    holds that value.  What flag parsing leaves there is what the command
    line gives: for a command line made of options of [init], in any
    number and order and in any of their forms, the options handed to
    [provider.New] are the registered defaults with every value given
    stored at the destination of its flag, from left to right; they are
    handed over exactly once when the logger can be built, and still held
    by [providerOptions] when [main] ends.  When a value is refused the
    provider is never made and [main] ends fatally. *)
Theorem options_are_one_snapshot :
  Forall (fun fl => inOptions (FlagValue fl) = true
                    \/ FlagName fl = "id" \/ FlagName fl = "debug")
         (flags initial')
  /\ Forall (fun n => exists fl, In fl (flags initial') /\ FlagName fl = n
                                 /\ inOptions (FlagValue fl) = true)
       ["api-listen-address"; "api-advertise-address"; "api-port";
        "tls-api-port"; "redfish-port"; "tls-enabled"; "tls-ca-ttl";
        "tls-cert-ttl"; "redfish-use-always"; "redfish-use-when-available";
        "boot-from-disk-method"; "ipmi-pxe-boot-mode";
        "min-reboot-interval"; "machine-labels"]
  /\ (forall args : list string,
        length (news (events (snd (start' args)))) <= 1)
  /\ (forall (args : list string) (o : Options.t) (l : zap.Logger),
        In (EvNew o l) (events (snd (start' args))) ->
        news (events (snd (start' args))) = [o]
        /\ o = providerOptions (snd (parsed' args initial'))
        /\ In (EvRun o l rootCtx) (events (snd (start' args)))
        /\ providerOptions (snd (start' args)) = o)
  /\ (forall (gs : list Given) (g : Gathered),
        Forall (fun s => In (givenFlag s) (flags initial')
                         /\ fits s = true) gs ->
        gather' gs
          (mkGathered
             (registeredDefaults DefaultOptions IsDebugBuild
                (Getenv environ "OMNI_ENDPOINT"))
             false ProviderID_init false) = Some g ->
        let args := flat_map words gs in
        providerOptions (snd (parsed' args initial')) = gOptions g
        /\ (forall o l, In (EvNew o l) (events (snd (start' args))) ->
                        o = gOptions g)
        /\ (zap_Build (zap.config (if gDebug g then developmentLogger
                                   else productionLogger)) = None ->
            news (events (snd (start' args))) = [gOptions g]
            /\ providerOptions (snd (start' args)) = gOptions g))
  /\ (forall gs : list Given,
        Forall (fun s => In (givenFlag s) (flags initial')
                         /\ fits s = true) gs ->
        gather' gs
          (mkGathered
             (registeredDefaults DefaultOptions IsDebugBuild
                (Getenv environ "OMNI_ENDPOINT"))
             false ProviderID_init false) = None ->
        let args := flat_map words gs in
        news (events (snd (start' args))) = []
        /\ exists msg, fst (start' args) = Fatal msg).
Proof.
  split.
  { apply Forall_forall. intros fl Hin.
    assert (H : forallb (fun fl => inOptions (FlagValue fl)
                                   || String.eqb (FlagName fl) "id"
                                   || String.eqb (FlagName fl) "debug")
                        (flags initial') = true)
      by (destruct IsDebugBuild; vm_compute; reflexivity).
    rewrite forallb_forall in H. specialize (H fl Hin).
    apply orb_true_iff in H. destruct H as [H|H].
    - apply orb_true_iff in H. destruct H as [H|H]; [auto|].
      right. left. now apply String.eqb_eq.
    - right. right. now apply String.eqb_eq. }
  split.
  { apply Forall_forall. intros n Hn.
    assert (H : forallb (fun n => existsb
                           (fun fl => String.eqb (FlagName fl) n
                                      && inOptions (FlagValue fl))
                           (flags initial'))
                  ["api-listen-address"; "api-advertise-address"; "api-port";
                   "tls-api-port"; "redfish-port"; "tls-enabled";
                   "tls-ca-ttl"; "tls-cert-ttl"; "redfish-use-always";
                   "redfish-use-when-available"; "boot-from-disk-method";
                   "ipmi-pxe-boot-mode"; "min-reboot-interval";
                   "machine-labels"] = true)
      by (destruct IsDebugBuild; vm_compute; reflexivity).
    rewrite forallb_forall in H. specialize (H n Hn).
    apply existsb_exists in H. destruct H as [fl [Hin H]].
    apply andb_true_iff in H. destruct H as [Hname Hopt].
    exists fl. split; [exact Hin|]. split; [|exact Hopt].
    now apply String.eqb_eq. }
  assert (Hnews : forall args wp l,
            reached' args initial' = Some (wp, l) ->
            news (events (snd (start' args))) = [providerOptions wp]
            /\ In (EvRun (providerOptions wp) l rootCtx)
                  (events (snd (start' args)))).
  { intros args wp l Hr. unfold start.
    destruct (main_reached args initial' wp l Hr) as [pre [Hev [Hnr _]]].
    rewrite Hev, initial_events, news_app, (news_notRun pre Hnr).
    split; [reflexivity|].
    apply in_or_app. right. cbn. auto. }
  split; [|split; [|split]].
  - intros args.
    destruct (reached' args initial') as [[wp l]|] eqn:Hr.
    + rewrite (proj1 (Hnews args wp l Hr)). cbn. lia.
    + unfold start.
      destruct (main_not_reached args initial' Hr) as [pre [Hev Hnr]].
      rewrite Hev, initial_events, app_nil_r, (news_notRun pre Hnr).
      cbn. lia.
  - intros args o l Hin.
    pose proof (start_new_parsed args o l Hin) as Hparsed.
    apply start_new_final in Hin.
    destruct Hin as [wp [Hr [-> [Ho _]]]].
    destruct (Hnews args wp l Hr) as [Hn Hrun].
    auto.
  - intros gs g Hgs Hg. cbv zeta.
    destruct (options_parsed gs Hgs) as [Hc H]. rewrite Hg in H.
    destruct H as [wp [Hp [Ho [Hd [_ [Hh [Hv Ha]]]]]]].
    split; [rewrite Hp; exact Ho|]. split.
    + intros o l Hin. apply start_new_parsed in Hin.
      rewrite Hp in Hin. cbn [snd] in Hin. congruence.
    + intros Hz.
      assert (Hr : reached' (flat_map words gs) initial'
                   = Some (wp, if gDebug g then developmentLogger
                               else productionLogger)).
      { unfold reached. rewrite Hc, Hp, Hh, Hv, Ha, andb_false_r.
        unfold initLogger. rewrite Hd.
        destruct (gDebug g).
        - change (zap.SetLevel DebugLevel
                    (zap.SetEncodeLevel CapitalColorLevelEncoder
                       zap.NewDevelopmentConfig))
            with (zap.config developmentLogger).
          rewrite Hz. reflexivity.
        - change (zap.SetLevel InfoLevel zap.NewProductionConfig)
            with (zap.config productionLogger).
          rewrite Hz. reflexivity. }
      destruct (Hnews _ _ _ Hr) as [Hn _]. rewrite Hn, Ho.
      split; [reflexivity|]. unfold start.
      destruct (main_reached _ initial' _ _ Hr)
        as [pre [_ [_ [_ [Hf _]]]]].
      rewrite Hf. exact Ho.
  - intros gs Hgs Hg. cbv zeta.
    destruct (options_parsed gs Hgs) as [Hc H]. rewrite Hg in H.
    destruct H as [m [wp Hp]].
    split.
    + assert (Hr : reached' (flat_map words gs) initial' = None)
        by (unfold reached; rewrite Hc, Hp; reflexivity).
      unfold start.
      destruct (main_not_reached _ initial' Hr) as [pre [Hev Hnr]].
      rewrite Hev, initial_events, app_nil_r. apply news_notRun. exact Hnr.
    + unfold start. rewrite main_verdict, Hc, execute_parsed, Hp.
      unfold verdict. cbn [isErrHelp]. eexists. reflexivity.
Qed.

(** Setting a flag changes nothing where another flag points. *)
Lemma FlagSet_Set_other (fl : Flag) (v : string) (w : World) (t : Value) :
  FlagValue fl <> t ->
  load t (snd (FlagSet_Set' fl v w)) = load t w.
Proof.
  intros Hne. unfold FlagSet_Set.
  pose proof (ValueSet_other ParseInt ParseDuration readAsCSV ProviderID_Set
                fl v w t Hne) as H.
  destruct (ValueSet ParseInt ParseDuration readAsCSV ProviderID_Set fl v w)
    as [[e|] w1]; cbn [snd] in *; [exact H|].
  rewrite load_set_flags. exact H.
Qed.

(** Where the skip mode of a client is stored. *)
Lemma skipsVerification_load (r : Role) (w w' : World) :
  match r with
  | serverRole => True
  | agentClient =>
      load (boolValue (p_bool f_TLS_AgentSkipVerify)) w'
      = load (boolValue (p_bool f_TLS_AgentSkipVerify)) w
  | omniClient =>
      load (boolValue (p_bool f_InsecureSkipTLSVerify)) w'
      = load (boolValue (p_bool f_InsecureSkipTLSVerify)) w
  | redfishClient =>
      load (boolValue (p_bool f_Redfish_InsecureSkipTLSVerify)) w'
      = load (boolValue (p_bool f_Redfish_InsecureSkipTLSVerify)) w
  end ->
  skipsVerification r (providerOptions w')
  = skipsVerification r (providerOptions w).
Proof.
  destruct r; cbn; intros H; [reflexivity| | |];
    injection H as H; exact H.
Qed.

(** C3.  With the parties modelled from the spec, the server of the
    provider never skipping verification and each client skipping it when
    its option is on: among the flags of [init], setting a flag changes
    whether a party skips verification only if the party is a client and
    the flag is the one registered for it, [tls-agent-skip-verify] for the
    Talos agent, [insecure-skip-tls-verify] for the provider as a client
    of the Omni API, [redfish-insecure-skip-tls-verify] for the provider as
    a client of Redfish; each of these flags does switch the mode of its
    client.  Whatever the command line, a party skips verification under
    the options handed to [provider.New] only if it is a client and its
    flag has been given or its default is on.  Of the flags stored in
    [providerOptions.TLS], [tls-agent-skip-verify] is the only one that
    changes a skip mode. *)
Theorem skip_verification_is_client_side :
  (forall (fl : Flag) (v : string) (w : World) (r : Role),
     In fl (flags initial') ->
     skipsVerification r (providerOptions (snd (FlagSet_Set' fl v w)))
     <> skipsVerification r (providerOptions w) ->
     isClient r = true /\ skipFlag r = Some (FlagName fl))
  /\ (forall r : Role,
        isClient r = true ->
        exists fl,
          In fl (flags initial') /\ skipFlag r = Some (FlagName fl)
          /\ forall (b : bool) (w : World),
               skipsVerification r
                 (providerOptions
                    (snd (FlagSet_Set' fl (if b then "true" else "false") w)))
               = b)
  /\ (forall (args : list string) (o : Options.t) (l : zap.Logger)
             (r : Role),
        In (EvNew o l) (events (snd (start' args))) ->
        skipsVerification r o = true ->
        isClient r = true
        /\ exists n,
             skipFlag r = Some n
             /\ (changed n (snd (start' args)) = true
                 \/ skipsVerification r
                      (registeredDefaults DefaultOptions IsDebugBuild
                         (Getenv environ "OMNI_ENDPOINT")) = true))
  /\ map FlagName (filter inTLS (flags initial'))
     = ["tls-enabled"; "tls-api-port"; "tls-agent-skip-verify";
        "tls-ca-ttl"; "tls-cert-ttl"]
  /\ (forall (fl : Flag) (v : string) (w : World) (r : Role),
        In fl (flags initial') ->
        inTLS fl = true ->
        skipsVerification r (providerOptions (snd (FlagSet_Set' fl v w)))
        <> skipsVerification r (providerOptions w) ->
        r = agentClient /\ FlagName fl = "tls-agent-skip-verify"%string).
Proof.
  assert (Hnamed : forall fl t n,
            In fl (flags initial') ->
            onlyNamedb t n (flags initial') = true ->
            FlagValue fl = t -> FlagName fl = n).
  { intros fl t n Hin Hb Hv.
    exact (onlyNamedb_sound t n initial' Hb fl Hin Hv). }
  assert (Hfirst : forall (fl : Flag) (v : string) (w : World) (r : Role),
            In fl (flags initial') ->
            skipsVerification r (providerOptions (snd (FlagSet_Set' fl v w)))
            <> skipsVerification r (providerOptions w) ->
            isClient r = true /\ skipFlag r = Some (FlagName fl)).
  { intros fl v w r Hin Hchange.
    destruct r; cbn [isClient skipFlag];
      [exfalso; apply Hchange; reflexivity| | |];
      (split; [reflexivity|]); f_equal; symmetry;
      match goal with
      | |- FlagName fl = ?n =>
          match type of Hchange with
          | skipsVerification ?r _ <> _ =>
              pose proof (skipsVerification_load r w
                            (snd (FlagSet_Set' fl v w))) as Hload
          end
      end;
      cbn beta iota in Hload;
      match type of Hload with
      | load ?t _ = _ -> _ =>
          destruct (Value_eq_dec (FlagValue fl) t) as [E|E];
          [ apply (Hnamed fl t); [exact Hin | | exact E];
            destruct IsDebugBuild; vm_compute; reflexivity
          | exfalso; apply Hchange, Hload, FlagSet_Set_other; exact E ]
      end. }
  split; [exact Hfirst|]. split; [|split; [|split]].
  - intros r Hr.
    assert (Hfl : forall n t,
              (forall b, existsb (fun fl => String.eqb (FlagName fl) n
                                  && if Value_eq_dec (FlagValue fl) t
                                     then true else false)
                           (flags (initial DefaultOptions b
                                     TestModeKernelArg environ
                                     ProviderID_init)) = true) ->
              exists fl, In fl (flags initial') /\ FlagName fl = n
                         /\ FlagValue fl = t).
    { intros n t H. specialize (H IsDebugBuild).
      apply existsb_exists in H. destruct H as [fl [Hin H]].
      apply andb_true_iff in H. destruct H as [Hn Ht].
      exists fl. split; [exact Hin|].
      split; [now apply String.eqb_eq|].
      destruct (Value_eq_dec (FlagValue fl) t); [assumption|discriminate]. }
    assert (Hswitch : forall (fl : Flag) (f : BoolField) (r : Role),
              FlagValue fl = boolValue (p_bool f) ->
              (forall o b, skipsVerification r (set_bool f b o) = b) ->
              forall (b : bool) (w : World),
                skipsVerification r
                  (providerOptions
                     (snd (FlagSet_Set' fl (if b then "true" else "false")
                             w))) = b).
    { intros fl f r0 Ht Hset b w. unfold FlagSet_Set, ValueSet. rewrite Ht.
      destruct b;
        [ change (ParseBool "true") with (true, @None error)
        | change (ParseBool "false") with (false, @None error) ];
        cbn [snd storeBool providerOptions set_flags set_providerOptions];
        apply Hset. }
    destruct r; [discriminate Hr| | |].
    + destruct (Hfl "tls-agent-skip-verify"%string
                  (boolValue (p_bool f_TLS_AgentSkipVerify)))
        as [fl [Hin [Hn Ht]]]; [intros []; vm_compute; reflexivity|].
      exists fl. split; [exact Hin|].
      split; [cbn [skipFlag]; rewrite Hn; reflexivity|].
      apply (Hswitch fl _ _ Ht). intros o b. reflexivity.
    + destruct (Hfl "insecure-skip-tls-verify"%string
                  (boolValue (p_bool f_InsecureSkipTLSVerify)))
        as [fl [Hin [Hn Ht]]]; [intros []; vm_compute; reflexivity|].
      exists fl. split; [exact Hin|].
      split; [cbn [skipFlag]; rewrite Hn; reflexivity|].
      apply (Hswitch fl _ _ Ht). intros o b. reflexivity.
    + destruct (Hfl "redfish-insecure-skip-tls-verify"%string
                  (boolValue (p_bool f_Redfish_InsecureSkipTLSVerify)))
        as [fl [Hin [Hn Ht]]]; [intros []; vm_compute; reflexivity|].
      exists fl. split; [exact Hin|].
      split; [cbn [skipFlag]; rewrite Hn; reflexivity|].
      apply (Hswitch fl _ _ Ht). intros o b. reflexivity.
  - intros args o l r Hin Hskip.
    assert (Hunset : forall t n,
              inOptions t = true ->
              onlyNamed t n (prepared' initial') ->
              (forall w', load t w' = load t initial' ->
                          skipsVerification r (providerOptions w')
                          = skipsVerification r (providerOptions initial')) ->
              changed n (snd (start' args)) = true
              \/ skipsVerification r
                   (registeredDefaults DefaultOptions IsDebugBuild
                      (Getenv environ "OMNI_ENDPOINT")) = true).
    { intros t n Ht Honly Hload.
      destruct (changed n (snd (start' args))) eqn:Hch; [left; reflexivity|].
      right.
      destruct (start_unset t n args o l Ht Honly Hin Hch) as [wp [Ho Hl]].
      rewrite Ho in Hskip.
      rewrite <- Hskip, (Hload wp Hl), initial_options. reflexivity. }
    destruct r; cbn [isClient skipFlag]; [discriminate Hskip| | |];
      (split; [reflexivity|]); eexists; (split; [reflexivity|]).
    + apply (Hunset (boolValue (p_bool f_TLS_AgentSkipVerify)));
        [reflexivity | only_named |].
      exact (skipsVerification_load agentClient initial').
    + apply (Hunset (boolValue (p_bool f_InsecureSkipTLSVerify)));
        [reflexivity | only_named |].
      exact (skipsVerification_load omniClient initial').
    + apply (Hunset (boolValue (p_bool f_Redfish_InsecureSkipTLSVerify)));
        [reflexivity | only_named |].
      exact (skipsVerification_load redfishClient initial').
  - destruct IsDebugBuild; vm_compute; reflexivity.
  - intros fl v w r Hin Htls Hchange.
    destruct (Hfirst fl v w r Hin Hchange) as [Hc Hflag].
    assert (H : forallb (fun fl =>
                  implb (inTLS fl)
                        (negb (String.eqb (FlagName fl)
                                 "insecure-skip-tls-verify"
                               || String.eqb (FlagName fl)
                                    "redfish-insecure-skip-tls-verify")))
                  (flags initial') = true)
      by (destruct IsDebugBuild; vm_compute; reflexivity).
    rewrite forallb_forall in H. specialize (H fl Hin).
    rewrite Htls in H. cbn [implb] in H. apply negb_true_iff in H.
    apply orb_false_iff in H. destruct H as [H1 H2].
    destruct r; cbn [skipFlag isClient] in *; try discriminate;
      injection Hflag as Hflag.
    + auto.
    + rewrite <- Hflag, String.eqb_refl in H1. discriminate.
    + rewrite <- Hflag, String.eqb_refl in H2. discriminate.
Qed.

Lemma verdict_stop (r : option error) (w : World) :
  exists pre mid,
    events (snd (verdict r w)) = pre ++ EvStop rootCtx :: mid ++ events w
    /\ Forall notRun pre /\ Forall notStop pre /\ Forall notStop mid.
Proof.
  unfold verdict. destruct r as [err|].
  - destruct (isErrHelp err).
    + exists [], [EvHelp]. cbn. repeat split; repeat constructor.
    + cbn [emit set_events SilenceUsage events].
      destruct (SilenceUsage w).
      * eexists [EvFatal _], [EvPrintError err]. cbn.
        repeat split; repeat constructor.
      * eexists [EvFatal _], [EvUsage; EvPrintError err]. cbn.
        repeat split; repeat constructor.
  - exists [], []. cbn. repeat split; repeat constructor.
Qed.

Lemma execute_events (args : list string) (w : World) :
  exists mid,
    events (snd (execute ParseInt ParseDuration readAsCSV ProviderID_Set
                         rootCmd' args (set_cmdCtx rootCtx w)))
    = mid ++ events w
    /\ Forall notStop mid.
Proof.
  rewrite execute_parsed.
  pose proof (parsed_frame args w) as [He _].
  destruct (parsed' args w) as [[err|] wp]; cbn [snd] in He.
  { exists []. cbn. auto. }
  destruct (helpVal wp); [exists []; cbn; auto|].
  destruct (negb (String.eqb version_Tag EmptyString) && versionVal wp).
  { exists [EvVersion]. cbn. rewrite He. repeat constructor. }
  destruct (flagArgs wp) as [|a rest]; [|exists []; cbn; auto].
  destruct (initLogger zap_Build wp) as [err|l]; [exists []; cbn; auto|].
  cbv zeta.
  exists [EvSync l; EvRun (providerOptions wp) l rootCtx;
          EvNew (providerOptions wp) l].
  destruct (provider_Run (providerOptions wp) l rootCtx); cbn; rewrite He;
    repeat constructor.
Qed.

(** The stop function is called once in every run, after everything else
    but the fatal log. *)
Lemma main_stop (args : list string) (w : World) :
  exists pre post,
    events (snd (main' args w)) = pre ++ EvStop rootCtx :: post ++ events w
    /\ Forall notRun pre /\ Forall notStop pre /\ Forall notStop post.
Proof.
  rewrite main_verdict.
  destruct (isCompleteRequest args (flags w)).
  - destruct (verdict_stop (fst (complete args (set_cmdCtx rootCtx w)))
                (answered w (snd (complete args (set_cmdCtx rootCtx w)))))
      as [pre [mid [Hev [Hnr [Hns Hms]]]]].
    exists pre, (mid ++ [EvCompletion]). rewrite Hev. cbn.
    rewrite <- app_assoc. repeat split; auto.
    apply Forall_app. split; [exact Hms | repeat constructor].
  - destruct (execute_events args w) as [ex [Hex Hexs]].
    destruct (execute ParseInt ParseDuration readAsCSV ProviderID_Set
                      rootCmd' args (set_cmdCtx rootCtx w)) as [r w1].
    cbn [snd] in Hex.
    destruct (verdict_stop r w1) as [pre [mid [Hev [Hnr [Hns Hms]]]]].
    exists pre, (mid ++ ex). rewrite Hev, Hex.
    rewrite <- app_assoc. repeat split; auto.
    apply Forall_app. split; assumption.
Qed.

(** C6.  The context that the provider's [Run] receives is the one [runCmd]
    made: the child of the background context that is done on [SIGTERM] or
    an interrupt.  After any history of signals and stop calls it is done if
    and only if one of these two signals was delivered or its stop function
    was called; and in every run the stop function is called exactly once,
    on that context, after the command has finished: no making or running
    of the provider comes after it. *)
Theorem root_context_reaches_provider :
  (forall (args : list string) (o : Options.t) (l : zap.Logger)
          (c : Context),
     In (EvRun o l c) (events (snd (start' args))) ->
     c = NotifyContext Background [SIGTERM; os_Interrupt])
  /\ (forall h : list Occurrence,
        done (NotifyContext Background [SIGTERM; os_Interrupt]) h = true
        <-> In (Delivered SIGTERM) h \/ In (Delivered os_Interrupt) h
            \/ In Stopped h)
  /\ (forall args : list string,
        exists pre post,
          events (snd (start' args))
          = pre ++ EvStop (NotifyContext Background [SIGTERM; os_Interrupt])
                   :: post
          /\ Forall notRun pre /\ Forall notStop pre
          /\ Forall notStop post).
Proof.
  split.
  - intros args o l c Hin. apply start_run_inv in Hin.
    destruct Hin as [wp [_ [_ ->]]]. reflexivity.
  - split.
    + intros h. cbn [done]. rewrite orb_false_l, existsb_exists. split.
      * intros [occ [Hin Hocc]]. destruct occ as [s|]; [|auto].
        destruct s; cbn in Hocc; try discriminate; auto.
      * intros [H|[H|H]]; eexists; (split; [exact H | reflexivity]).
    + intros args. unfold start.
      destruct (main_stop args initial')
        as [pre [post [Hev [Hnr [Hns Hps]]]]].
      exists pre, post. rewrite Hev, initial_events, app_nil_r. auto.
Qed.

(** C10, amended.  An invocation that leaves positional arguments never
    starts the provider, and an invocation that runs the provider left
    none.  When the invocation calls none of the library's own commands,
    its flags parse and neither help nor version is asked for, positional
    arguments make the validation by [cobra.NoArgs] fail: the error is
    printed and [main] ends fatally with it.  When help or version is
    asked for, or one of the library's own commands is called (the request
    for shell completion or the default [completion] command), that is
    answered and the arguments are not validated: [main] returns normally
    after the help or the version; after a command of the library it ends
    as that command's answer has it, and no other error is printed. *)
Theorem positional_arguments_never_run :
  forall args : list string,
    (flagArgs (snd (start' args)) <> [] -> neverStarted (start' args))
    /\ (forall o l c, In (EvRun o l c) (events (snd (start' args))) ->
                      flagArgs (snd (start' args)) = [])
    /\ (isCompleteRequest args (flags initial') = true ->
        neverStarted (start' args)
        /\ In EvCompletion (events (snd (start' args)))
        /\ (forall e, In (EvPrintError e) (events (snd (start' args))) ->
                      fst (complete args (set_cmdCtx rootCtx initial'))
                      = Some e)
        /\ fst (start' args)
           = match fst (complete args (set_cmdCtx rootCtx initial')) with
             | None => Returned
             | Some err =>
                 if isErrHelp err then Returned
                 else Fatal ("failed to run: " ++ Error err)
             end)
    /\ (forall wp,
          isCompleteRequest args (flags initial') = false ->
          parsed' args initial' = (None, wp) ->
          helpVal wp = true ->
          fst (start' args) = Returned
          /\ events (snd (start' args)) = [EvStop rootCtx; EvHelp]
          /\ flagArgs (snd (start' args)) = flagArgs wp)
    /\ (forall wp,
          isCompleteRequest args (flags initial') = false ->
          parsed' args initial' = (None, wp) ->
          helpVal wp = false ->
          negb (String.eqb version_Tag EmptyString) && versionVal wp = true ->
          fst (start' args) = Returned
          /\ events (snd (start' args)) = [EvStop rootCtx; EvVersion]
          /\ flagArgs (snd (start' args)) = flagArgs wp)
    /\ (forall wp,
          isCompleteRequest args (flags initial') = false ->
          parsed' args initial' = (None, wp) ->
          helpVal wp = false ->
          negb (String.eqb version_Tag EmptyString) && versionVal wp = false ->
          flagArgs wp <> [] ->
          flagArgs (snd (start' args)) = flagArgs wp
          /\ validationFails Quote version_Name (start' args)).
Proof.
  intros args.
  assert (He0 : forall wp r, parsed' args initial' = (r, wp) ->
                             events wp = []).
  { intros wp r Hp. pose proof (parsed_frame args initial') as [He _].
    rewrite Hp in He. cbn [snd] in He. rewrite He. apply initial_events. }
  split; [|split; [|split; [|split; [|split]]]].
  - intros Hpos. unfold neverStarted, start in *.
    destruct (reached' args initial') as [[wp l]|] eqn:Hr.
    + destruct (main_reached args initial' wp l Hr)
        as [pre [_ [_ [_ [_ [_ Ha]]]]]].
      contradiction.
    + destruct (main_not_reached args initial' Hr) as [pre [Hev Hnr]].
      rewrite Hev, initial_events, app_nil_r. exact Hnr.
  - intros o l c Hin. apply start_run_inv in Hin.
    destruct Hin as [wp [Hr _]]. unfold start.
    destruct (main_reached args initial' wp l Hr)
      as [pre [_ [_ [_ [_ [_ Ha]]]]]].
    exact Ha.
  - intros Hc. split.
    + unfold neverStarted, start.
      assert (Hr : reached' args initial' = None)
        by (unfold reached; rewrite Hc; reflexivity).
      destruct (main_not_reached args initial' Hr) as [pre [Hev Hnr]].
      rewrite Hev, initial_events, app_nil_r. exact Hnr.
    + unfold start. rewrite main_verdict, Hc. unfold verdict, answered.
      destruct (complete args (set_cmdCtx rootCtx initial'))
        as [[err|] w']; cbn [fst snd].
      * destruct (isErrHelp err) eqn:Hhelp;
          cbn [emit set_events events SilenceUsage set_cmdCtx fst snd].
        -- rewrite initial_events. split; [cbn; tauto|].
           split; [|reflexivity].
           intros e He. cbn in He.
           repeat (destruct He as [He|He]; [discriminate He|]).
           contradiction.
        -- rewrite initial_events.
           destruct (SilenceUsage w');
             cbn [emit set_events events fst snd];
             (split; [cbn; tauto|]); (split; [|reflexivity]);
             intros e He; cbn in He;
             repeat (destruct He as [He|He];
                     [first [discriminate He
                            | injection He as <-; reflexivity]|]);
             contradiction.
      * cbn [emit set_events events fst snd]. rewrite initial_events.
        split; [cbn; tauto|]. split; [|reflexivity].
        intros e He. cbn in He.
        repeat (destruct He as [He|He]; [discriminate He|]).
        contradiction.
  - intros wp Hc Hp Hh. unfold start.
    rewrite main_verdict, Hc, execute_parsed, Hp, Hh.
    unfold verdict. cbn [isErrHelp fst snd emit set_events events flagArgs].
    rewrite (He0 wp None Hp). auto.
  - intros wp Hc Hp Hh Hv. unfold start.
    rewrite main_verdict, Hc, execute_parsed, Hp, Hh, Hv.
    unfold verdict. cbn [fst snd emit set_events events flagArgs].
    rewrite (He0 wp None Hp). auto.
  - intros wp Hc Hp Hh Hv Hpos. unfold validationFails, start.
    rewrite main_verdict, Hc, execute_parsed, Hp, Hh, Hv.
    destruct (flagArgs wp) as [|a rest] eqn:Ha; [contradiction|].
    pose proof (parsed_frame args initial') as [_ [_ Hs]].
    rewrite Hp in Hs. cbn [snd] in Hs.
    assert (Hs0 : SilenceUsage initial' = false)
      by (destruct IsDebugBuild; reflexivity).
    unfold verdict, NoArgs. cbn [isErrHelp emit set_events SilenceUsage].
    rewrite Hs, Hs0. cbn [fst snd flagArgs emit set_events events].
    split; [exact Ha|].
    eexists. rewrite Ha. split; [reflexivity|].
    split; [reflexivity|]. cbn. auto.
Qed.

(** ** More of the course of a run *)

Lemma initial_silence : SilenceUsage initial' = false.
Proof. destruct IsDebugBuild; reflexivity. Qed.

Local Abbreviation course' :=
  (course version_Name version_Tag ParseInt ParseDuration readAsCSV
          ProviderID_Set complete zap_Build provider_Run Quote).

Lemma verdict_closing (r : option error) (w : World) :
  fst (verdict r w) = fst (closing (SilenceUsage w) r)
  /\ events (snd (verdict r w)) = snd (closing (SilenceUsage w) r) ++ events w.
Proof.
  unfold verdict, closing. destruct r as [err|]; [|split; reflexivity].
  destruct (isErrHelp err); [split; reflexivity|].
  cbn [emit set_events SilenceUsage events].
  destruct (SilenceUsage w); split; reflexivity.
Qed.

(** A run is its course followed by its end. *)
Lemma main_course (args : list string) (w : World) :
  SilenceUsage w = false ->
  fst (main' args w)
  = fst (closing (snd (fst (course' args w))) (fst (fst (course' args w))))
  /\ events (snd (main' args w))
     = snd (closing (snd (fst (course' args w)))
                    (fst (fst (course' args w))))
       ++ snd (course' args w) ++ events w.
Proof.
  intros Hs0. rewrite main_verdict. unfold course.
  destruct (isCompleteRequest args (flags w)).
  { destruct (verdict_closing (fst (complete args (set_cmdCtx rootCtx w)))
                (answered w (snd (complete args (set_cmdCtx rootCtx w)))))
      as [Hf He].
    rewrite Hf, He. cbn. auto. }
  rewrite execute_parsed.
  pose proof (parsed_frame args w) as [He [_ Hs]].
  destruct (parsed' args w) as [[err|] wp]; cbn [snd] in He, Hs.
  { destruct (verdict_closing (Some err) wp) as [Hf Hv].
    rewrite Hf, Hv, Hs, Hs0, He. auto. }
  destruct (helpVal wp).
  { destruct (verdict_closing (Some ErrHelp) wp) as [Hf Hv].
    rewrite Hf, Hv, Hs, Hs0, He. auto. }
  destruct (negb (String.eqb version_Tag EmptyString) && versionVal wp).
  { destruct (verdict_closing None (emit EvVersion wp)) as [Hf Hv].
    rewrite Hf, Hv. cbn. rewrite He. auto. }
  destruct (flagArgs wp) as [|a rest].
  2:{ destruct (verdict_closing (NoArgs Quote version_Name (a :: rest)) wp)
        as [Hf Hv].
      rewrite Hf, Hv, Hs, Hs0, He. auto. }
  destruct (initLogger zap_Build wp) as [err|l].
  { destruct (verdict_closing
                (Some (wrapError "failed to create logger: " err))
                (set_SilenceUsage true wp)) as [Hf Hv].
    rewrite Hf, Hv. cbn. rewrite He. auto. }
  cbv zeta.
  destruct (provider_Run (providerOptions wp) l rootCtx) as [err|];
    match goal with
    | |- context [verdict ?r ?w1] =>
        destruct (verdict_closing r w1) as [Hf Hv]
    end;
    rewrite Hf, Hv; cbn; rewrite He; auto.
Qed.

Lemma start_course (args : list string) :
  fst (start' args)
  = fst (closing (snd (fst (course' args initial')))
                 (fst (fst (course' args initial'))))
  /\ events (snd (start' args))
     = snd (closing (snd (fst (course' args initial')))
                    (fst (fst (course' args initial'))))
       ++ snd (course' args initial').
Proof.
  unfold start.
  destruct (main_course args initial' initial_silence) as [Hf He].
  rewrite Hf, He, initial_events, app_nil_r. auto.
Qed.

(** The cases of a run, by its course. *)
Ltac by_course args :=
  destruct (start_course args) as [Hexit Hevents];
  unfold course in Hexit, Hevents;
  destruct (isCompleteRequest args (flags initial')) eqn:Hcomplete;
  [ destruct (complete args (set_cmdCtx rootCtx initial'))
      as [[cerr|] cw] eqn:Hcerr;
    cbn [fst snd] in Hexit, Hevents;
    destruct (SilenceUsage cw) eqn:Hcsilent
  | destruct (parsed' args initial') as [[perr|] wp] eqn:Hparsed;
    [ | destruct (helpVal wp) eqn:Hhelp;
        [ | destruct (negb (String.eqb version_Tag EmptyString)
                      && versionVal wp) eqn:Hversion;
            [ | destruct (flagArgs wp) as [|a rest] eqn:Hargs;
                [ destruct (initLogger zap_Build wp) as [lerr|l0] eqn:Hlogger;
                  [ | destruct (provider_Run (providerOptions wp) l0 rootCtx)
                        as [rerr|] eqn:Hrun ]
                | ] ] ] ] ];
  cbn [fst snd NoArgs] in Hexit, Hevents;
  unfold closing in Hexit, Hevents;
  cbn [isErrHelp] in Hexit, Hevents;
  repeat match type of Hevents with
         | context [isErrHelp ?e] =>
             let Hh := fresh "Hishelp" in
             destruct (isErrHelp e) eqn:Hh
         end;
  cbn [fst snd app isErrHelp] in Hexit, Hevents.

(** ** Further properties of the entrypoint *)

(** X1.  When the provider is made, the run goes in this order: the
    provider is made, it is run with the root context, the logger is
    synced, and only then come the printing of an error or of the help, the
    stop call and the fatal log.  Each of the three happens once, and the
    logger is synced also when the provider's [Run] has failed. *)
Theorem provider_made_run_synced_in_order :
  forall (args : list string) (o : Options.t) (l : zap.Logger),
    In (EvNew o l) (events (snd (start' args))) ->
    exists pre,
      events (snd (start' args))
      = pre ++ [EvSync l; EvRun o l rootCtx; EvNew o l]
      /\ Forall afterRun pre /\ In (EvStop rootCtx) pre.
Proof.
  intros args o l Hin. by_course args; rewrite Hevents in Hin |- *;
    cbn in Hin;
    repeat (destruct Hin as [Hin|Hin]; [try discriminate Hin|]);
    try contradiction;
    injection Hin as <- <-;
    first [ eexists [_; _; _]; cbn; split; [reflexivity|]
          | eexists [_; _]; cbn; split; [reflexivity|]
          | eexists [_]; cbn; split; [reflexivity|] ];
    (split; [repeat constructor | cbn; auto]).
Qed.

Local Abbreviation pastArguments' :=
  (pastArguments version_Name version_Tag ParseInt ParseDuration readAsCSV
                 ProviderID_Set zap_Build provider_Run Quote).

(** X2.  Usage is printed only for a run that never got to a logger or to
    the provider, and such a run ends fatally: once the arguments are
    parsed fine and the pre-run hook has run, an error is reported without
    the usage. *)
Theorem usage_only_for_command_line_errors :
  forall args : list string,
    In EvUsage (events (snd (start' args))) ->
    Forall idle (events (snd (start' args)))
    /\ exists msg, fst (start' args) = Fatal msg.
Proof.
  intros args Hin. by_course args; rewrite Hevents in Hin |- *;
    rewrite Hexit; cbn in Hin;
    repeat (destruct Hin as [Hin|Hin]; [try discriminate Hin|]);
    try contradiction;
    (split; [repeat constructor | eexists; reflexivity]).
Qed.

(** X3.  A fatal exit is always the report of an error the command has
    printed: the fatal log is the last thing of the run, right after the
    stop call, and its text is [failed to run: ] followed by the text of
    that error.  A run that returns normally has reported no error. *)
Theorem fatal_exit_reports_the_error :
  forall args : list string,
    (forall msg, fst (start' args) = Fatal msg ->
       exists err rest,
         msg = ("failed to run: " ++ Error err)%string
         /\ events (snd (start' args))
            = EvFatal msg :: EvStop rootCtx :: rest
         /\ In (EvPrintError err) rest)
    /\ (fst (start' args) = Returned ->
        Forall silent (events (snd (start' args)))).
Proof.
  intros args. by_course args; rewrite Hevents, Hexit;
    (split;
     [ intros msg Hm;
       first [ discriminate Hm
             | injection Hm as <-;
               match goal with
               | |- context [EvPrintError ?e] => exists e
               end;
               eexists; split; [reflexivity|];
               split; [reflexivity | cbn; auto] ]
     | intros Hr;
       first [ discriminate Hr
             | repeat (apply Forall_cons; [exact I|]); apply Forall_nil ] ]).
Qed.

(** X4.  The version is printed only when [version.Tag] is not empty; a run
    that prints it returns normally without building a logger or making
    the provider.  With a tag, [--version] does print it; without one the
    flag does not exist. *)
Theorem version_request_never_starts_provider :
  (forall args : list string,
     In EvVersion (events (snd (start' args))) ->
     version_Tag <> EmptyString
     /\ Forall idle (events (snd (start' args)))
     /\ fst (start' args) = Returned)
  /\ (version_Tag <> EmptyString ->
      start' ["--version"]
      = (Returned,
         set_events [EvStop rootCtx; EvVersion]
           (snd (parsed' ["--version"] initial'))))
  /\ (version_Tag = EmptyString ->
      fst (start' ["--version"])
      = Fatal "failed to run: unknown flag: --version").
Proof.
  split; [|split].
  - intros args Hin. by_course args; rewrite Hevents in Hin |- *;
      rewrite Hexit; cbn in Hin;
      repeat (destruct Hin as [Hin|Hin]; [try discriminate Hin|]);
      try contradiction.
    split; [|split; [repeat constructor | reflexivity]].
    intros Hempty. rewrite Hempty in Hversion. discriminate.
  - intros Htag. destruct version_Tag; [contradiction|].
    destruct IsDebugBuild; vm_compute; reflexivity.
  - intros ->. destruct IsDebugBuild; vm_compute; reflexivity.
Qed.

Lemma verdict_variables (r : option error) (w : World) :
  debug (snd (verdict r w)) = debug w
  /\ ProviderID (snd (verdict r w)) = ProviderID w
  /\ providerOptions (snd (verdict r w)) = providerOptions w
  /\ flags (snd (verdict r w)) = flags w
  /\ flagArgs (snd (verdict r w)) = flagArgs w.
Proof.
  unfold verdict. destruct r as [err|]; [|cbn; auto].
  destruct (isErrHelp err); [cbn; auto|].
  cbn [emit set_events SilenceUsage events].
  destruct (SilenceUsage w); cbn; auto.
Qed.

Lemma main_variables (args : list string) (w : World) :
  isCompleteRequest args (flags w) = false ->
  let wf := snd (main' args w) in
  let wq := snd (parsed' args w) in
  providerOptions wf = providerOptions wq
  /\ debug wf = debug wq
  /\ ProviderID wf = ProviderID wq
  /\ flags wf = flags wq
  /\ flagArgs wf = flagArgs wq.
Proof.
  intros Hc. cbv zeta. rewrite main_verdict, Hc, execute_parsed.
  destruct (parsed' args w) as [[err|] wp]; cbn [snd].
  { destruct (verdict_variables (Some err) wp) as [Hd [Hi [Ho [Hf Ha]]]].
    auto. }
  destruct (helpVal wp).
  { destruct (verdict_variables (Some ErrHelp) wp)
      as [Hd [Hi [Ho [Hf Ha]]]].
    auto. }
  destruct (negb (String.eqb version_Tag EmptyString) && versionVal wp).
  { destruct (verdict_variables None (emit EvVersion wp))
      as [Hd [Hi [Ho [Hf Ha]]]].
    rewrite Hd, Hi, Ho, Hf, Ha. cbn. auto. }
  destruct (flagArgs wp) as [|a rest] eqn:Hargs.
  2:{ destruct (verdict_variables (NoArgs Quote version_Name (a :: rest)) wp)
        as [Hd [Hi [Ho [Hf Ha]]]].
      rewrite Hd, Hi, Ho, Hf, Ha. auto. }
  destruct (initLogger zap_Build wp) as [err|l].
  { destruct (verdict_variables
                (Some (wrapError "failed to create logger: " err))
                (set_SilenceUsage true wp)) as [Hd [Hi [Ho [Hf Ha]]]].
    rewrite Hd, Hi, Ho, Hf, Ha. cbn. auto. }
  cbv zeta.
  destruct (provider_Run (providerOptions wp) l rootCtx) as [err|];
    match goal with
    | |- context [verdict ?r ?w1] =>
        destruct (verdict_variables r w1) as [Hd [Hi [Ho [Hf Ha]]]]
    end;
    rewrite Hd, Hi, Ho, Hf, Ha; cbn; auto.
Qed.

(** X5.  Once the flags are parsed nothing in the entrypoint writes its
    variables: at the end of every run in which the root command is the
    one executed, [providerOptions], [debug], [meta.ProviderID] and the
    flags hold what parsing left in them, whether the run got to the
    provider or ended before. *)
Theorem variables_settled_by_parsing :
  forall args : list string,
    isCompleteRequest args (flags initial') = false ->
    let wf := snd (start' args) in
    let wq := snd (parsed' args initial') in
    providerOptions wf = providerOptions wq
    /\ debug wf = debug wq
    /\ ProviderID wf = ProviderID wq
    /\ flags wf = flags wq
    /\ flagArgs wf = flagArgs wq.
Proof. intros args Hc. exact (main_variables args initial' Hc). Qed.

Lemma start_debug_parsed (args : list string) (wp : World) (l : zap.Logger) :
  reached' args initial' = Some (wp, l) ->
  debug (snd (start' args)) = debug wp /\ flags (snd (start' args)) = flags wp.
Proof.
  intros Hr. apply reached_parsed in Hr. destruct Hr as [Hc [Hp _]].
  pose proof (main_variables args initial' Hc) as H. cbv zeta in H.
  rewrite Hp in H. cbn [snd] in H. unfold start. tauto.
Qed.

(** The logger of a run that makes the provider is the one [initLogger]
    builds for the [debug] switch as parsing left it. *)
Lemma start_new_logger (args : list string) (o : Options.t)
    (l : zap.Logger) :
  In (EvNew o l) (events (snd (start' args))) ->
  l = (if debug (snd (start' args)) then developmentLogger
       else productionLogger)
  /\ exists wp, reached' args initial' = Some (wp, l).
Proof.
  intros Hin. apply start_new_inv in Hin.
  destruct Hin as [wp [Hr _]].
  destruct (start_debug_parsed args wp l Hr) as [Hd _]. rewrite Hd.
  split; [|exists wp; exact Hr].
  apply reached_parsed in Hr. destruct Hr as [_ [_ [_ [_ Hl]]]].
  unfold initLogger in Hl.
  destruct (debug wp); destruct (zap_Build _); try discriminate;
    injection Hl as <-; reflexivity.
Qed.

(** X6.  The logger follows the [debug] flag: the provider is handed the
    development logger (debug level, coloured capital level names) when
    [debug] is set at the end of parsing and the production logger (info
    level) otherwise; both add stack traces at the fatal level only.  An
    invocation that does not set the flag gets the production logger, and
    [--debug] alone gets the development one. *)
Theorem logger_follows_debug :
  (forall (args : list string) (o : Options.t) (l : zap.Logger),
     In (EvNew o l) (events (snd (start' args))) ->
     l = (if debug (snd (start' args)) then developmentLogger
          else productionLogger)
     /\ (changed "debug" (snd (start' args)) = false ->
         l = productionLogger))
  /\ (forall (o : Options.t) (l : zap.Logger),
        In (EvNew o l) (events (snd (start' ["--debug"]))) ->
        l = developmentLogger).
Proof.
  split.
  - intros args o l Hin.
    destruct (start_new_logger args o l Hin) as [Hl [wp Hr]].
    split; [exact Hl|]. intros Hch.
    destruct (start_debug_parsed args wp l Hr) as [Hd Hf].
    rewrite Hl, Hd.
    apply reached_parsed in Hr. destruct Hr as [_ [Hp _]].
    assert (Hkeep : load (boolValue p_debug) wp
                    = load (boolValue p_debug) (prepared' initial')).
    { apply (Parse_keeps_unset ParseInt ParseDuration readAsCSV
               ProviderID_Set (boolValue p_debug) "debug" args
               (prepared' initial') wp);
        [only_named | exact Hp |].
      unfold changed in *. rewrite <- Hf. exact Hch. }
    unfold load, loadBool in Hkeep. injection Hkeep as Hkeep.
    rewrite Hkeep.
    destruct (prepared_frame initial') as [_ [_ [_ [_ Hdbg]]]].
    rewrite Hdbg.
    replace (debug initial') with false
      by (destruct IsDebugBuild; reflexivity).
    reflexivity.
  - intros o l Hin.
    destruct (start_new_logger ["--debug"] o l Hin) as [Hl [wp Hr]].
    destruct (start_debug_parsed ["--debug"] wp l Hr) as [Hd _].
    rewrite Hl, Hd.
    apply reached_parsed in Hr. destruct Hr as [_ [Hp _]].
    replace wp with (snd (parsed' ["--debug"] initial'))
      by (rewrite Hp; reflexivity).
    replace (debug (snd (parsed' ["--debug"] initial'))) with true
      by (destruct IsDebugBuild; destruct version_Tag;
          vm_compute; reflexivity).
    reflexivity.
Qed.

(** X7.  When the logger cannot be built the run stops there: the provider
    is never made and no logger is synced.  For an invocation that got past
    its arguments, [main] ends fatally with the logger's error wrapped
    under [failed to create logger]; the error is printed, the usage is
    not. *)
Theorem logger_failure_stops_the_run :
  (forall args : list string,
     (forall c, zap_Build c <> None) ->
     Forall idle (events (snd (start' args))))
  /\ (forall (args : list string) (wp : World) (err : error),
        pastArguments' args initial' wp ->
        initLogger zap_Build wp = inl err ->
        isErrHelp err = false ->
        start' args
        = (Fatal ("failed to run: failed to create logger: " ++ Error err),
           set_events
             [EvFatal ("failed to run: failed to create logger: "
                       ++ Error err);
              EvStop rootCtx;
              EvPrintError (wrapError "failed to create logger: " err)]
             (set_SilenceUsage true wp))).
Proof.
  split.
  - intros args Hfail. by_course args; rewrite Hevents;
      try (repeat (apply Forall_cons; [exact I|]); apply Forall_nil);
      exfalso; unfold initLogger in Hlogger;
      destruct (debug wp);
      match type of Hlogger with
      | context [zap_Build ?c] =>
          destruct (zap_Build c) eqn:Hz;
          [discriminate Hlogger | exact (Hfail c Hz)]
      end.
  - intros args wp err [Hc [Hp [Hh [Hv Ha]]]] Hl Hnh.
    pose proof (parsed_frame args initial') as [He [_ _]].
    rewrite Hp in He. cbn [snd] in He. rewrite initial_events in He.
    unfold start. rewrite main_verdict, Hc, execute_parsed, Hp, Hh, Hv, Ha, Hl.
    unfold verdict. cbn [isErrHelp]. rewrite Hnh.
    cbn [emit set_events SilenceUsage set_SilenceUsage events Error].
    unfold emit. cbn. rewrite He. reflexivity.
Qed.

(** ** The flags of [init], taken together *)

Lemma NoDup_map_same {A B : Type} (f : A -> B) (l : list A) (a b : A) :
  NoDup (map f l) -> In a l -> In b l -> f a = f b -> a = b.
Proof.
  induction l as [|x l IH]; cbn; intros Hnd Ha Hb Hf; [contradiction|].
  inversion Hnd as [|y l' Hnot Hnd']; subst.
  destruct Ha as [->|Ha]; destruct Hb as [->|Hb]; auto.
  - exfalso. apply Hnot. rewrite Hf. apply in_map. exact Hb.
  - exfalso. apply Hnot. rewrite <- Hf. apply in_map. exact Ha.
Qed.

Lemma stored_load (t : Value) (w : World) :
  inOptions t = true -> stored t (providerOptions w) = Some (load t w).
Proof.
  destruct t as [p| | | | |]; cbn; try discriminate; try reflexivity.
  destruct p; cbn; try discriminate. reflexivity.
Qed.

Lemma stored_not_inOptions (t : Value) (o o' : Options.t) :
  inOptions t = false -> stored t o = stored t o'.
Proof.
  destruct t as [p| | | | |]; cbn; try discriminate; try reflexivity.
  destruct p; cbn; try discriminate; reflexivity.
Qed.

Lemma prepared_values_distinct :
  NoDup (map FlagValue (flags (prepared' initial'))).
Proof.
  apply (distinct_NoDup Value_eq_dec).
  destruct IsDebugBuild; destruct version_Tag; vm_compute; reflexivity.
Qed.

(** X8.  Among the flags the command parses, those of [init] together with
    the help and version flags of the library, no two have the same name
    and no two store at the same place; and none of the flags of [init] has
    a one-letter form. *)
Theorem flags_are_distinct :
  NoDup (map FlagName (flags (prepared' initial')))
  /\ NoDup (map FlagValue (flags (prepared' initial')))
  /\ Forall (fun fl : Flag => Shorthand fl = None) (flags initial').
Proof.
  split; [|split].
  - apply (distinct_NoDup string_dec).
    destruct IsDebugBuild; destruct version_Tag; vm_compute; reflexivity.
  - exact prepared_values_distinct.
  - apply Forall_forall. intros fl Hin.
    assert (H : forallb (fun fl => match Shorthand fl with
                                   | None => true
                                   | Some _ => false
                                   end) (flags initial') = true)
      by (destruct IsDebugBuild; vm_compute; reflexivity).
    rewrite forallb_forall in H. specialize (H fl Hin).
    destruct (Shorthand fl); [discriminate | reflexivity].
Qed.

(** X9.  Whatever the arguments, an option of [init] that the invocation
    has not set reaches the provider with the value registration gave it:
    the field of [provider.DefaultOptions], or for the endpoint of the Omni
    API the value of [OMNI_ENDPOINT]. *)
Theorem unset_options_keep_defaults :
  forall (args : list string) (o : Options.t) (l : zap.Logger) (fl : Flag),
    In (EvNew o l) (events (snd (start' args))) ->
    In fl (flags initial') ->
    changed (FlagName fl) (snd (start' args)) = false ->
    stored (FlagValue fl) o
    = stored (FlagValue fl)
        (registeredDefaults DefaultOptions IsDebugBuild
           (Getenv environ "OMNI_ENDPOINT")).
Proof.
  intros args o l fl Hnew Hin Hch.
  destruct (inOptions (FlagValue fl)) eqn:Hopt;
    [|apply stored_not_inOptions; exact Hopt].
  destruct (start_unset (FlagValue fl) (FlagName fl) args o l)
    as [wp [-> Hload]]; [exact Hopt | | exact Hnew | exact Hch |].
  - intros fl' Hin' Hv.
    f_equal. apply (NoDup_map_same FlagValue (flags (prepared' initial')));
      [exact prepared_values_distinct | exact Hin'
      | apply prepared_flags_incl; exact Hin | exact Hv].
  - rewrite (stored_load _ wp Hopt), Hload, <- (stored_load _ initial' Hopt).
    rewrite initial_options. reflexivity.
Qed.

(** ** Edges of the command line *)

(** Every boolean flag of [init] stands for [true] when written alone. *)
Lemma registered_bool_flag (fl : Flag) (p : BoolPtr) :
  In fl (flags initial') ->
  FlagValue fl = boolValue p ->
  NoOptDefVal fl = "true"%string.
Proof.
  intros Hin Hval.
  assert (H : forallb (fun fl =>
                match FlagValue fl with
                | boolValue _ => String.eqb (NoOptDefVal fl) "true"
                | _ => true
                end) (flags initial') = true)
    by (destruct IsDebugBuild; vm_compute; reflexivity).
  rewrite forallb_forall in H. specialize (H fl Hin).
  rewrite Hval in H. apply String.eqb_eq. exact H.
Qed.

(** X10.  A boolean flag of [init] never takes the next argument as its
    value: in [--name value] the flag is switched on and the value is left
    as a positional argument; the validation by [cobra.NoArgs] fails on
    it, and the run ends fatally with the usage printed, before a logger
    is built or the provider made. *)
Theorem bool_flag_takes_no_separate_value :
  forall (fl : Flag) (p : BoolPtr) (v : string),
    In fl (flags initial') ->
    FlagValue fl = boolValue p ->
    v <> EmptyString ->
    prefix "-" v = false ->
    isCompleteRequest [v] (flags initial') = false ->
    let args := [("--" ++ FlagName fl)%string; v] in
    flagArgs (snd (start' args)) = [v]
    /\ loadBool p (snd (start' args)) = true
    /\ validationFails Quote version_Name (start' args)
    /\ In EvUsage (events (snd (start' args)))
    /\ Forall idle (events (snd (start' args))).
Proof.
  intros fl p v Hin Hval Hne Hdash Hcv. cbv zeta. unfold start.
  destruct (registered_flag_facts fl Hin)
    as [Hplain [Hl [Hlp [_ [Hnh Hnv]]]]].
  pose proof (registered_bool_flag fl p Hin Hval) as Htrue.
  assert (Hno : NoOptDefVal fl <> EmptyString)
    by (rewrite Htrue; discriminate).
  destruct before_parsing as [_ [_ [_ [Hh [Hv [Ha _]]]]]].
  set (w0 := set_flagArgs [] (prepared' initial')) in *.
  assert (Hlp0 : Lookup (FlagName fl) (flags w0) = Some fl) by exact Hlp.
  assert (Hcomplete : isCompleteRequest [("--" ++ FlagName fl)%string; v]
                        (flags initial') = false).
  { unfold isCompleteRequest in *.
    rewrite (stripFlags_alone (flags initial') fl [v] Hplain Hl Hno).
    exact Hcv. }
  pose proof (parse_long_alone w0 fl [v] Hplain Hlp0 Hno) as Hp.
  rewrite Htrue in Hp.
  assert (Hset : exists w1,
             FlagSet_Set' fl "true" w0 = (None, w1)
             /\ helpVal w1 = false /\ versionVal w1 = false
             /\ flagArgs w1 = [] /\ loadBool p w1 = true).
  { unfold FlagSet_Set, ValueSet. rewrite Hval.
    change (ParseBool "true") with (true, @None error).
    eexists. split; [reflexivity|].
    destruct p; try (exfalso; apply Hnh; rewrite Hval; reflexivity);
      try (exfalso; apply Hnv; rewrite Hval; reflexivity);
      cbn [storeBool loadBool helpVal versionVal flagArgs debug
           providerOptions set_flags set_debug set_providerOptions];
      rewrite ?Hh, ?Hv, ?Ha; repeat split.
    destruct f; reflexivity. }
  destruct Hset as [w1 [Hset [Hh1 [Hv1 [Ha1 Hb1]]]]].
  rewrite Hset in Hp.
  assert (Hpos : parseArgs' [v] w1 = (None, set_flagArgs [v] w1)).
  { destruct v as [|c v]; [contradiction|].
    cbn [parseArgs]. rewrite Ha1. cbn [app].
    destruct c as [[] [] [] [] [] [] [] []]; try reflexivity;
      cbn in Hdash; destruct v; discriminate Hdash. }
  rewrite Hpos in Hp.
  assert (Hparsed : parsed' [("--" ++ FlagName fl)%string; v] initial'
                    = (None, set_flagArgs [v] w1)) by exact Hp.
  pose proof (main_variables _ initial' Hcomplete) as Hvars.
  cbv zeta in Hvars. rewrite Hparsed in Hvars. cbn [snd] in Hvars.
  destruct Hvars as [Hvo [Hvd [_ [_ Hfa]]]].
  cbn [flagArgs set_flagArgs] in Hfa.
  destruct (start_course [("--" ++ FlagName fl)%string; v])
    as [Hexit Hevents].
  unfold course, start in Hexit, Hevents.
  rewrite Hcomplete, Hparsed in Hexit, Hevents.
  cbn [helpVal versionVal flagArgs set_flagArgs] in Hexit, Hevents.
  rewrite Hh1, Hv1, andb_false_r in Hexit, Hevents.
  cbn [fst snd NoArgs closing isErrHelp app Error] in Hexit, Hevents.
  split; [exact Hfa|]. split; [|split; [|split]].
  - destruct p; cbn [loadBool] in *.
    + rewrite Hvd. exact Hb1.
    + exfalso. apply Hnh. rewrite Hval. reflexivity.
    + exfalso. apply Hnv. rewrite Hval. reflexivity.
    + rewrite Hvo. exact Hb1.
  - unfold validationFails. rewrite Hfa.
    eexists. split; [reflexivity|]. rewrite Hexit, Hevents.
    split; [reflexivity | cbn; auto].
  - rewrite Hevents. cbn. auto.
  - rewrite Hevents. repeat constructor.
Qed.

(** X11.  The identifier and the debug switch given on a command line
    made of options of [init] are collected like the options: when [main]
    ends, [meta.ProviderID] holds what its [Set] made of the identifiers
    given, in their order, [debug] holds the last value given for it, and
    a provider that is made gets the logger that goes with that value. *)
Theorem id_and_debug_are_collected :
  forall (gs : list Given) (g : Gathered),
    Forall (fun s => In (givenFlag s) (flags initial')
                     /\ fits s = true) gs ->
    gather' gs
      (mkGathered
         (registeredDefaults DefaultOptions IsDebugBuild
            (Getenv environ "OMNI_ENDPOINT"))
         false ProviderID_init false) = Some g ->
    let args := flat_map words gs in
    ProviderID (snd (start' args)) = gID g
    /\ debug (snd (start' args)) = gDebug g
    /\ (forall o l, In (EvNew o l) (events (snd (start' args))) ->
                    l = (if gDebug g then developmentLogger
                         else productionLogger)).
Proof.
  intros gs g Hgs Hg. cbv zeta.
  destruct (options_parsed gs Hgs) as [Hc H]. rewrite Hg in H.
  destruct H as [wp [Hp [_ [Hd [Hi _]]]]].
  pose proof (main_variables _ initial' Hc) as Hvars.
  cbv zeta in Hvars. rewrite Hp in Hvars. cbn [snd] in Hvars.
  destruct Hvars as [_ [Hvd [Hvi _]]].
  assert (Hdebug : debug (snd (start' (flat_map words gs))) = gDebug g)
    by (unfold start; rewrite Hvd; exact Hd).
  split; [unfold start; rewrite Hvi; exact Hi|].
  split; [exact Hdebug|].
  intros o l Hin. destruct (start_new_logger _ o l Hin) as [Hl _].
  rewrite Hl, Hdebug. reflexivity.
Qed.

(** X12.  A flag that is not registered is a fatal error of the command
    line: for a name that neither [init] nor the library has registered,
    [--name] ends the run fatally with [unknown flag: --name]; the error and
    the usage are printed, and no logger is built nor the provider made. *)
Theorem unknown_flag_is_fatal_with_usage :
  forall n : string,
    plainName n = true ->
    Lookup n (flags (prepared' initial')) = None ->
    let err := errorString ("unknown flag: --" ++ n) in
    fst (start' [("--" ++ n)%string])
    = Fatal ("failed to run: unknown flag: --" ++ n)
    /\ events (snd (start' [("--" ++ n)%string]))
       = [EvFatal ("failed to run: unknown flag: --" ++ n);
          EvStop rootCtx; EvUsage; EvPrintError err].
Proof.
  intros n Hplain Hlook. cbv zeta.
  assert (Hnohelp : String.eqb n "help" = false).
  { destruct (String.eqb n "help") eqn:E; [|reflexivity].
    apply String.eqb_eq in E. subst n. exfalso. revert Hlook.
    destruct IsDebugBuild; destruct version_Tag; vm_compute; discriminate. }
  destruct (plainName_inv _ Hplain) as [c [n' [-> [Hc [Hcont [Hd He]]]]]].
  assert (Hcomplete : isCompleteRequest ["--" ++ String c n']%string
                        (flags initial') = false).
  { unfold isCompleteRequest. cbn [append stripFlags].
    replace (String.eqb (String "-" (String "-" (String c n'))) "--")
      with false by reflexivity.
    assert (Hcon : contains "=" (String "-" (String "-" (String c n')))
                   = false).
    { rewrite !contains_skip by discriminate. exact Hcont. }
    rewrite Hcon.
    replace (prefix "--" (String "-" (String "-" (String c n'))))
      with true by reflexivity.
    replace (prefix "-" (String "-" (String "-" (String c n'))))
      with true by reflexivity.
    cbn [String.length Nat.eqb negb andb].
    destruct (negb (hasNoOptDefVal _ _)); reflexivity. }
  assert (Hparsed : parsed' ["--" ++ String c n']%string initial'
                    = (Some (errorString ("unknown flag: --" ++ String c n')),
                       set_flagArgs [] (prepared' initial'))).
  { unfold parsed, Parse. cbn [append parseArgs]. unfold parseLongArg.
    rewrite Hc, (splitEq_plain _ Hcont).
    cbn [flags set_flagArgs]. rewrite Hlook, Hnohelp. reflexivity. }
  destruct (start_course ["--" ++ String c n']%string) as [Hexit Hevents].
  unfold course in Hexit, Hevents.
  rewrite Hcomplete, Hparsed in Hexit, Hevents.
  cbn [fst snd closing isErrHelp app Error] in Hexit, Hevents.
  rewrite Hexit, Hevents. split; reflexivity.
Qed.

(** X13.  Once the provider is made, its [Run] decides how the process
    ends: [main] returns normally when [Run] returns nil, and ends fatally
    with [failed to run: failed to run provider: ] followed by the text of
    the error when [Run] fails, the error printed without the usage.  The
    one exception is an error that is, or wraps, the help sentinel of the
    flag library: the command prints the help for it and [main] returns
    normally. *)
Theorem provider_result_decides_the_exit :
  forall (args : list string) (o : Options.t) (l : zap.Logger),
    In (EvNew o l) (events (snd (start' args))) ->
    (provider_Run o l rootCtx = None ->
     fst (start' args) = Returned
     /\ Forall silent (events (snd (start' args))))
    /\ (forall err,
          provider_Run o l rootCtx = Some err ->
          if isErrHelp err
          then fst (start' args) = Returned
               /\ In EvHelp (events (snd (start' args)))
          else fst (start' args)
               = Fatal ("failed to run: failed to run provider: "
                        ++ Error err)
               /\ In (EvPrintError (wrapError "failed to run provider: " err))
                     (events (snd (start' args)))
               /\ ~ In EvUsage (events (snd (start' args)))).
Proof.
  intros args o l Hin. by_course args; rewrite Hevents in Hin |- *;
    rewrite Hexit; cbn in Hin;
    repeat (destruct Hin as [Hin|Hin]; [try discriminate Hin|]);
    try contradiction;
    injection Hin as <- <-; rewrite Hrun;
    (split;
     [ intros Hnone;
       first [ discriminate Hnone
             | split; [reflexivity
                      | repeat (apply Forall_cons; [exact I|]);
                        apply Forall_nil] ]
     | intros err Herr;
       first [ discriminate Herr
             | injection Herr as <-;
               cbn [isErrHelp] in *;
               match goal with
               | H : isErrHelp _ = _ |- _ => rewrite H
               end;
               cbn [Error];
               repeat split; cbn; auto;
               intros Hu;
               repeat (destruct Hu as [Hu|Hu]; [discriminate Hu|]);
               contradiction ] ]).
Qed.

End ProgramFacts.

(** ** The claims at the sample surroundings *)

Lemma clear_state_only_in_debug_builds_witness :
  false = false
  /\ In (EvNew Sample.defaults Sample.logger)
        (events (snd (Sample.start false [])))
  /\ Options.ClearState Sample.defaults = false.
Proof.
  split; [reflexivity|].
  split; [vm_compute; tauto|].
  apply (proj2 (clear_state_only_in_debug_builds
                  Sample.DefaultOptions false "provider" "v0.1.0"
                  "talos.test" Sample.environ "bare-metal" Sample.ParseInt
                  Sample.ParseDuration Sample.readAsCSV
                  Sample.ProviderID_Set Sample.complete Sample.zap_Build
                  Sample.provider_Run Sample.Quote) eq_refl [] _ Sample.logger).
  vm_compute. tauto.
Defined.

Lemma ipmi_pxe_boot_mode_option_witness :
  (In (EvNew Sample.defaults Sample.logger)
      (events (snd (Sample.start false [])))
   /\ changed "ipmi-pxe-boot-mode" (snd (Sample.start false [])) = false
   /\ Options.IPMIPXEBootMode Sample.defaults = "uefi")
  /\ (In (EvNew (Options.set_IPMIPXEBootMode "bios" Sample.defaults)
                Sample.logger)
         (events (snd (Sample.start false ["--ipmi-pxe-boot-mode"; "bios"])))
      /\ Options.IPMIPXEBootMode
           (Options.set_IPMIPXEBootMode "bios" Sample.defaults) = "bios").
Proof.
  pose proof (ipmi_pxe_boot_mode_option
                Sample.DefaultOptions false "provider" "v0.1.0"
                "talos.test" Sample.environ "bare-metal" Sample.ParseInt
                Sample.ParseDuration Sample.readAsCSV
                Sample.ProviderID_Set Sample.complete Sample.zap_Build
                Sample.provider_Run Sample.Quote) as [_ [_ [_ [Hdefault Hset]]]].
  split.
  - split; [vm_compute; tauto|]. split; [vm_compute; reflexivity|].
    apply (Hdefault [] Sample.defaults Sample.logger);
      [vm_compute; tauto | vm_compute; reflexivity].
  - split; [vm_compute; tauto|].
    apply (Hset "bios" _ Sample.logger). vm_compute. tauto.
Defined.

Lemma boot_from_disk_method_option_witness :
  (In (EvNew (Options.set_BootFromDiskMethod "ipxe-sanboot" Sample.defaults)
             Sample.logger)
      (events (snd (Sample.start false
                      ["--boot-from-disk-method"; "ipxe-sanboot"])))
   /\ Options.BootFromDiskMethod
        (Options.set_BootFromDiskMethod "ipxe-sanboot" Sample.defaults)
      = "ipxe-sanboot")
  /\ (In (EvNew Sample.defaults Sample.logger)
         (events (snd (Sample.start false [])))
      /\ changed "boot-from-disk-method" (snd (Sample.start false [])) = false
      /\ Options.BootFromDiskMethod Sample.defaults = "ipxe-exit").
Proof.
  pose proof (boot_from_disk_method_option
                Sample.DefaultOptions false "provider" "v0.1.0"
                "talos.test" Sample.environ "bare-metal" Sample.ParseInt
                Sample.ParseDuration Sample.readAsCSV
                Sample.ProviderID_Set Sample.complete Sample.zap_Build
                Sample.provider_Run Sample.Quote) as [_ [_ [_ [Hset Hdefault]]]].
  split.
  - split; [vm_compute; tauto|].
    apply (Hset "ipxe-sanboot" _ Sample.logger). vm_compute. tauto.
  - split; [vm_compute; tauto|]. split; [vm_compute; reflexivity|].
    apply (Hdefault [] Sample.defaults Sample.logger);
      [vm_compute; tauto | vm_compute; reflexivity].
Defined.

Lemma redfish_set_boot_source_override_mode_option_witness :
  (In (EvNew Sample.defaults Sample.logger)
      (events (snd (Sample.start false [])))
   /\ changed "redfish-set-boot-source-override-mode"
              (snd (Sample.start false [])) = false
   /\ RedfishOptions.SetBootSourceOverrideMode
        (Options.Redfish Sample.defaults) = true)
  /\ (In (EvNew (Options.set_Redfish
                   (RedfishOptions.set_SetBootSourceOverrideMode false
                      (Options.Redfish Sample.defaults)) Sample.defaults)
                Sample.logger)
         (events (snd (Sample.start false
                         ["--redfish-set-boot-source-override-mode=false"])))
      /\ RedfishOptions.SetBootSourceOverrideMode
           (Options.Redfish
              (Options.set_Redfish
                 (RedfishOptions.set_SetBootSourceOverrideMode false
                    (Options.Redfish Sample.defaults)) Sample.defaults))
         = false).
Proof.
  pose proof (redfish_set_boot_source_override_mode_option
                Sample.DefaultOptions false "provider" "v0.1.0"
                "talos.test" Sample.environ "bare-metal" Sample.ParseInt
                Sample.ParseDuration Sample.readAsCSV
                Sample.ProviderID_Set Sample.complete Sample.zap_Build
                Sample.provider_Run Sample.Quote) as [_ [Hdefault Hset]].
  split.
  - split; [vm_compute; tauto|]. split; [vm_compute; reflexivity|].
    apply (Hdefault [] Sample.defaults Sample.logger);
      [vm_compute; tauto | vm_compute; reflexivity].
  - split; [vm_compute; tauto|].
    apply (Hset false _ Sample.logger). vm_compute. tauto.
Defined.

Lemma omni_api_endpoint_default_witness :
  (In (EvNew Sample.defaults Sample.logger)
      (events (snd (Sample.start false [])))
   /\ changed "omni-api-endpoint" (snd (Sample.start false [])) = false
   /\ Options.OmniAPIEndpoint Sample.defaults = "https://omni.example")
  /\ (lookupEnv "OMNI_ENDPOINT" [("HOME", "/root")] = None
      /\ Getenv [("HOME", "/root")] "OMNI_ENDPOINT" = EmptyString)
  /\ (In (EvNew (Options.set_OmniAPIEndpoint "https://other.example"
                   Sample.defaults) Sample.logger)
         (events (snd (Sample.start false
                         ["--omni-api-endpoint"; "https://other.example"])))
      /\ Options.OmniAPIEndpoint
           (Options.set_OmniAPIEndpoint "https://other.example"
              Sample.defaults) = "https://other.example")
  /\ (In (EvNew (Options.set_OmniAPIEndpoint "https://other.example"
                   Sample.defaults) Sample.logger)
         (events (snd (Sample.start false
                         ["--omni-api-endpoint=https://other.example"])))
      /\ Options.OmniAPIEndpoint
           (Options.set_OmniAPIEndpoint "https://other.example"
              Sample.defaults) = "https://other.example").
Proof.
  pose proof (omni_api_endpoint_default
                Sample.DefaultOptions false "provider" "v0.1.0"
                "talos.test" Sample.environ "bare-metal" Sample.ParseInt
                Sample.ParseDuration Sample.readAsCSV
                Sample.ProviderID_Set Sample.complete Sample.zap_Build
                Sample.provider_Run Sample.Quote) as [Hdefault [_ [Hset Hset']]].
  pose proof (omni_api_endpoint_default
                Sample.DefaultOptions false "provider" "v0.1.0"
                "talos.test" [("HOME", "/root")] "bare-metal" Sample.ParseInt
                Sample.ParseDuration Sample.readAsCSV
                Sample.ProviderID_Set Sample.complete Sample.zap_Build
                Sample.provider_Run Sample.Quote) as [_ [Hunset _]].
  split.
  { split; [vm_compute; tauto|]. split; [vm_compute; reflexivity|].
    apply (Hdefault [] Sample.defaults Sample.logger);
      [vm_compute; tauto | vm_compute; reflexivity]. }
  split.
  { split; [reflexivity|]. apply Hunset. reflexivity. }
  split.
  { split; [vm_compute; tauto|].
    apply (Hset "https://other.example" _ Sample.logger).
    vm_compute. tauto. }
  split; [vm_compute; tauto|].
  apply (Hset' "https://other.example" _ Sample.logger).
  vm_compute. tauto.
Defined.

Lemma root_context_reaches_provider_witness :
  In (EvRun Sample.defaults Sample.logger rootCtx)
     (events (snd (Sample.start false [])))
  /\ rootCtx = NotifyContext Background [SIGTERM; os_Interrupt].
Proof.
  split; [vm_compute; tauto|].
  apply (proj1 (root_context_reaches_provider
                  Sample.DefaultOptions false "provider" "v0.1.0"
                  "talos.test" Sample.environ "bare-metal" Sample.ParseInt
                  Sample.ParseDuration Sample.readAsCSV
                  Sample.ProviderID_Set Sample.complete Sample.zap_Build
                  Sample.provider_Run Sample.Quote) [] Sample.defaults Sample.logger).
  vm_compute. tauto.
Defined.

Lemma run_wraps_provider_error_witness :
  let o := Options.set_AgentTestMode true Sample.defaults in
  let w := set_providerOptions o (Sample.initial false) in
  (Sample.provider_Run o Sample.logger rootCtx
   = Some (errorString "provider stopped")
   /\ exists e,
        fst (run Sample.provider_Run rootCtx Sample.logger w) = Some e
        /\ Unwrap e = Some (errorString "provider stopped")
        /\ Error e = "failed to run provider: provider stopped")
  /\ (fst (Sample.start false ["--agent-test-mode"])
      = Fatal "failed to run: failed to run provider: provider stopped"
      /\ In (EvFatal "failed to run: failed to run provider: provider stopped")
            (events (snd (Sample.start false ["--agent-test-mode"])))).
Proof.
  intros o w.
  pose proof (run_wraps_provider_error
                "provider" "v0.1.0" Sample.ParseInt
                Sample.ParseDuration Sample.readAsCSV
                Sample.ProviderID_Set Sample.complete Sample.zap_Build
                Sample.provider_Run Sample.Quote) as [Hrun Hmain].
  split.
  - split; [reflexivity|].
    destruct (Hrun rootCtx Sample.logger w) as [_ Hwrap].
    apply (Hwrap (errorString "provider stopped")). reflexivity.
  - split; [vm_compute; reflexivity|].
    apply (proj2 (Hmain ["--agent-test-mode"] (Sample.initial false))).
    vm_compute. reflexivity.
Defined.

Lemma options_are_one_snapshot_witness :
  let gs := [givenNext (sampleFlag "api-port") "8080";
             givenAlone (sampleFlag "tls-enabled");
             givenEq (sampleFlag "machine-labels") "rack=r1";
             givenNext (sampleFlag "machine-labels") "zone=z2"] in
  let o := Options.set_MachineLabels ["rack=r1"; "zone=z2"]
             (set_bool f_TLS_Enabled true
                (Options.set_APIPort 8080%Z Sample.defaults)) in
  flat_map words gs
  = ["--api-port"; "8080"; "--tls-enabled"; "--machine-labels=rack=r1";
     "--machine-labels"; "zone=z2"]
  /\ Forall (fun s => In (givenFlag s) (flags (Sample.initial false))
                      /\ fits s = true) gs
  /\ gather Sample.ParseInt Sample.ParseDuration Sample.readAsCSV
            Sample.ProviderID_Set gs
            (mkGathered
               (registeredDefaults Sample.DefaultOptions false
                  (Getenv Sample.environ "OMNI_ENDPOINT"))
               false "bare-metal" false)
     = Some (mkGathered o false "bare-metal" true)
  /\ news (events (snd (Sample.start false (flat_map words gs)))) = [o]
  /\ providerOptions (snd (Sample.start false (flat_map words gs))) = o.
Proof.
  intros gs o.
  assert (Hwords : flat_map words gs
                   = ["--api-port"; "8080"; "--tls-enabled";
                      "--machine-labels=rack=r1"; "--machine-labels";
                      "zone=z2"])
    by (vm_compute; reflexivity).
  assert (Hin : forall n fl, Lookup n (flags (Sample.initial false)) = Some fl
                             -> In fl (flags (Sample.initial false)))
    by (intros n fl H; apply (Lookup_In n _ _ H)).
  assert (Hgs : Forall (fun s => In (givenFlag s) (flags (Sample.initial false))
                                 /\ fits s = true) gs).
  { repeat (apply Forall_cons; [split|]); try apply Forall_nil;
      try (vm_compute; reflexivity).
    - apply (Hin "api-port"). vm_compute. reflexivity.
    - apply (Hin "tls-enabled"). vm_compute. reflexivity.
    - apply (Hin "machine-labels"). vm_compute. reflexivity.
    - apply (Hin "machine-labels"). vm_compute. reflexivity. }
  assert (Hg : gather Sample.ParseInt Sample.ParseDuration Sample.readAsCSV
                      Sample.ProviderID_Set gs
                      (mkGathered
                         (registeredDefaults Sample.DefaultOptions false
                            (Getenv Sample.environ "OMNI_ENDPOINT"))
                         false "bare-metal" false)
               = Some (mkGathered o false "bare-metal" true))
    by (vm_compute; reflexivity).
  split; [exact Hwords|]. split; [exact Hgs|]. split; [exact Hg|].
  exact (proj2 (proj2 (proj1 (proj2 (proj2 (proj2 (proj2
           (options_are_one_snapshot
              Sample.DefaultOptions false "provider" "v0.1.0"
                "talos.test" Sample.environ "bare-metal" Sample.ParseInt
                Sample.ParseDuration Sample.readAsCSV
                Sample.ProviderID_Set Sample.complete Sample.zap_Build
                Sample.provider_Run Sample.Quote)))))
           gs (mkGathered o false "bare-metal" true) Hgs Hg)) eq_refl).
Defined.

Lemma skip_verification_is_client_side_witness :
  In (EvNew (set_bool f_TLS_AgentSkipVerify true Sample.defaults)
            Sample.logger)
     (events (snd (Sample.start false ["--tls-agent-skip-verify"])))
  /\ skipsVerification agentClient
       (set_bool f_TLS_AgentSkipVerify true Sample.defaults) = true
  /\ isClient agentClient = true
  /\ exists n,
       skipFlag agentClient = Some n
       /\ (changed n (snd (Sample.start false ["--tls-agent-skip-verify"]))
           = true
           \/ skipsVerification agentClient
                (registeredDefaults Sample.DefaultOptions false
                   (Getenv Sample.environ "OMNI_ENDPOINT")) = true).
Proof.
  split; [vm_compute; tauto|]. split; [reflexivity|].
  apply (proj1 (proj2 (proj2 (skip_verification_is_client_side
                  Sample.DefaultOptions false "provider" "v0.1.0"
                "talos.test" Sample.environ "bare-metal" Sample.ParseInt
                Sample.ParseDuration Sample.readAsCSV
                Sample.ProviderID_Set Sample.complete Sample.zap_Build
                Sample.provider_Run Sample.Quote)))
           ["--tls-agent-skip-verify"]
           (set_bool f_TLS_AgentSkipVerify true Sample.defaults)
           Sample.logger agentClient).
  - vm_compute. tauto.
  - reflexivity.
Defined.

(** C10 as it is stated fails: with [--help] before a positional argument
    the command shows the help and returns without an error; argument
    validation is never reached. *)
Lemma positional_arguments_with_help_counterexample :
  flagArgs (snd (Sample.start false ["--help"; "extra"])) = ["extra"]
  /\ fst (Sample.start false ["--help"; "extra"]) = Returned
  /\ ~ (flagArgs (snd (Sample.start false ["--help"; "extra"])) <> [] ->
        validationFails Sample.Quote "provider"
          (Sample.start false ["--help"; "extra"])
        /\ neverStarted (Sample.start false ["--help"; "extra"])).
Proof.
  split; [vm_compute; reflexivity|].
  split; [vm_compute; reflexivity|].
  intros H. destruct H as [[err [_ [Hf _]]] _].
  - vm_compute. discriminate.
  - vm_compute in Hf. discriminate.
Qed.

Lemma positional_arguments_never_run_witness :
  (flagArgs (snd (Sample.start false ["extra"])) <> []
   /\ neverStarted (Sample.start false ["extra"]))
  /\ (In (EvRun Sample.defaults Sample.logger rootCtx)
         (events (snd (Sample.start false [])))
      /\ flagArgs (snd (Sample.start false [])) = [])
  /\ (isCompleteRequest ["completion"; "bash"] (flags (Sample.initial false))
      = true
      /\ neverStarted (Sample.start false ["completion"; "bash"])
      /\ In EvCompletion
            (events (snd (Sample.start false ["completion"; "bash"]))))
  /\ (helpVal (snd (Sample.parsed false ["-h"; "extra"])) = true
      /\ flagArgs (snd (Sample.parsed false ["-h"; "extra"])) = ["extra"]
      /\ fst (Sample.start false ["-h"; "extra"]) = Returned
      /\ events (snd (Sample.start false ["-h"; "extra"]))
         = [EvStop rootCtx; EvHelp]
      /\ flagArgs (snd (Sample.start false ["-h"; "extra"]))
         = flagArgs (snd (Sample.parsed false ["-h"; "extra"])))
  /\ (versionVal (snd (Sample.parsed false ["--version"; "extra"])) = true
      /\ flagArgs (snd (Sample.parsed false ["--version"; "extra"]))
         = ["extra"]
      /\ fst (Sample.start false ["--version"; "extra"]) = Returned
      /\ events (snd (Sample.start false ["--version"; "extra"]))
         = [EvStop rootCtx; EvVersion]
      /\ flagArgs (snd (Sample.start false ["--version"; "extra"]))
         = flagArgs (snd (Sample.parsed false ["--version"; "extra"])))
  /\ (flagArgs (snd (Sample.parsed false ["extra"])) <> []
      /\ validationFails Sample.Quote "provider"
           (Sample.start false ["extra"])).
Proof.
  pose proof (positional_arguments_never_run
                Sample.DefaultOptions false "provider" "v0.1.0"
                "talos.test" Sample.environ "bare-metal" Sample.ParseInt
                Sample.ParseDuration Sample.readAsCSV
                Sample.ProviderID_Set Sample.complete Sample.zap_Build
                Sample.provider_Run Sample.Quote) as H.
  split; [|split; [|split; [|split; [|split]]]].
  - split; [vm_compute; discriminate|].
    apply (proj1 (H ["extra"])). vm_compute. discriminate.
  - split; [vm_compute; tauto|].
    apply (proj1 (proj2 (H [])) Sample.defaults Sample.logger rootCtx).
    vm_compute. tauto.
  - split; [vm_compute; reflexivity|].
    destruct (proj1 (proj2 (proj2 (H ["completion"; "bash"]))))
      as [Hnever [Hanswered _]]; [vm_compute; reflexivity|].
    split; [exact Hnever | exact Hanswered].
  - split; [vm_compute; reflexivity|].
    split; [vm_compute; reflexivity|].
    apply (proj1 (proj2 (proj2 (proj2 (H ["-h"; "extra"]))))
                 (snd (Sample.parsed false ["-h"; "extra"]))).
    + vm_compute. reflexivity.
    + vm_compute. reflexivity.
    + vm_compute. reflexivity.
  - split; [vm_compute; reflexivity|].
    split; [vm_compute; reflexivity|].
    apply (proj1 (proj2 (proj2 (proj2 (proj2 (H ["--version"; "extra"])))))
                 (snd (Sample.parsed false ["--version"; "extra"]))).
    + vm_compute. reflexivity.
    + vm_compute. reflexivity.
    + vm_compute. reflexivity.
    + vm_compute. reflexivity.
  - split; [vm_compute; discriminate|].
    apply (proj2 (proj2 (proj2 (proj2 (proj2 (H ["extra"])))))
                 (snd (Sample.parsed false ["extra"]))).
    + vm_compute. reflexivity.
    + vm_compute. reflexivity.
    + vm_compute. reflexivity.
    + vm_compute. reflexivity.
    + vm_compute. discriminate.
Defined.

(** ** The further properties at the sample surroundings *)

Lemma provider_made_run_synced_in_order_witness :
  In (EvNew Sample.defaults Sample.logger)
     (events (snd (Sample.start false [])))
  /\ exists pre,
       events (snd (Sample.start false []))
       = pre ++ [EvSync Sample.logger;
                 EvRun Sample.defaults Sample.logger rootCtx;
                 EvNew Sample.defaults Sample.logger]
       /\ Forall afterRun pre /\ In (EvStop rootCtx) pre.
Proof.
  split; [vm_compute; tauto|].
  apply (provider_made_run_synced_in_order
           Sample.DefaultOptions false "provider" "v0.1.0"
                "talos.test" Sample.environ "bare-metal" Sample.ParseInt
                Sample.ParseDuration Sample.readAsCSV
                Sample.ProviderID_Set Sample.complete Sample.zap_Build
                Sample.provider_Run Sample.Quote [] Sample.defaults Sample.logger).
  vm_compute. tauto.
Defined.

Lemma usage_only_for_command_line_errors_witness :
  In EvUsage (events (snd (Sample.start false ["--bogus"])))
  /\ Forall idle (events (snd (Sample.start false ["--bogus"])))
  /\ exists msg, fst (Sample.start false ["--bogus"]) = Fatal msg.
Proof.
  split; [vm_compute; tauto|].
  apply (usage_only_for_command_line_errors
           Sample.DefaultOptions false "provider" "v0.1.0"
                "talos.test" Sample.environ "bare-metal" Sample.ParseInt
                Sample.ParseDuration Sample.readAsCSV
                Sample.ProviderID_Set Sample.complete Sample.zap_Build
                Sample.provider_Run Sample.Quote ["--bogus"]).
  vm_compute. tauto.
Defined.

Lemma fatal_exit_reports_the_error_witness :
  fst (Sample.start false ["--bogus"])
  = Fatal "failed to run: unknown flag: --bogus"
  /\ exists err rest,
       "failed to run: unknown flag: --bogus"%string
       = ("failed to run: " ++ Error err)%string
       /\ events (snd (Sample.start false ["--bogus"]))
          = EvFatal "failed to run: unknown flag: --bogus"
            :: EvStop rootCtx :: rest
       /\ In (EvPrintError err) rest.
Proof.
  split; [vm_compute; reflexivity|].
  apply (proj1 (fatal_exit_reports_the_error
                  Sample.DefaultOptions false "provider" "v0.1.0"
                "talos.test" Sample.environ "bare-metal" Sample.ParseInt
                Sample.ParseDuration Sample.readAsCSV
                Sample.ProviderID_Set Sample.complete Sample.zap_Build
                Sample.provider_Run Sample.Quote ["--bogus"])).
  vm_compute. reflexivity.
Defined.

Lemma version_request_never_starts_provider_witness :
  In EvVersion (events (snd (Sample.start false ["--version"])))
  /\ "v0.1.0"%string <> EmptyString
  /\ Forall idle (events (snd (Sample.start false ["--version"])))
  /\ fst (Sample.start false ["--version"]) = Returned.
Proof.
  split; [vm_compute; tauto|].
  apply (proj1 (version_request_never_starts_provider
                  Sample.DefaultOptions false "provider" "v0.1.0"
                "talos.test" Sample.environ "bare-metal" Sample.ParseInt
                Sample.ParseDuration Sample.readAsCSV
                Sample.ProviderID_Set Sample.complete Sample.zap_Build
                Sample.provider_Run Sample.Quote) ["--version"]).
  vm_compute. tauto.
Defined.

Lemma variables_settled_by_parsing_witness :
  isCompleteRequest ["--api-port"; "8080"; "extra"]
    (flags (Sample.initial false)) = false
  /\ providerOptions (snd (Sample.start false ["--api-port"; "8080"; "extra"]))
     = providerOptions
         (snd (Sample.parsed false ["--api-port"; "8080"; "extra"]))
  /\ debug (snd (Sample.start false ["--api-port"; "8080"; "extra"]))
     = debug (snd (Sample.parsed false ["--api-port"; "8080"; "extra"]))
  /\ ProviderID (snd (Sample.start false ["--api-port"; "8080"; "extra"]))
     = ProviderID (snd (Sample.parsed false ["--api-port"; "8080"; "extra"]))
  /\ flags (snd (Sample.start false ["--api-port"; "8080"; "extra"]))
     = flags (snd (Sample.parsed false ["--api-port"; "8080"; "extra"]))
  /\ flagArgs (snd (Sample.start false ["--api-port"; "8080"; "extra"]))
     = flagArgs (snd (Sample.parsed false ["--api-port"; "8080"; "extra"])).
Proof.
  split; [vm_compute; reflexivity|].
  apply (variables_settled_by_parsing
           Sample.DefaultOptions false "provider" "v0.1.0"
                "talos.test" Sample.environ "bare-metal" Sample.ParseInt
                Sample.ParseDuration Sample.readAsCSV
                Sample.ProviderID_Set Sample.complete Sample.zap_Build
                Sample.provider_Run Sample.Quote ["--api-port"; "8080"; "extra"]).
  vm_compute. reflexivity.
Defined.

Lemma logger_follows_debug_witness :
  In (EvNew Sample.defaults developmentLogger)
     (events (snd (Sample.start false ["--debug"])))
  /\ debug (snd (Sample.start false ["--debug"])) = true
  /\ developmentLogger
     = (if debug (snd (Sample.start false ["--debug"]))
        then developmentLogger else productionLogger).
Proof.
  split; [vm_compute; tauto|]. split; [vm_compute; reflexivity|].
  apply (proj1 (logger_follows_debug
                  Sample.DefaultOptions false "provider" "v0.1.0"
                "talos.test" Sample.environ "bare-metal" Sample.ParseInt
                Sample.ParseDuration Sample.readAsCSV
                Sample.ProviderID_Set Sample.complete Sample.zap_Build
                Sample.provider_Run Sample.Quote) ["--debug"] Sample.defaults developmentLogger).
  vm_compute. tauto.
Defined.

Lemma logger_failure_stops_the_run_witness :
  (forall c, Faulty.zap_Build c <> None)
  /\ fst (Faulty.start [])
     = Fatal "failed to run: failed to create logger: cannot open the log sink"
  /\ Forall idle (events (snd (Faulty.start []))).
Proof.
  split; [intros c; discriminate|].
  split; [vm_compute; reflexivity|].
  apply (proj1 (logger_failure_stops_the_run
                  Sample.DefaultOptions false "provider" "v0.1.0"
                "talos.test" Sample.environ "bare-metal" Sample.ParseInt
                Sample.ParseDuration Sample.readAsCSV
                Sample.ProviderID_Set Sample.complete Faulty.zap_Build
                Sample.provider_Run Sample.Quote) []).
  intros c. discriminate.
Defined.

Lemma unset_options_keep_defaults_witness :
  In (EvNew (Options.set_APIPort 8080%Z Sample.defaults) Sample.logger)
     (events (snd (Sample.start false ["--api-port"; "8080"])))
  /\ In (sampleFlag "api-listen-address") (flags (Sample.initial false))
  /\ changed (FlagName (sampleFlag "api-listen-address"))
             (snd (Sample.start false ["--api-port"; "8080"])) = false
  /\ stored (FlagValue (sampleFlag "api-listen-address"))
            (Options.set_APIPort 8080%Z Sample.defaults)
     = stored (FlagValue (sampleFlag "api-listen-address"))
         (registeredDefaults Sample.DefaultOptions false
            (Getenv Sample.environ "OMNI_ENDPOINT")).
Proof.
  split; [vm_compute; tauto|].
  split; [apply (Lookup_In "api-listen-address"); vm_compute; reflexivity|].
  split; [vm_compute; reflexivity|].
  apply (unset_options_keep_defaults
           Sample.DefaultOptions false "provider" "v0.1.0"
                "talos.test" Sample.environ "bare-metal" Sample.ParseInt
                Sample.ParseDuration Sample.readAsCSV
                Sample.ProviderID_Set Sample.complete Sample.zap_Build
                Sample.provider_Run Sample.Quote ["--api-port"; "8080"]
           (Options.set_APIPort 8080%Z Sample.defaults) Sample.logger
           (sampleFlag "api-listen-address")).
  - vm_compute. tauto.
  - apply (Lookup_In "api-listen-address"). vm_compute. reflexivity.
  - vm_compute. reflexivity.
Defined.

Lemma bool_flag_takes_no_separate_value_witness :
  (In (sampleFlag "tls-enabled") (flags (Sample.initial false))
   /\ FlagValue (sampleFlag "tls-enabled") = boolValue (p_bool f_TLS_Enabled)
   /\ [("--" ++ FlagName (sampleFlag "tls-enabled"))%string; "false"]
      = ["--tls-enabled"; "false"]
   /\ "false"%string <> EmptyString
   /\ prefix "-" "false" = false
   /\ isCompleteRequest ["false"] (flags (Sample.initial false)) = false)
  /\ flagArgs
       (snd (Sample.start false
               [("--" ++ FlagName (sampleFlag "tls-enabled"))%string;
                "false"])) = ["false"]
  /\ loadBool (p_bool f_TLS_Enabled)
       (snd (Sample.start false
               [("--" ++ FlagName (sampleFlag "tls-enabled"))%string;
                "false"])) = true
  /\ validationFails Sample.Quote "provider"
       (Sample.start false
          [("--" ++ FlagName (sampleFlag "tls-enabled"))%string; "false"])
  /\ In EvUsage
        (events
           (snd (Sample.start false
                   [("--" ++ FlagName (sampleFlag "tls-enabled"))%string;
                    "false"])))
  /\ Forall idle
        (events
           (snd (Sample.start false
                   [("--" ++ FlagName (sampleFlag "tls-enabled"))%string;
                    "false"]))).
Proof.
  split.
  { split; [apply (Lookup_In "tls-enabled"); vm_compute; reflexivity|].
    split; [vm_compute; reflexivity|].
    split; [vm_compute; reflexivity|].
    split; [discriminate|].
    split; [reflexivity | vm_compute; reflexivity]. }
  apply (bool_flag_takes_no_separate_value
           Sample.DefaultOptions false "provider" "v0.1.0"
                "talos.test" Sample.environ "bare-metal" Sample.ParseInt
                Sample.ParseDuration Sample.readAsCSV
                Sample.ProviderID_Set Sample.complete Sample.zap_Build
                Sample.provider_Run Sample.Quote (sampleFlag "tls-enabled") (p_bool f_TLS_Enabled) "false").
  - apply (Lookup_In "tls-enabled"). vm_compute. reflexivity.
  - vm_compute. reflexivity.
  - discriminate.
  - reflexivity.
  - vm_compute. reflexivity.
Defined.

Lemma id_and_debug_are_collected_witness :
  let gs := [givenNext (sampleFlag "id") "metal-2";
             givenAlone (sampleFlag "debug");
             givenEq (sampleFlag "api-port") "8080"] in
  let g := mkGathered
             (Options.set_APIPort 8080%Z Sample.defaults)
             true "metal-2" false in
  flat_map words gs = ["--id"; "metal-2"; "--debug"; "--api-port=8080"]
  /\ Forall (fun s => In (givenFlag s) (flags (Sample.initial false))
                      /\ fits s = true) gs
  /\ gather Sample.ParseInt Sample.ParseDuration Sample.readAsCSV
            Sample.ProviderID_Set gs
            (mkGathered
               (registeredDefaults Sample.DefaultOptions false
                  (Getenv Sample.environ "OMNI_ENDPOINT"))
               false "bare-metal" false)
     = Some g
  /\ ProviderID (snd (Sample.start false (flat_map words gs))) = gID g
  /\ debug (snd (Sample.start false (flat_map words gs))) = gDebug g
  /\ (forall o l,
        In (EvNew o l) (events (snd (Sample.start false (flat_map words gs))))
        -> l = (if gDebug g then developmentLogger else productionLogger)).
Proof.
  intros gs g.
  assert (Hwords : flat_map words gs
                   = ["--id"; "metal-2"; "--debug"; "--api-port=8080"])
    by (vm_compute; reflexivity).
  assert (Hin : forall n fl, Lookup n (flags (Sample.initial false)) = Some fl
                             -> In fl (flags (Sample.initial false)))
    by (intros n fl H; apply (Lookup_In n _ _ H)).
  assert (Hgs : Forall (fun s => In (givenFlag s) (flags (Sample.initial false))
                                 /\ fits s = true) gs).
  { repeat (apply Forall_cons; [split|]); try apply Forall_nil;
      try (vm_compute; reflexivity).
    - apply (Hin "id"). vm_compute. reflexivity.
    - apply (Hin "debug"). vm_compute. reflexivity.
    - apply (Hin "api-port"). vm_compute. reflexivity. }
  assert (Hg : gather Sample.ParseInt Sample.ParseDuration Sample.readAsCSV
                      Sample.ProviderID_Set gs
                      (mkGathered
                         (registeredDefaults Sample.DefaultOptions false
                            (Getenv Sample.environ "OMNI_ENDPOINT"))
                         false "bare-metal" false)
               = Some g)
    by (vm_compute; reflexivity).
  split; [exact Hwords|]. split; [exact Hgs|]. split; [exact Hg|].
  exact (id_and_debug_are_collected
           Sample.DefaultOptions false "provider" "v0.1.0"
                "talos.test" Sample.environ "bare-metal" Sample.ParseInt
                Sample.ParseDuration Sample.readAsCSV
                Sample.ProviderID_Set Sample.complete Sample.zap_Build
                Sample.provider_Run Sample.Quote gs g Hgs Hg).
Defined.

Lemma unknown_flag_is_fatal_with_usage_witness :
  plainName "bogus" = true
  /\ Lookup "bogus"
       (flags (prepared "provider" "v0.1.0" Sample.zap_Build
                 Sample.provider_Run Sample.Quote (Sample.initial false)))
     = None
  /\ fst (Sample.start false [("--" ++ "bogus")%string])
     = Fatal ("failed to run: unknown flag: --" ++ "bogus")
  /\ events (snd (Sample.start false [("--" ++ "bogus")%string]))
     = [EvFatal ("failed to run: unknown flag: --" ++ "bogus");
        EvStop rootCtx; EvUsage;
        EvPrintError (errorString ("unknown flag: --" ++ "bogus"))].
Proof.
  split; [reflexivity|]. split; [vm_compute; reflexivity|].
  apply (unknown_flag_is_fatal_with_usage
           Sample.DefaultOptions false "provider" "v0.1.0"
                "talos.test" Sample.environ "bare-metal" Sample.ParseInt
                Sample.ParseDuration Sample.readAsCSV
                Sample.ProviderID_Set Sample.complete Sample.zap_Build
                Sample.provider_Run Sample.Quote "bogus").
  - reflexivity.
  - vm_compute. reflexivity.
Defined.

Lemma provider_result_decides_the_exit_witness :
  In (EvNew (Options.set_AgentTestMode true Sample.defaults) Sample.logger)
     (events (snd (Sample.start false ["--agent-test-mode"])))
  /\ Sample.provider_Run (Options.set_AgentTestMode true Sample.defaults)
       Sample.logger rootCtx = Some (errorString "provider stopped")
  /\ (if isErrHelp (errorString "provider stopped")
      then fst (Sample.start false ["--agent-test-mode"]) = Returned
           /\ In EvHelp (events (snd (Sample.start false ["--agent-test-mode"])))
      else fst (Sample.start false ["--agent-test-mode"])
           = Fatal ("failed to run: failed to run provider: "
                    ++ Error (errorString "provider stopped"))
           /\ In (EvPrintError
                    (wrapError "failed to run provider: "
                       (errorString "provider stopped")))
                 (events (snd (Sample.start false ["--agent-test-mode"])))
           /\ ~ In EvUsage
                  (events (snd (Sample.start false ["--agent-test-mode"])))).
Proof.
  split; [vm_compute; tauto|]. split; [reflexivity|].
  apply (proj2 (provider_result_decides_the_exit
                  Sample.DefaultOptions false "provider" "v0.1.0"
                "talos.test" Sample.environ "bare-metal" Sample.ParseInt
                Sample.ParseDuration Sample.readAsCSV
                Sample.ProviderID_Set Sample.complete Sample.zap_Build
                Sample.provider_Run Sample.Quote ["--agent-test-mode"]
                  (Options.set_AgentTestMode true Sample.defaults)
                  Sample.logger
                  ltac:(vm_compute; tauto))
           (errorString "provider stopped")).
  reflexivity.
Defined.
